(** * Foundry pipeline orchestration: DAG validation and run lifecycle

    A shallow embedding of [foundry/domain/pipelines/service.py]
    ([PipelineService]) together with the rows of
    [foundry/infrastructure/database/models.py] it reads and writes, and
    the properties of the orchestration core stated over that embedding.
    The last part embeds the callers of the service: the routes of
    [foundry/api/v1/pipelines.py] with their dependencies
    ([foundry/api/v1/deps.py]) and the exception handlers of the
    application.

    Conventions of the embedding:
    - a Python call that can raise returns a [result]: [Ok] or [Raise];
    - the SQLAlchemy session is an explicit database value [Db]; a service
      method that writes takes it and ends in an [outcome], which holds
      what the method returned or raised and the session it left behind;
      [get_session] commits the first and rolls the second back;
    - [datetime.now(timezone.utc)] is the explicit argument [now];
    - [uuid4] primary keys are keys that are fresh for the table;
    - the interpreter's recursion limit is the explicit argument [depth]
      of the recursive cycle check. *)

From stdpp Require Import gmap strings list fin_maps relations.

(* stdpp's solvers clear hypotheses that are sometimes absent. *)
Set Warnings "-clear-no-such-hyp".

Open Scope string_scope.

(** ** Exceptions ([foundry/core/exceptions.py], Python built-ins and the
    errors SQLAlchemy raises for the database) *)

Abbreviation UUID := positive.
Abbreviation datetime := nat.

Inductive Error : Type :=
| NotFoundError (resource : string) (identifier : UUID)
| ConflictError (resource : string) (message : string)
| ValidationError (message : string)
| KeyError (key : string)
| AttributeError (attribute : string)
| RecursionError
| IntegrityError (constraint : string)
| DataError (column : string).

Inductive result (A : Type) : Type :=
| Ok (a : A)
| Raise (e : Error).
Arguments Ok {A} a.
Arguments Raise {A} e.

#[global] Instance result_ret : MRet result := fun A a => Ok a.
#[global] Instance result_bind : MBind result := fun A B f m =>
  match m with
  | Ok a => f a
  | Raise e => Raise e
  end.

(** ** Database enums and JSON payloads *)

Inductive PipelineStatus : Type := PENDING | RUNNING | SUCCESS | FAILED | CANCELLED.

#[global] Instance PipelineStatus_eq_dec : EqDecision PipelineStatus.
Proof. solve_decision. Defined.

(** [status in (SUCCESS, FAILED, CANCELLED)] *)
Definition is_finished (status : PipelineStatus) : bool :=
  match status with
  | SUCCESS | FAILED | CANCELLED => true
  | PENDING | RUNNING => false
  end.

(** Truth value of a [str | None]: [None] and the empty string are false. *)
Definition truthy (s : option string) : bool :=
  match s with
  | None => false
  | Some "" => false
  | Some _ => true
  end.

(** A task entry of the [dag_definition] dictionary.  Keys read with
    [.get] may be missing, hence the options; [config] is an opaque
    payload that the service never inspects. *)
Record TaskDict : Type := mkTaskDict {
  task_id : option string;
  task_type : option string;
  config : list (string * string);
  dependencies : option (list string)
}.

(** The [dag_definition] dictionary ([DAGDefinition.model_dump()]). *)
Record DagDict : Type := mkDagDict {
  tasks : option (list TaskDict);
  default_args : list (string * string)
}.

#[global] Instance TaskDict_eq_dec : EqDecision TaskDict.
Proof. solve_decision. Defined.
#[global] Instance DagDict_eq_dec : EqDecision DagDict.
Proof. solve_decision. Defined.

(** [d.get(key, [])] *)
Definition get_list {A} (o : option (list A)) : list A := default [] o.

(** ** DAG validation ([PipelineService._validate_dag]) *)

Definition msg_empty : string := "DAG must have at least one task".
Definition msg_no_task_id : string := "Each task must have a task_id".
Definition msg_duplicate (tid : string) : string := "Duplicate task_id: " +:+ tid.
Definition msg_unknown (tid dep : string) : string :=
  "Task '" +:+ tid +:+ "' depends on unknown task '" +:+ dep +:+ "'".
Definition msg_cycle : string := "DAG contains a cycle".

(** First loop of [_validate_dag]: collect the ids into [task_ids]. *)
Fixpoint collect_task_ids (ts : list TaskDict) (task_ids : gset string)
    : result (gset string) :=
  match ts with
  | [] => Ok task_ids
  | task :: rest =>
      if truthy (task_id task) then
        let tid := default "" (task_id task) in
        if decide (tid ∈ task_ids) then Raise (ValidationError (msg_duplicate tid))
        else collect_task_ids rest (task_ids ∪ {[tid]})
      else Raise (ValidationError msg_no_task_id)
  end.

(** Inner loop over [task.get("dependencies", [])]. *)
Fixpoint check_task_dependencies (task : TaskDict) (deps : list string)
    (task_ids : gset string) : result unit :=
  match deps with
  | [] => Ok ()
  | dep :: rest =>
      if decide (dep ∈ task_ids) then check_task_dependencies task rest task_ids
      else match task_id task with
           | Some tid => Raise (ValidationError (msg_unknown tid dep))
           | None => Raise (KeyError "task_id")
           end
  end.

(** Second loop of [_validate_dag]. *)
Fixpoint check_dependencies (ts : list TaskDict) (task_ids : gset string)
    : result unit :=
  match ts with
  | [] => Ok ()
  | task :: rest =>
      check_task_dependencies task (get_list (dependencies task)) task_ids ;;
      check_dependencies rest task_ids
  end.

(** ** Cycle check ([PipelineService._check_dag_cycles]) *)

(** An insertion-ordered [dict[str, list[str]]]: the mapping, and the
    keys in the order a [for] loop yields them. *)
Record graph_dict : Type := mkGraph {
  g_map : gmap string (list string);
  g_keys : list string
}.

Definition graph_empty : graph_dict := mkGraph ∅ [].

(** [graph[k] = v]: a key that is already present keeps its position. *)
Definition graph_set (k : string) (v : list string) (g : graph_dict) : graph_dict :=
  mkGraph (<[k := v]> (g_map g))
          (if decide (k ∈ g_keys g) then g_keys g else g_keys g ++ [k]).

(** [graph.get(k, [])] *)
Definition graph_get (g : graph_dict) (k : string) : list string :=
  default [] (g_map g !! k).

Fixpoint build_graph (ts : list TaskDict) (g : graph_dict) : result graph_dict :=
  match ts with
  | [] => Ok g
  | task :: rest =>
      match task_id task with
      | None => Raise (KeyError "task_id")
      | Some tid => build_graph rest (graph_set tid (get_list (dependencies task)) g)
      end
  end.

Inductive Color : Type := WHITE | GRAY | BLACK.

#[global] Instance Color_eq_dec : EqDecision Color.
Proof. solve_decision. Defined.

(** [{task_id: WHITE for task_id in graph}] *)
Definition initial_color (g : graph_dict) : gmap string Color :=
  foldr (fun k c => <[k := WHITE]> c) ∅ (g_keys g).

(** The [for neighbor in graph.get(node, [])] loop of [dfs], with the
    recursive call [dfs(neighbor)] as [rec].  The colouring is the
    closure's shared [color] dictionary, threaded through. *)
Fixpoint dfs_neighbors
    (rec : string -> gmap string Color -> result (bool * gmap string Color))
    (node : string) (neighbors : list string) (color : gmap string Color)
    : result (bool * gmap string Color) :=
  match neighbors with
  | [] => Ok (false, <[node := BLACK]> color)
  | neighbor :: rest =>
      match color !! neighbor with
      | None => Raise (KeyError neighbor)
      | Some GRAY => Ok (true, color)
      | Some WHITE =>
          '(found, color') ← rec neighbor color;
          if found : bool then Ok (true, color')
          else dfs_neighbors rec node rest color'
      | Some BLACK => dfs_neighbors rec node rest color
      end
  end.

(** [dfs(node)]; [depth] is the number of Python frames still available
    before the interpreter raises [RecursionError]. *)
Fixpoint dfs (depth : nat) (g : graph_dict) (node : string)
    (color : gmap string Color) : result (bool * gmap string Color) :=
  match depth with
  | O => Raise RecursionError
  | S depth' =>
      dfs_neighbors (dfs depth' g) node (graph_get g node) (<[node := GRAY]> color)
  end.

(** The [for task_id in graph] loop starting a search at every node that
    is still white. *)
Fixpoint dfs_roots (depth : nat) (g : graph_dict) (roots : list string)
    (color : gmap string Color) : result (gmap string Color) :=
  match roots with
  | [] => Ok color
  | tid :: rest =>
      match color !! tid with
      | None => Raise (KeyError tid)
      | Some WHITE =>
          '(found, color') ← dfs depth g tid color;
          if found : bool then Raise (ValidationError msg_cycle)
          else dfs_roots depth g rest color'
      | Some _ => dfs_roots depth g rest color
      end
  end.

(** [_check_dag_cycles], returning the final colouring in place of [None]. *)
Definition check_dag_cycles_color (depth : nat) (ts : list TaskDict)
    : result (gmap string Color) :=
  g ← build_graph ts graph_empty;
  dfs_roots depth g (g_keys g) (initial_color g).

Definition _check_dag_cycles (depth : nat) (ts : list TaskDict) : result unit :=
  check_dag_cycles_color depth ts ;; Ok ().

Definition _validate_dag (depth : nat) (dag_definition : DagDict) : result unit :=
  let ts := get_list (tasks dag_definition) in
  match ts with
  | [] => Raise (ValidationError msg_empty)
  | _ =>
      task_ids ← collect_task_ids ts ∅;
      check_dependencies ts task_ids ;;
      _check_dag_cycles depth ts
  end.



(** ** Request schemas ([foundry/domain/pipelines/schemas.py]) *)

Record TaskDefinition : Type := mkTaskDefinition {
  td_task_id : string;
  td_task_type : string;
  td_config : list (string * string);
  td_dependencies : list string
}.

Record DAGDefinition : Type := mkDAGDefinition {
  dd_tasks : list TaskDefinition;
  dd_default_args : list (string * string)
}.

#[global] Instance TaskDefinition_eq_dec : EqDecision TaskDefinition.
Proof. solve_decision. Defined.

(** The [Field(..., min_length=1, max_length=...)] constraints that
    pydantic enforces when it builds a [TaskDefinition]. *)
Definition valid_TaskDefinition (t : TaskDefinition) : Prop :=
  1 <= String.length (td_task_id t) <= 255 /\
  1 <= String.length (td_task_type t) <= 100.

Definition valid_DAGDefinition (d : DAGDefinition) : Prop :=
  Forall valid_TaskDefinition (dd_tasks d).

(** [TaskDefinition.model_dump()] and [DAGDefinition.model_dump()]:
    every field becomes a key of the dictionary. *)
Definition task_model_dump (t : TaskDefinition) : TaskDict :=
  mkTaskDict (Some (td_task_id t)) (Some (td_task_type t)) (td_config t)
             (Some (td_dependencies t)).

Definition model_dump (d : DAGDefinition) : DagDict :=
  mkDagDict (Some (task_model_dump <$> dd_tasks d)) (dd_default_args d).

Record TriggerPipelineRequest : Type := mkTriggerPipelineRequest {
  tr_parameters : list (string * string);
  tr_trigger_type : string
}.

(** [PipelineUpdate]; an unset field and a field set to [None] are
    treated alike by [update_pipeline], so both are [None] here. *)
Record PipelineUpdate : Type := mkPipelineUpdate {
  pu_description : option string;
  pu_dag_definition : option DAGDefinition;
  pu_schedule : option string;
  pu_enabled : option bool
}.

(** ** Database rows ([foundry/infrastructure/database/models.py])

    The audit columns [created_at] and [updated_at] of [TimestampMixin]
    are not part of the rows below. *)

Record Pipeline : Type := mkPipeline {
  p_id : UUID;
  p_tenant_id : UUID;
  p_name : string;
  p_description : option string;
  p_dag_definition : DagDict;
  p_schedule : option string;
  p_enabled : bool;
  p_owner_id : option UUID;
  p_deleted_at : option datetime
}.

Record PipelineRun : Type := mkPipelineRun {
  r_id : UUID;
  r_tenant_id : UUID;
  r_pipeline_id : UUID;
  r_status : PipelineStatus;
  r_trigger_type : string;
  r_start_time : option datetime;
  r_end_time : option datetime;
  r_parameters : list (string * string);
  r_error_message : option string;
  r_triggered_by : option UUID
}.

Record PipelineTask : Type := mkPipelineTask {
  t_id : UUID;
  t_tenant_id : UUID;
  t_pipeline_run_id : UUID;
  t_task_id : string;
  t_status : PipelineStatus;
  t_start_time : option datetime;
  t_end_time : option datetime;
  t_error_message : option string;
  t_logs : option string
}.

(** The three tables of the pipelines domain, keyed by primary key, and
    the ids of the rows of [users] and [tenants], which foreign keys of
    the three tables refer to and which the pipeline service never
    writes. *)
Record Db : Type := mkDb {
  pipelines : gmap UUID Pipeline;
  pipeline_runs : gmap UUID PipelineRun;
  pipeline_tasks : gmap UUID PipelineTask;
  users : gset UUID;
  tenants : gset UUID
}.

(** Attribute assignments on ORM rows. *)
Definition set_p_description (v : string) (p : Pipeline) : Pipeline :=
  mkPipeline (p_id p) (p_tenant_id p) (p_name p) (Some v) (p_dag_definition p)
             (p_schedule p) (p_enabled p) (p_owner_id p) (p_deleted_at p).
Definition set_p_dag_definition (v : DagDict) (p : Pipeline) : Pipeline :=
  mkPipeline (p_id p) (p_tenant_id p) (p_name p) (p_description p) v
             (p_schedule p) (p_enabled p) (p_owner_id p) (p_deleted_at p).
Definition set_p_schedule (v : string) (p : Pipeline) : Pipeline :=
  mkPipeline (p_id p) (p_tenant_id p) (p_name p) (p_description p) (p_dag_definition p)
             (Some v) (p_enabled p) (p_owner_id p) (p_deleted_at p).
Definition set_p_enabled (v : bool) (p : Pipeline) : Pipeline :=
  mkPipeline (p_id p) (p_tenant_id p) (p_name p) (p_description p) (p_dag_definition p)
             (p_schedule p) v (p_owner_id p) (p_deleted_at p).

Definition set_r_status (v : PipelineStatus) (r : PipelineRun) : PipelineRun :=
  mkPipelineRun (r_id r) (r_tenant_id r) (r_pipeline_id r) v (r_trigger_type r)
                (r_start_time r) (r_end_time r) (r_parameters r) (r_error_message r)
                (r_triggered_by r).
Definition set_r_start_time (v : datetime) (r : PipelineRun) : PipelineRun :=
  mkPipelineRun (r_id r) (r_tenant_id r) (r_pipeline_id r) (r_status r) (r_trigger_type r)
                (Some v) (r_end_time r) (r_parameters r) (r_error_message r)
                (r_triggered_by r).
Definition set_r_end_time (v : datetime) (r : PipelineRun) : PipelineRun :=
  mkPipelineRun (r_id r) (r_tenant_id r) (r_pipeline_id r) (r_status r) (r_trigger_type r)
                (r_start_time r) (Some v) (r_parameters r) (r_error_message r)
                (r_triggered_by r).
Definition set_r_error_message (v : option string) (r : PipelineRun) : PipelineRun :=
  mkPipelineRun (r_id r) (r_tenant_id r) (r_pipeline_id r) (r_status r) (r_trigger_type r)
                (r_start_time r) (r_end_time r) (r_parameters r) v
                (r_triggered_by r).

Definition set_t_status (v : PipelineStatus) (t : PipelineTask) : PipelineTask :=
  mkPipelineTask (t_id t) (t_tenant_id t) (t_pipeline_run_id t) (t_task_id t) v
                 (t_start_time t) (t_end_time t) (t_error_message t) (t_logs t).
Definition set_t_start_time (v : datetime) (t : PipelineTask) : PipelineTask :=
  mkPipelineTask (t_id t) (t_tenant_id t) (t_pipeline_run_id t) (t_task_id t) (t_status t)
                 (Some v) (t_end_time t) (t_error_message t) (t_logs t).
Definition set_t_end_time (v : datetime) (t : PipelineTask) : PipelineTask :=
  mkPipelineTask (t_id t) (t_tenant_id t) (t_pipeline_run_id t) (t_task_id t) (t_status t)
                 (t_start_time t) (Some v) (t_error_message t) (t_logs t).
Definition set_t_error_message (v : option string) (t : PipelineTask) : PipelineTask :=
  mkPipelineTask (t_id t) (t_tenant_id t) (t_pipeline_run_id t) (t_task_id t) (t_status t)
                 (t_start_time t) (t_end_time t) v (t_logs t).
Definition set_t_logs (v : option string) (t : PipelineTask) : PipelineTask :=
  mkPipelineTask (t_id t) (t_tenant_id t) (t_pipeline_run_id t) (t_task_id t) (t_status t)
                 (t_start_time t) (t_end_time t) (t_error_message t) v.

Definition with_pipelines (db : Db) (m : gmap UUID Pipeline) : Db :=
  mkDb m (pipeline_runs db) (pipeline_tasks db) (users db) (tenants db).
Definition with_runs (db : Db) (m : gmap UUID PipelineRun) : Db :=
  mkDb (pipelines db) m (pipeline_tasks db) (users db) (tenants db).
Definition with_tasks (db : Db) (m : gmap UUID PipelineTask) : Db :=
  mkDb (pipelines db) (pipeline_runs db) m (users db) (tenants db).

(** ** What [session.flush()] can meet

    The constraints of the three tables, from [models.py] and the
    migration [alembic/versions/20250117_0001_initial_schema.py], that a
    request can break.  The bounds of [name], [trigger_type] and
    [task_id] are those of the request schemas that feed these columns
    ([PipelineCreate], [TriggerPipelineRequest], [TaskDefinition]);
    [PipelineUpdate] puts no bound on [schedule]. *)

(** A nullable foreign key to [users.id] ([owner_id], [triggered_by]):
    [NULL], or the id of a row of [users]. *)
Definition references_user (user_id : option UUID) (db : Db) : Prop :=
  match user_id with
  | Some u => u ∈ users db
  | None => True
  end.

#[global] Instance references_user_dec user_id db : Decision (references_user user_id db).
Proof. destruct user_id; simpl; apply _. Defined.

(** A nullable [String(n)] column holds [value]. *)
Definition fits (n : nat) (value : option string) : Prop :=
  match value with
  | Some s => String.length s <= n
  | None => True
  end.

#[global] Instance fits_dec n value : Decision (fits n value).
Proof. destruct value; simpl; apply _. Defined.

(** ** The service ([PipelineService])

    A service method runs against the session: it either returns a value
    or raises, and in both cases leaves the session in some state. *)

Inductive outcome (A : Type) : Type :=
| Returns (a : A) (db : Db)
| Raises (e : Error) (db : Db).
Arguments Returns {A} a db.
Arguments Raises {A} e db.

(** [get_session]: the request's work is committed when it returns and
    rolled back when it raises. *)
Definition get_session {A} (request : Db -> outcome A) (db : Db) : result A * Db :=
  match request db with
  | Returns a db' => (Ok a, db')
  | Raises e _ => (Raise e, db)
  end.

Section Service.

(** [self.tenant_id] *)
Variable tenant_id : UUID.

Definition get_pipeline (db : Db) (pipeline_id : UUID) : result Pipeline :=
  match pipelines db !! pipeline_id with
  | Some p =>
      if decide (p_tenant_id p = tenant_id /\ p_deleted_at p = None) then Ok p
      else Raise (NotFoundError "Pipeline" pipeline_id)
  | None => Raise (NotFoundError "Pipeline" pipeline_id)
  end.

Definition get_pipeline_run (db : Db) (run_id : UUID) : result PipelineRun :=
  match pipeline_runs db !! run_id with
  | Some r =>
      if decide (r_tenant_id r = tenant_id) then Ok r
      else Raise (NotFoundError "PipelineRun" run_id)
  | None => Raise (NotFoundError "PipelineRun" run_id)
  end.

(** The row that [trigger_pipeline] builds for one task. *)
Definition new_task (run_id id : UUID) (tid : string) : PipelineTask :=
  mkPipelineTask id tenant_id run_id tid PENDING None None None None.

(** The task-creation loop of [trigger_pipeline]: one [session.add] per
    entry of [dag.get("tasks", [])]. *)
Fixpoint add_tasks (run_id : UUID) (task_defs : list TaskDict) (db : Db)
    : outcome unit :=
  match task_defs with
  | [] => Returns () db
  | task_def :: rest =>
      match task_id task_def with
      | None => Raises (KeyError "task_id") db
      | Some tid =>
          let id := fresh (dom (pipeline_tasks db)) in
          add_tasks run_id rest
            (with_tasks db (<[id := new_task run_id id tid]> (pipeline_tasks db)))
      end
  end.

Definition trigger_pipeline (pipeline_id : UUID) (data : TriggerPipelineRequest)
    (user_id : option UUID) (db : Db) : outcome PipelineRun :=
  match get_pipeline db pipeline_id with
  | Raise e => Raises e db
  | Ok pipeline =>
      if negb (p_enabled pipeline) then Raises (ValidationError "Pipeline is disabled") db
      else
        let id := fresh (dom (pipeline_runs db)) in
        let pipeline_run :=
          mkPipelineRun id tenant_id pipeline_id PENDING (tr_trigger_type data)
                        None None (tr_parameters data) None user_id in
        if decide (references_user user_id db) then
          let db := with_runs db (<[id := pipeline_run]> (pipeline_runs db)) in
          let dag := p_dag_definition pipeline in
          match add_tasks id (get_list (tasks dag)) db with
          | Raises e db => Raises e db
          | Returns _ db => Returns pipeline_run db
          end
        else Raises (IntegrityError "pipeline_runs_triggered_by_fkey") db
  end.

Definition update_run_status (now : datetime) (run_id : UUID)
    (status : PipelineStatus) (error_message : option string) (db : Db)
    : outcome PipelineRun :=
  match get_pipeline_run db run_id with
  | Raise e => Raises e db
  | Ok run =>
      let run :=
        if decide (status = RUNNING /\ r_status run = PENDING)
        then set_r_start_time now run else run in
      let run :=
        if is_finished status then
          let run := set_r_end_time now run in
          if truthy error_message then set_r_error_message error_message run else run
        else run in
      let run := set_r_status status run in
      Returns run (with_runs db (<[run_id := run]> (pipeline_runs db)))
  end.

Definition cancel_pipeline_run (now : datetime) (run_id : UUID) (db : Db)
    : outcome PipelineRun :=
  match get_pipeline_run db run_id with
  | Raise e => Raises e db
  | Ok run =>
      if decide (r_status run = PENDING \/ r_status run = RUNNING)
      then update_run_status now run_id CANCELLED None db
      else Raises (ValidationError "Cannot cancel a completed pipeline run") db
  end.

(** [get_pipeline_tasks]: the rows of the run (the order of the result
    is not represented). *)
Definition get_pipeline_tasks (db : Db) (run_id : UUID)
    : result (gmap UUID PipelineTask) :=
  get_pipeline_run db run_id ;;
  Ok (filter (fun kv => t_pipeline_run_id kv.2 = run_id /\ t_tenant_id kv.2 = tenant_id)
             (pipeline_tasks db)).

Definition update_task_status (now : datetime) (task_id : UUID)
    (status : PipelineStatus) (error_message logs : option string) (db : Db)
    : outcome PipelineTask :=
  match pipeline_tasks db !! task_id with
  | None => Raises (NotFoundError "PipelineTask" task_id) db
  | Some task =>
      if decide (t_tenant_id task = tenant_id) then
        let task :=
          if decide (status = RUNNING /\ t_status task = PENDING)
          then set_t_start_time now task else task in
        let task := if is_finished status then set_t_end_time now task else task in
        let task := set_t_status status task in
        let task := if truthy error_message then set_t_error_message error_message task else task in
        let task := if truthy logs then set_t_logs logs task else task in
        Returns task (with_tasks db (<[task_id := task]> (pipeline_tasks db)))
      else Raises (NotFoundError "PipelineTask" task_id) db
  end.

(** *** [update_pipeline]

    [update_data = data.model_dump(exclude_unset=True)] holds, under the
    key [dag_definition], whatever pydantic leaves there for the nested
    model: the [DAGDefinition] object itself or its dictionary.  That
    choice belongs to the library, so it is the parameter
    [dump_nested] here; [value_model_dump] is the attribute call
    [update_data["dag_definition"].model_dump()] on either value. *)
Inductive dag_value : Type :=
| DagModel (d : DAGDefinition)
| DagPlain (d : DagDict).

Definition value_model_dump (v : dag_value) : result DagDict :=
  match v with
  | DagModel d => Ok (model_dump d)
  | DagPlain _ => Raise (AttributeError "model_dump")
  end.

Variable dump_nested : DAGDefinition -> dag_value.

(** The [if "dag_definition" in update_data ...] block: the validated
    dictionary that replaces the entry, if there is one. *)
Definition updated_dag (depth : nat) (data : PipelineUpdate) : result (option DagDict) :=
  match pu_dag_definition data with
  | Some d =>
      let v := dump_nested d in
      dumped ← value_model_dump v;
      _validate_dag depth dumped ;;
      dumped ← value_model_dump v;
      Ok (Some dumped)
  | None => Ok None
  end.

(** [depth] is the interpreter's remaining recursion depth, see [dfs]. *)
Definition update_pipeline (depth : nat) (pipeline_id : UUID) (data : PipelineUpdate)
    (db : Db) : outcome Pipeline :=
  match get_pipeline db pipeline_id with
  | Raise e => Raises e db
  | Ok pipeline =>
      match updated_dag depth data with
      | Raise e => Raises e db
      | Ok new_dag =>
          let pipeline := from_option (fun v => set_p_description v pipeline) pipeline
                                      (pu_description data) in
          let pipeline := from_option (fun v => set_p_dag_definition v pipeline) pipeline
                                      new_dag in
          let pipeline := from_option (fun v => set_p_schedule v pipeline) pipeline
                                      (pu_schedule data) in
          let pipeline := from_option (fun v => set_p_enabled v pipeline) pipeline
                                      (pu_enabled data) in
          if decide (fits 100 (pu_schedule data))
          then Returns pipeline
                       (with_pipelines db (<[pipeline_id := pipeline]> (pipelines db)))
          else Raises (DataError "schedule") db
      end
  end.

End Service.

(** ** Sample rows used in the examples *)

Definition tenant0 : UUID := 1%positive.

Definition dag_chain : DAGDefinition :=
  mkDAGDefinition
    [mkTaskDefinition "A" "training" [] []; mkTaskDefinition "B" "evaluation" [] ["A"]] [].

(** The cyclic graph A -> B -> C -> A (each task depends on the previous
    one), and the graph in which B and C each depend on A. *)
Definition dag_cyclic : DAGDefinition :=
  mkDAGDefinition
    [mkTaskDefinition "A" "training" [] ["C"]; mkTaskDefinition "B" "training" [] ["A"];
     mkTaskDefinition "C" "training" [] ["B"]] [].

Definition dag_fork : DAGDefinition :=
  mkDAGDefinition
    [mkTaskDefinition "A" "training" [] []; mkTaskDefinition "B" "training" [] ["A"];
     mkTaskDefinition "C" "training" [] ["A"]] [].

(** Two unconnected parts, the second of them cyclic. *)
Definition dag_two_parts : DAGDefinition :=
  mkDAGDefinition
    [mkTaskDefinition "A" "training" [] []; mkTaskDefinition "B" "training" [] ["A"];
     mkTaskDefinition "X" "training" [] ["Y"]; mkTaskDefinition "Y" "training" [] ["X"]] [].

Definition dag_flat : DAGDefinition :=
  mkDAGDefinition
    [mkTaskDefinition "A" "training" [] []; mkTaskDefinition "B" "evaluation" [] []] [].

(** Two malformed definitions: a repeated id, and a dependency on an id
    that no task has. *)
Definition dag_duplicate : DAGDefinition :=
  mkDAGDefinition
    [mkTaskDefinition "A" "training" [] []; mkTaskDefinition "B" "evaluation" [] ["A"];
     mkTaskDefinition "A" "evaluation" [] []] [].

Definition dag_dangling : DAGDefinition :=
  mkDAGDefinition
    [mkTaskDefinition "A" "training" [] []; mkTaskDefinition "B" "evaluation" [] ["A"; "Z"]] [].

(** A task that depends on itself. *)
Definition dag_self : DAGDefinition :=
  mkDAGDefinition
    [mkTaskDefinition "A" "training" [] []; mkTaskDefinition "B" "training" [] ["A"; "B"]] [].

Definition pipeline_of (enabled : bool) (d : DAGDefinition) : Pipeline :=
  mkPipeline 7 tenant0 "nightly" None (model_dump d) None enabled None None.

Definition db_of (p : Pipeline) : Db := mkDb {[ p_id p := p ]} ∅ ∅ ∅ {[ tenant0 ]}.

Definition request0 : TriggerPipelineRequest := mkTriggerPipelineRequest [] "manual".

Definition run0 (status : PipelineStatus) (start_time end_time : option datetime)
    : PipelineRun :=
  mkPipelineRun 1 tenant0 7 status "manual" start_time end_time [] None None.

Definition task0 (id : UUID) (tid : string) (status : PipelineStatus)
    (start_time : option datetime) : PipelineTask :=
  mkPipelineTask id tenant0 1 tid status start_time None None None.

(** A run in [RUNNING] whose task [A] is running and whose task [B] is
    still pending. *)
Definition db_running : Db :=
  mkDb {[ 7%positive := pipeline_of true dag_chain ]}
       {[ 1%positive := run0 RUNNING (Some 5) None ]}
       {[ 1%positive := task0 1 "A" RUNNING (Some 5);
          2%positive := task0 2 "B" PENDING None ]}
       ∅ {[ tenant0 ]}.

(** The same run after task [A] has failed; task [B] depends on [A]. *)
Definition db_failed : Db :=
  mkDb {[ 7%positive := pipeline_of true dag_chain ]}
       {[ 1%positive := run0 RUNNING (Some 5) None ]}
       {[ 1%positive := set_t_end_time 6 (task0 1 "A" FAILED (Some 5));
          2%positive := task0 2 "B" PENDING None ]}
       ∅ {[ tenant0 ]}.

(** A run that has completed successfully. *)
Definition db_done : Db :=
  mkDb {[ 7%positive := pipeline_of true dag_chain ]}
       {[ 1%positive := run0 SUCCESS (Some 5) (Some 8) ]}
       {[ 1%positive := set_t_end_time 6 (task0 1 "A" SUCCESS (Some 5));
          2%positive := set_t_end_time 8 (task0 2 "B" SUCCESS (Some 6)) ]}
       ∅ {[ tenant0 ]}.

(** ** Observations used to state the properties *)

(** The rows a request leaves in the run and task tables, next to what
    it returned or raised. *)
Definition session_rows {A} (o : outcome A)
    : result A * gmap UUID PipelineRun * gmap UUID PipelineTask :=
  match o with
  | Returns a db => (Ok a, pipeline_runs db, pipeline_tasks db)
  | Raises e db => (Raise e, pipeline_runs db, pipeline_tasks db)
  end.

(** The task ids of a [dag_definition] dictionary, in order. *)
Definition dag_task_ids (dag : DagDict) : list (option string) :=
  task_id <$> get_list (tasks dag).

(** [pipeline.dag_definition = dag] on the row of [pipeline_id]. *)
Definition store_dag (pipeline_id : UUID) (dag : DagDict) (db : Db) : Db :=
  with_pipelines db (alter (set_p_dag_definition dag) pipeline_id (pipelines db)).

(** pydantic's dump of a nested model: its dictionary. *)
Definition DagPlain_dump (d : DAGDefinition) : dag_value := DagPlain (model_dump d).

(** ** Graph notions used to state what the cycle check decides *)

(** [v] is listed under [u] in the adjacency dictionary. *)
Definition edge (g : graph_dict) (u v : string) : Prop := v ∈ graph_get g u.

Definition has_cycle (g : graph_dict) : Prop := exists u, tc (edge g) u u.

(** Task [u] of the definition lists [v] among its dependencies. *)
Definition depends_on (d : DAGDefinition) (u v : string) : Prop :=
  exists t, t ∈ dd_tasks d /\ td_task_id t = u /\ v ∈ td_dependencies t.

Definition cyclic (d : DAGDefinition) : Prop := exists u, tc (depends_on d) u u.

(** Every dependency names a task of the definition. *)
Definition dependencies_known (d : DAGDefinition) : Prop :=
  Forall (fun t => Forall (fun dep => dep ∈ td_task_id <$> dd_tasks d) (td_dependencies t))
         (dd_tasks d).

(** The nodes that are still white. *)
Definition whites (c : gmap string Color) : gset string :=
  dom (filter (fun kv => kv.2 = WHITE) c).

(** Invariants of the traversal: every node met has a colour; a finished
    node has only finished neighbours and lies on no cycle; every node
    in progress reaches the node being visited; between two points of the
    traversal a colour stays or goes from white to black. *)
Definition dom_closed (g : graph_dict) (c : gmap string Color) : Prop :=
  forall u v, is_Some (c !! u) -> edge g u v -> is_Some (c !! v).

Definition black_ok (g : graph_dict) (c : gmap string Color) : Prop :=
  forall u, c !! u = Some BLACK ->
            (forall v, edge g u v -> c !! v = Some BLACK) /\ ~ tc (edge g) u u.

Definition grays_reach (g : graph_dict) (c : gmap string Color) (node : string) : Prop :=
  forall u, c !! u = Some GRAY -> rtc (edge g) u node.

Definition no_gray (c : gmap string Color) : Prop :=
  forall u, c !! u <> Some GRAY.

Definition advance_at (c c' : gmap string Color) (u : string) : Prop :=
  c' !! u = c !! u \/ (c !! u = Some WHITE /\ c' !! u = Some BLACK).

Definition advance (c c' : gmap string Color) : Prop := forall u, advance_at c c' u.

(** What a call [dfs(node)] entered with colouring [c] delivers. *)
Definition dfs_post (g : graph_dict) (node : string) (c : gmap string Color)
    (r : result (bool * gmap string Color)) : Prop :=
  match r with
  | Ok (false, c') => c' !! node = Some BLACK /\ black_ok g c' /\ advance c c'
  | Ok (true, _) => has_cycle g
  | Raise _ => False
  end.

(** What the neighbour loop of [dfs(node)] delivers; [node] itself goes
    from gray to black. *)
Definition loop_post (g : graph_dict) (node : string) (c : gmap string Color)
    (r : result (bool * gmap string Color)) : Prop :=
  match r with
  | Ok (false, c') =>
      c' !! node = Some BLACK /\ black_ok g c' /\
      forall u, u <> node -> advance_at c c' u
  | Ok (true, _) => has_cycle g
  | Raise _ => False
  end.

(** What the loop over the roots delivers. *)
Definition roots_post (g : graph_dict) (roots : list string) (c : gmap string Color)
    (r : result (gmap string Color)) : Prop :=
  match r with
  | Ok c' =>
      black_ok g c' /\ advance c c' /\ forall r, r ∈ roots -> c' !! r = Some BLACK
  | Raise e => e = ValidationError msg_cycle /\ has_cycle g
  end.

(** ** Further sample definitions *)

(** [dag_fork] with its tasks listed in the opposite order. *)
Definition dag_fork_reversed : DAGDefinition :=
  mkDAGDefinition (reverse (dd_tasks dag_fork)) [].

(** A chain listed from its head: A depends on B, B on C. *)
Definition dag_deep : DAGDefinition :=
  mkDAGDefinition
    [mkTaskDefinition "A" "training" [] ["B"]; mkTaskDefinition "B" "training" [] ["C"];
     mkTaskDefinition "C" "training" [] []] [].

(** ** Chains of first dependencies *)

(** Each node of the list is followed by its first neighbour. *)
Fixpoint first_neighbor_chain (g : graph_dict) (path : list string) : Prop :=
  match path with
  | u :: ((v :: _) as rest) =>
      head (graph_get g u) = Some v /\ first_neighbor_chain g rest
  | _ => True
  end.

(** Each task id of the list is followed by the first dependency of its
    task. *)
Fixpoint first_dependency_chain (d : DAGDefinition) (path : list string) : Prop :=
  match path with
  | u :: ((v :: _) as rest) =>
      (exists t, t ∈ dd_tasks d /\ td_task_id t = u /\ head (td_dependencies t) = Some v) /\
      first_dependency_chain d rest
  | _ => True
  end.

(** ** Pipelines: creation, lookup by name, deletion

    The methods below can also end in an exception of SQLAlchemy, which
    the service does not catch, and [get_pipeline_by_name] raises
    [NotFoundError] with a name where the other methods give an id.
    [PydanticValidationError] is pydantic's [ValidationError], which the
    routes meet when they build a response, [RequestValidationError] the
    error of FastAPI for a request body that the schema of the route
    refuses. *)

Inductive Exception : Type :=
| ServiceError (e : Error)
| NotFoundByName (resource : string) (identifier : string)
| MultipleResultsFound
| PydanticValidationError
| RequestValidationError.

Inductive xoutcome (A : Type) : Type :=
| XReturns (a : A) (db : Db)
| XRaises (e : Exception) (db : Db).
Arguments XReturns {A} a db.
Arguments XRaises {A} e db.

(** A method of the first part, seen as one that can raise anything. *)
Definition lift {A} (o : outcome A) : xoutcome A :=
  match o with
  | Returns a db => XReturns a db
  | Raises e db => XRaises (ServiceError e) db
  end.

(** [get_session] around such a method: commit on return, roll back on
    any exception. *)
Definition get_session_any {A} (request : Db -> xoutcome A) (db : Db)
    : (A + Exception) * Db :=
  match request db with
  | XReturns a db' => (inl a, db')
  | XRaises e _ => (inr e, db)
  end.

(** [Result.scalar_one_or_none()] on the rows a query selected. *)
Inductive one_or_none (A : Type) : Type :=
| NoRow
| OneRow (a : A)
| ManyRows.
Arguments NoRow {A}.
Arguments OneRow {A} a.
Arguments ManyRows {A}.

Definition scalar_one_or_none {A} (rows : gmap UUID A) : one_or_none A :=
  match map_to_list rows with
  | [] => NoRow
  | [(_, a)] => OneRow a
  | _ => ManyRows
  end.

(** [SoftDeleteMixin] ([foundry/infrastructure/database/base.py]) *)
Definition set_p_deleted_at (v : option datetime) (p : Pipeline) : Pipeline :=
  mkPipeline (p_id p) (p_tenant_id p) (p_name p) (p_description p) (p_dag_definition p)
             (p_schedule p) (p_enabled p) (p_owner_id p) v.

Definition is_deleted (p : Pipeline) : bool :=
  match p_deleted_at p with
  | Some _ => true
  | None => false
  end.

Definition soft_delete (now : datetime) (p : Pipeline) : Pipeline :=
  set_p_deleted_at (Some now) p.

(** [PipelineCreate] ([schemas.py]) *)
Record PipelineCreate : Type := mkPipelineCreate {
  pc_name : string;
  pc_description : option string;
  pc_dag_definition : DAGDefinition;
  pc_schedule : option string;
  pc_enabled : bool
}.

(** The constraints pydantic enforces on a [PipelineCreate]. *)
Definition valid_PipelineCreate (data : PipelineCreate) : Prop :=
  1 <= String.length (pc_name data) <= 255 /\
  fits 5000 (pc_description data) /\
  valid_DAGDefinition (pc_dag_definition data) /\
  fits 100 (pc_schedule data).

(** [UniqueConstraint("tenant_id", "name", name="uq_tenant_pipeline_name")]
    of the [pipelines] table ([models.py]): what an INSERT of [p] must
    not meet.  The constraint does not look at [deleted_at]. *)
Definition violates_uq_tenant_pipeline_name (p : Pipeline) (db : Db) : Prop :=
  exists k q, pipelines db !! k = Some q /\
              p_tenant_id q = p_tenant_id p /\ p_name q = p_name p.

#[global] Instance violates_uq_dec p db : Decision (violates_uq_tenant_pipeline_name p db).
Proof.
  unfold violates_uq_tenant_pipeline_name.
  destruct (decide (map_Exists
    (fun _ q => p_tenant_id q = p_tenant_id p /\ p_name q = p_name p) (pipelines db)))
    as [Hex | Hno].
  - left. destruct Hex as (k & q & Hq & Hprop). by exists k, q.
  - right. intros (k & q & Hq & Hprop). apply Hno. by exists k, q.
Defined.

Section PipelineService.

Variable tenant_id : UUID.

(** The rows of [select(Pipeline).where(tenant_id == ..., name == ...,
    deleted_at.is_(None))]. *)
Definition pipelines_named (db : Db) (name : string) : gmap UUID Pipeline :=
  filter (fun kv => p_tenant_id kv.2 = tenant_id /\ p_name kv.2 = name /\
                    p_deleted_at kv.2 = None)
         (pipelines db).

Definition create_pipeline (depth : nat) (data : PipelineCreate) (owner_id : option UUID)
    (db : Db) : xoutcome Pipeline :=
  match scalar_one_or_none (pipelines_named db (pc_name data)) with
  | ManyRows => XRaises MultipleResultsFound db
  | OneRow _ =>
      XRaises (ServiceError (ConflictError "Pipeline"
                 ("Pipeline with name '" +:+ pc_name data +:+ "' already exists"))) db
  | NoRow =>
      match _validate_dag depth (model_dump (pc_dag_definition data)) with
      | Raise e => XRaises (ServiceError e) db
      | Ok _ =>
          let id := fresh (dom (pipelines db)) in
          let pipeline :=
            mkPipeline id tenant_id (pc_name data) (pc_description data)
                       (model_dump (pc_dag_definition data)) (pc_schedule data)
                       (pc_enabled data) owner_id None in
          if decide (violates_uq_tenant_pipeline_name pipeline db)
          then XRaises (ServiceError (IntegrityError "uq_tenant_pipeline_name")) db
          else if decide (tenant_id ∉ tenants db)
          then XRaises (ServiceError (IntegrityError "pipelines_tenant_id_fkey")) db
          else if decide (references_user owner_id db)
          then XReturns pipeline (with_pipelines db (<[id := pipeline]> (pipelines db)))
          else XRaises (ServiceError (IntegrityError "pipelines_owner_id_fkey")) db
      end
  end.

Definition get_pipeline_by_name (db : Db) (name : string) : Pipeline + Exception :=
  match scalar_one_or_none (pipelines_named db name) with
  | ManyRows => inr MultipleResultsFound
  | OneRow p => inl p
  | NoRow => inr (NotFoundByName "Pipeline" name)
  end.

Definition delete_pipeline (now : datetime) (pipeline_id : UUID) (db : Db)
    : outcome unit :=
  match get_pipeline tenant_id db pipeline_id with
  | Raise e => Raises e db
  | Ok pipeline =>
      Returns () (with_pipelines db
                    (<[pipeline_id := soft_delete now pipeline]> (pipelines db)))
  end.

End PipelineService.

(** ** Sequences of requests

    The write operations of the service as requests, each served under
    [get_session]; [serve_all] is the database after a sequence of them. *)

Inductive Request : Type :=
| CreatePipeline (depth : nat) (data : PipelineCreate) (owner_id : option UUID)
| UpdatePipeline (depth : nat) (pipeline_id : UUID) (data : PipelineUpdate)
| DeletePipeline (pipeline_id : UUID)
| TriggerPipeline (pipeline_id : UUID) (data : TriggerPipelineRequest)
    (user_id : option UUID)
| UpdateRunStatus (run_id : UUID) (status : PipelineStatus) (error_message : option string)
| CancelPipelineRun (run_id : UUID)
| UpdateTaskStatus (task_id : UUID) (status : PipelineStatus)
    (error_message logs : option string).

(** A request with the tenant of the caller and the time of the call. *)
Record Call : Type := mkCall {
  call_tenant : UUID;
  call_now : datetime;
  call_request : Request
}.

(** The database before any pipeline exists, with its users and
    tenants. *)
Definition empty_db (users tenants : gset UUID) : Db := mkDb ∅ ∅ ∅ users tenants.

Section Serve.

Variable dump_nested : DAGDefinition -> dag_value.

Definition serve (c : Call) (db : Db) : Db :=
  let tenant_id := call_tenant c in
  let now := call_now c in
  match call_request c with
  | CreatePipeline depth data owner_id =>
      (get_session_any (create_pipeline tenant_id depth data owner_id) db).2
  | UpdatePipeline depth pipeline_id data =>
      (get_session (update_pipeline tenant_id dump_nested depth pipeline_id data) db).2
  | DeletePipeline pipeline_id =>
      (get_session (delete_pipeline tenant_id now pipeline_id) db).2
  | TriggerPipeline pipeline_id data user_id =>
      (get_session (trigger_pipeline tenant_id pipeline_id data user_id) db).2
  | UpdateRunStatus run_id status error_message =>
      (get_session (update_run_status tenant_id now run_id status error_message) db).2
  | CancelPipelineRun run_id =>
      (get_session (cancel_pipeline_run tenant_id now run_id) db).2
  | UpdateTaskStatus task_id status error_message logs =>
      (get_session (update_task_status tenant_id now task_id status error_message logs) db).2
  end.

Definition serve_all (calls : list Call) (db : Db) : Db :=
  foldl (fun db c => serve c db) db calls.

End Serve.

(** ** Invariants of the stored rows *)

(** Every row is stored under its own id. *)
Definition keys_are_ids (db : Db) : Prop :=
  (forall k p, pipelines db !! k = Some p -> p_id p = k) /\
  (forall k r, pipeline_runs db !! k = Some r -> r_id r = k) /\
  (forall k t, pipeline_tasks db !! k = Some t -> t_id t = k).

(** Every run belongs to a stored pipeline of its tenant, and every
    task to a stored run of its tenant. *)
Definition references_resolve (db : Db) : Prop :=
  (forall k r, pipeline_runs db !! k = Some r ->
     exists p, pipelines db !! r_pipeline_id r = Some p /\
               p_tenant_id p = r_tenant_id r) /\
  (forall k t, pipeline_tasks db !! k = Some t ->
     exists r, pipeline_runs db !! t_pipeline_run_id t = Some r /\
               r_tenant_id r = t_tenant_id t).

(** What [_validate_dag] is there to ensure of a definition: it has a
    task, the task ids are non-empty and distinct, every dependency names
    a task, and no task depends on itself through any chain. *)
Definition well_formed (d : DAGDefinition) : Prop :=
  dd_tasks d <> [] /\
  Forall (fun t => td_task_id t <> "") (dd_tasks d) /\
  NoDup (td_task_id <$> dd_tasks d) /\
  dependencies_known d /\
  ~ cyclic d.

(** Every stored [dag_definition] is the dump of a well-formed
    [DAGDefinition]. *)
Definition dags_are_well_formed (db : Db) : Prop :=
  forall k p, pipelines db !! k = Some p ->
    exists d, p_dag_definition p = model_dump d /\ well_formed d.

(** A run or task whose status is [SUCCESS], [FAILED] or [CANCELLED] has
    an [end_time]. *)
Definition finished_have_end_time (db : Db) : Prop :=
  (forall k r, pipeline_runs db !! k = Some r ->
     is_finished (r_status r) = true -> is_Some (r_end_time r)) /\
  (forall k t, pipeline_tasks db !! k = Some t ->
     is_finished (t_status t) = true -> is_Some (t_end_time t)).

(** No two pipeline rows of a tenant have the same name. *)
Definition names_are_unique (db : Db) : Prop :=
  forall k1 k2 p1 p2,
    pipelines db !! k1 = Some p1 -> pipelines db !! k2 = Some p2 ->
    p_tenant_id p1 = p_tenant_id p2 -> p_name p1 = p_name p2 -> k1 = k2.

Definition consistent (db : Db) : Prop :=
  keys_are_ids db /\ references_resolve db /\ dags_are_well_formed db /\
  finished_have_end_time db /\ names_are_unique db.


(** ** Sample requests *)

(** One tenant, and one user: the sample caller of the routes. *)
Definition users0 : gset UUID := {[ 11%positive ]}.
Definition tenants0 : gset UUID := {[ tenant0 ]}.
Definition db0 : Db := empty_db users0 tenants0.

Definition create_nightly : PipelineCreate :=
  mkPipelineCreate "nightly" None dag_fork None true.

Definition call0 (now : datetime) (request : Request) : Call := mkCall tenant0 now request.

Definition pipeline1 : Pipeline :=
  mkPipeline 1 tenant0 "nightly" None (model_dump dag_fork) None true None None.

Definition run1 : PipelineRun :=
  mkPipelineRun 1 tenant0 1 PENDING "manual" None None [] None None.

Definition calls_create : list Call := [call0 0 (CreatePipeline 100 create_nightly None)].

Definition calls_trigger : list Call :=
  calls_create ++ [call0 1 (TriggerPipeline 1 request0 None)].

Definition calls_delete : list Call := calls_create ++ [call0 5 (DeletePipeline 1)].

Definition update_dag_chain : PipelineUpdate :=
  mkPipelineUpdate None (Some dag_chain) None None.

Definition update_disable : PipelineUpdate :=
  mkPipelineUpdate (Some "paused") None None (Some false).

Definition pipeline1_disabled : Pipeline :=
  mkPipeline 1 tenant0 "nightly" (Some "paused") (model_dump dag_fork) None false None None.

Definition calls_disable : list Call :=
  calls_create ++ [call0 2 (UpdatePipeline 100 1 update_disable)].

(** ** Tenants *)

(** The rows of every tenant but [tenant_id] are the same in [db] and
    [db']. *)
Definition other_tenants_untouched (tenant_id : UUID) (db db' : Db) : Prop :=
  (forall k p, p_tenant_id p <> tenant_id ->
     pipelines db' !! k = Some p <-> pipelines db !! k = Some p) /\
  (forall k r, r_tenant_id r <> tenant_id ->
     pipeline_runs db' !! k = Some r <-> pipeline_runs db !! k = Some r) /\
  (forall k t, t_tenant_id t <> tenant_id ->
     pipeline_tasks db' !! k = Some t <-> pipeline_tasks db !! k = Some t).

(** ** Dependencies of the routes ([foundry/api/v1/deps.py])

    Authentication itself (the JWT or the API key) is outside the
    embedding: the functions below start from the [CurrentUser] it
    produced. *)

(** [UserRole] ([models.py]) *)
Inductive UserRole : Type := VIEWER | DATA_SCIENTIST | ML_ENGINEER | ADMIN.

#[global] Instance UserRole_eq_dec : EqDecision UserRole.
Proof. solve_decision. Defined.

(** [required_role.value] *)
Definition role_value (role : UserRole) : string :=
  match role with
  | VIEWER => "VIEWER"
  | DATA_SCIENTIST => "DATA_SCIENTIST"
  | ML_ENGINEER => "ML_ENGINEER"
  | ADMIN => "ADMIN"
  end.

(** [CurrentUser] ([foundry/domain/tenants/schemas.py]) *)
Record CurrentUser : Type := mkCurrentUser {
  cu_id : UUID;
  cu_email : string;
  cu_name : string;
  cu_tenant_id : option UUID;
  cu_role : option UserRole;
  cu_is_superuser : bool
}.

(** The [detail] of an [HTTPException]: a literal, or the [message] of
    the service error the route caught. *)
Inductive Detail : Type :=
| Text (s : string)
| MessageOf (e : Error).

Record HTTPException : Type := mkHTTPException {
  status_code : nat;
  detail : Detail
}.

(** The dictionary [role_hierarchy] of [check_role]. *)
Definition role_hierarchy (role : UserRole) : nat :=
  match role with
  | VIEWER => 1
  | DATA_SCIENTIST => 2
  | ML_ENGINEER => 3
  | ADMIN => 4
  end.

(** [require_role(required_role)], the closure [check_role]. *)
Definition require_role (required_role : UserRole) (current_user : CurrentUser)
    : CurrentUser + HTTPException :=
  if cu_is_superuser current_user then inl current_user
  else match cu_role current_user with
       | None => inr (mkHTTPException 403 (Text "No role assigned"))
       | Some role =>
           if decide (role_hierarchy role < role_hierarchy required_role)
           then inr (mkHTTPException 403
                       (Text ("Requires " +:+ role_value required_role +:+ " role or higher")))
           else inl current_user
       end.

Definition get_tenant_id (current_user : CurrentUser) : UUID + HTTPException :=
  match cu_tenant_id current_user with
  | None => inr (mkHTTPException 400 (Text "Tenant context required"))
  | Some tenant_id => inl tenant_id
  end.

(** ** The pipeline routes ([foundry/api/v1/pipelines.py])

    What a route comes to: a response with its status code and body, an
    [HTTPException], or an exception that no [except] clause of the route
    caught, which is left to the handlers of
    [foundry/api/middleware/error_handler.py]. *)

Inductive Response (A : Type) : Type :=
| Sent (code : nat) (body : A)
| Refused (exc : HTTPException)
| Unhandled (e : Exception).
Arguments Sent {A} code body.
Arguments Refused {A} exc.
Arguments Unhandled {A} e.

(** [error_handler_middleware]: a [FoundryException] is answered with its
    own [status_code], [RequestValidationError] and pydantic's
    [ValidationError] with 422, any other exception with 500. *)
Definition exception_status (e : Exception) : nat :=
  match e with
  | ServiceError (NotFoundError _ _) => 404
  | ServiceError (ConflictError _ _) => 409
  | ServiceError (ValidationError _) => 422
  | NotFoundByName _ _ => 404
  | PydanticValidationError => 422
  | RequestValidationError => 422
  | _ => 500
  end.

(** The status code the client sees. *)
Definition response_status {A} (r : Response A) : nat :=
  match r with
  | Sent code _ => code
  | Refused exc => status_code exc
  | Unhandled e => exception_status e
  end.

(** A reading method of the service as one that leaves the session as it
    is. *)
Definition reading {A} (r : result A) (db : Db) : xoutcome A :=
  match r with
  | Ok a => XReturns a db
  | Raise e => XRaises (ServiceError e) db
  end.

(** [PipelineResponse.model_validate(pipeline)]: the response schema
    inherits from [PipelineBase] the bounds on [name] and [description]
    ([schemas.py]).  The two fields a route copies from [get_last_run]
    are not part of the body here. *)
Definition PipelineResponse_model_validate (pipeline : Pipeline) : Pipeline + Exception :=
  if decide (1 <= String.length (p_name pipeline) <= 255 /\
             default 0 (String.length <$> p_description pipeline) <= 5000)
  then inl pipeline
  else inr PydanticValidationError.

(** The [try] / [except] of a route under the session of [DbSession]:
    the route answers [success] with the body made of what the service
    returned, and the session commits; a service error that one of the
    [except] clauses names is re-raised as an [HTTPException] with the
    status the clause gives and the error's message; every exception,
    also one from building the body, rolls the session back. *)
Definition answer {A B} (success : nat) (except : Error -> option nat)
    (body : A -> B + Exception) (o : xoutcome A) (db : Db) : Response B * Db :=
  match o with
  | XReturns a db' =>
      match body a with
      | inl b => (Sent success b, db')
      | inr e => (Unhandled e, db)
      end
  | XRaises (ServiceError e) _ =>
      match except e with
      | Some code => (Refused (mkHTTPException code (MessageOf e)), db)
      | None => (Unhandled (ServiceError e), db)
      end
  | XRaises e _ => (Unhandled e, db)
  end.

(** The [except] clauses of the routes. *)
Definition except_NotFoundError (e : Error) : option nat :=
  match e with
  | NotFoundError _ _ => Some 404
  | _ => None
  end.

Definition except_NotFoundError_ValidationError (e : Error) : option nat :=
  match e with
  | NotFoundError _ _ => Some 404
  | ValidationError _ => Some 400
  | _ => None
  end.

Definition except_ConflictError_ValidationError (e : Error) : option nat :=
  match e with
  | ConflictError _ _ => Some 409
  | ValidationError _ => Some 400
  | _ => None
  end.

(** The parameters [current_user: MLEngineerUser, tenant_id: TenantId] of
    a route, solved in that order before the body runs. *)
Definition with_ml_engineer {A} (current_user : CurrentUser)
    (endpoint : CurrentUser -> UUID -> Db -> Response A * Db) (db : Db)
    : Response A * Db :=
  match require_role ML_ENGINEER current_user with
  | inr exc => (Refused exc, db)
  | inl user =>
      match get_tenant_id current_user with
      | inr exc => (Refused exc, db)
      | inl tenant_id => endpoint user tenant_id db
      end
  end.

(** The parameter [tenant_id: TenantId] alone. *)
Definition with_tenant {A} (current_user : CurrentUser)
    (endpoint : UUID -> Db -> Response A * Db) (db : Db) : Response A * Db :=
  match get_tenant_id current_user with
  | inr exc => (Refused exc, db)
  | inl tenant_id => endpoint tenant_id db
  end.

(** [(run.end_time - run.start_time).total_seconds()] when both are set. *)
Definition duration_seconds (run : PipelineRun) : option Z :=
  match r_start_time run, r_end_time run with
  | Some start_time, Some end_time => Some (Z.of_nat end_time - Z.of_nat start_time)%Z
  | _, _ => None
  end.

(** The constraints pydantic enforces on the other request bodies:
    [PipelineUpdate] bounds nothing but the tasks of a DAG it carries,
    [TriggerPipelineRequest] bounds [trigger_type]. *)
Definition valid_PipelineUpdate (data : PipelineUpdate) : Prop :=
  match pu_dag_definition data with
  | Some d => valid_DAGDefinition d
  | None => True
  end.

Definition valid_TriggerPipelineRequest (data : TriggerPipelineRequest) : Prop :=
  String.length (tr_trigger_type data) <= 50.

#[global] Instance valid_TaskDefinition_dec t : Decision (valid_TaskDefinition t).
Proof. unfold valid_TaskDefinition. apply _. Defined.
#[global] Instance valid_DAGDefinition_dec d : Decision (valid_DAGDefinition d).
Proof. unfold valid_DAGDefinition. apply _. Defined.
#[global] Instance valid_PipelineCreate_dec data : Decision (valid_PipelineCreate data).
Proof. unfold valid_PipelineCreate. apply _. Defined.
#[global] Instance valid_PipelineUpdate_dec data : Decision (valid_PipelineUpdate data).
Proof. unfold valid_PipelineUpdate. destruct (pu_dag_definition data); apply _. Defined.
#[global] Instance valid_TriggerPipelineRequest_dec data
  : Decision (valid_TriggerPipelineRequest data).
Proof. unfold valid_TriggerPipelineRequest. apply _. Defined.

(** The body parameter of a route ([data: PipelineCreate] and the like):
    once the dependencies are solved FastAPI validates the body against
    its schema, and a body the schema refuses raises
    [RequestValidationError] before the route runs. *)
Definition with_body {A} (valid : Prop) `{!Decision valid}
    (endpoint : Db -> Response A * Db) (db : Db) : Response A * Db :=
  if decide valid then endpoint db else (Unhandled RequestValidationError, db).

(** The routes.  The body of a run response is the run row, with
    [duration_seconds] where the route computes it. *)
Module api.

Section Routes.

Variable dump_nested : DAGDefinition -> dag_value.
Variable depth : nat.
Variable now : datetime.

Definition create_pipeline (data : PipelineCreate) (current_user : CurrentUser) (db : Db)
    : Response Pipeline * Db :=
  with_ml_engineer current_user (fun user tenant_id =>
    with_body (valid_PipelineCreate data) (fun db =>
      answer 201 except_ConflictError_ValidationError PipelineResponse_model_validate
             (create_pipeline tenant_id depth data (Some (cu_id user)) db) db)) db.

Definition get_pipeline (pipeline_id : UUID) (current_user : CurrentUser) (db : Db)
    : Response Pipeline * Db :=
  with_tenant current_user (fun tenant_id db =>
    answer 200 except_NotFoundError PipelineResponse_model_validate
           (reading (get_pipeline tenant_id db pipeline_id) db) db) db.

Definition update_pipeline (pipeline_id : UUID) (data : PipelineUpdate)
    (current_user : CurrentUser) (db : Db) : Response Pipeline * Db :=
  with_ml_engineer current_user (fun user tenant_id =>
    with_body (valid_PipelineUpdate data) (fun db =>
      answer 200 except_NotFoundError_ValidationError PipelineResponse_model_validate
             (lift (update_pipeline tenant_id dump_nested depth pipeline_id data db)) db)) db.

Definition delete_pipeline (pipeline_id : UUID) (current_user : CurrentUser) (db : Db)
    : Response unit * Db :=
  with_ml_engineer current_user (fun user tenant_id db =>
    answer 204 except_NotFoundError inl
           (lift (delete_pipeline tenant_id now pipeline_id db)) db) db.

Definition trigger_pipeline (pipeline_id : UUID) (data : TriggerPipelineRequest)
    (current_user : CurrentUser) (db : Db) : Response PipelineRun * Db :=
  with_ml_engineer current_user (fun user tenant_id =>
    with_body (valid_TriggerPipelineRequest data) (fun db =>
      answer 201 except_NotFoundError_ValidationError inl
             (lift (trigger_pipeline tenant_id pipeline_id data (Some (cu_id user)) db))
             db)) db.

Definition get_pipeline_run (run_id : UUID) (current_user : CurrentUser) (db : Db)
    : Response (PipelineRun * option Z) * Db :=
  with_tenant current_user (fun tenant_id db =>
    answer 200 except_NotFoundError (fun run => inl (run, duration_seconds run))
           (reading (get_pipeline_run tenant_id db run_id) db) db) db.

Definition cancel_pipeline_run (run_id : UUID) (current_user : CurrentUser) (db : Db)
    : Response PipelineRun * Db :=
  with_ml_engineer current_user (fun user tenant_id db =>
    answer 200 except_NotFoundError_ValidationError inl
           (lift (cancel_pipeline_run tenant_id now run_id db)) db) db.

Definition get_pipeline_tasks (run_id : UUID) (current_user : CurrentUser) (db : Db)
    : Response (gmap UUID PipelineTask) * Db :=
  with_tenant current_user (fun tenant_id db =>
    answer 200 except_NotFoundError inl
           (reading (get_pipeline_tasks tenant_id db run_id) db) db) db.

End Routes.

End api.

(** ** Sequences of HTTP requests

    The routes above as requests of a caller; [handle] gives the status
    code of the response and the database after the request. *)

Inductive Endpoint : Type :=
| POST_pipelines (data : PipelineCreate)
| GET_pipeline (pipeline_id : UUID)
| PUT_pipeline (pipeline_id : UUID) (data : PipelineUpdate)
| DELETE_pipeline (pipeline_id : UUID)
| POST_trigger (pipeline_id : UUID) (data : TriggerPipelineRequest)
| GET_run (run_id : UUID)
| POST_cancel (run_id : UUID)
| GET_tasks (run_id : UUID).

Record HttpCall : Type := mkHttpCall {
  http_user : CurrentUser;
  http_depth : nat;
  http_now : datetime;
  http_endpoint : Endpoint
}.

(** The routes that take [current_user: MLEngineerUser]. *)
Definition needs_ml_engineer (endpoint : Endpoint) : bool :=
  match endpoint with
  | POST_pipelines _ | PUT_pipeline _ _ | DELETE_pipeline _ | POST_trigger _ _
  | POST_cancel _ => true
  | GET_pipeline _ | GET_run _ | GET_tasks _ => false
  end.

Definition status_and_db {A} (r : Response A * Db) : nat * Db :=
  (response_status r.1, r.2).

Section Handle.

Variable dump_nested : DAGDefinition -> dag_value.

Definition handle (c : HttpCall) (db : Db) : nat * Db :=
  let user := http_user c in
  match http_endpoint c with
  | POST_pipelines data =>
      status_and_db (api.create_pipeline (http_depth c) data user db)
  | GET_pipeline pipeline_id =>
      status_and_db (api.get_pipeline pipeline_id user db)
  | PUT_pipeline pipeline_id data =>
      status_and_db (api.update_pipeline dump_nested (http_depth c) pipeline_id data user db)
  | DELETE_pipeline pipeline_id =>
      status_and_db (api.delete_pipeline (http_now c) pipeline_id user db)
  | POST_trigger pipeline_id data =>
      status_and_db (api.trigger_pipeline pipeline_id data user db)
  | GET_run run_id =>
      status_and_db (api.get_pipeline_run run_id user db)
  | POST_cancel run_id =>
      status_and_db (api.cancel_pipeline_run (http_now c) run_id user db)
  | GET_tasks run_id =>
      status_and_db (api.get_pipeline_tasks run_id user db)
  end.

Definition handle_all (calls : list HttpCall) (db : Db) : Db :=
  foldl (fun db c => (handle c db).2) db calls.

End Handle.

(** No run has started and no task has left [PENDING]. *)
Definition nothing_started (db : Db) : Prop :=
  (forall k r, pipeline_runs db !! k = Some r ->
     r_start_time r = None /\
     ((r_status r = PENDING /\ r_end_time r = None) \/
      (r_status r = CANCELLED /\ is_Some (r_end_time r)))) /\
  (forall k t, pipeline_tasks db !! k = Some t ->
     t_status t = PENDING /\ t_start_time t = None /\ t_end_time t = None).

(** Sample callers *)
Definition engineer : CurrentUser :=
  mkCurrentUser 11 "" "" (Some tenant0) (Some ML_ENGINEER) false.

Definition viewer : CurrentUser :=
  mkCurrentUser 12 "" "" (Some tenant0) (Some VIEWER) false.

Definition http_create : HttpCall := mkHttpCall engineer 100 0 (POST_pipelines create_nightly).

Definition http_trigger : HttpCall := mkHttpCall engineer 100 1 (POST_trigger 1 request0).

(** The service requests that a route makes: no route of
    [api/v1/pipelines.py] calls [update_run_status] other than through
    [cancel_pipeline_run], and none calls [update_task_status]. *)
Definition made_by_a_route (request : Request) : bool :=
  match request with
  | UpdateRunStatus _ _ _ | UpdateTaskStatus _ _ _ _ => false
  | _ => true
  end.

Definition http_put_dag : HttpCall :=
  mkHttpCall engineer 100 2 (PUT_pipeline 1 update_dag_chain).

(** ["x" * n] *)
Fixpoint xs (n : nat) : string :=
  match n with
  | O => ""
  | S n' => String.append "x" (xs n')
  end.

(** A description one character longer than [PipelineBase] allows. *)
Definition long_text : string := xs (S 5000).

Definition update_long_description : PipelineUpdate :=
  mkPipelineUpdate (Some long_text) None None None.
(** * Properties

    Sanity checks of the validator on the two sample graphs. *)

Example validate_cyclic :
  _validate_dag 100 (model_dump dag_cyclic) = Raise (ValidationError "DAG contains a cycle").
Proof. vm_compute. reflexivity. Qed.

Example validate_fork : _validate_dag 100 (model_dump dag_fork) = Ok ().
Proof. vm_compute. reflexivity. Qed.

Example validate_two_parts :
  _validate_dag 100 (model_dump dag_two_parts) = Raise (ValidationError "DAG contains a cycle").
Proof. vm_compute. reflexivity. Qed.

(** Runs a scenario of service calls on concrete rows, one call after
    the other. *)
Ltac run_scenario :=
  repeat lazymatch goal with
         | |- exists _, _ => eexists
         | |- _ /\ _ => apply conj
         end;
  (vm_compute; reflexivity).

(** ** What the two status updates compute *)

Section Lifecycle.

Variable tenant_id : UUID.

Lemma get_pipeline_run_Ok db run_id run :
  get_pipeline_run tenant_id db run_id = Ok run <->
  pipeline_runs db !! run_id = Some run /\ r_tenant_id run = tenant_id.
Proof.
  unfold get_pipeline_run.
  destruct (pipeline_runs db !! run_id) as [r|]; [case_decide |];
    (split; [intros [= <-] | intros [[= <-] Hten]]); done.
Qed.

(** [update_run_status] never refuses: a run that is found is updated. *)
Lemma update_run_status_found db now run_id status error_message run :
  get_pipeline_run tenant_id db run_id = Ok run ->
  exists run',
    update_run_status tenant_id now run_id status error_message db
      = Returns run' (with_runs db (<[run_id := run']> (pipeline_runs db))) /\
    r_status run' = status /\
    r_start_time run' =
      (if decide (status = RUNNING /\ r_status run = PENDING)
       then Some now else r_start_time run) /\
    r_end_time run' = (if is_finished status then Some now else r_end_time run) /\
    r_error_message run' =
      (if is_finished status && truthy error_message
       then error_message else r_error_message run).
Proof.
  intros Hget. unfold update_run_status. rewrite Hget.
  eexists. split; [reflexivity |].
  destruct (is_finished status) eqn:Hfin, (truthy error_message) eqn:Herr;
    simpl; repeat case_decide; simpl; try done;
    destruct status; naive_solver.
Qed.

(** [update_task_status] never refuses either. *)
Lemma update_task_status_found db now id status error_message logs task :
  pipeline_tasks db !! id = Some task ->
  t_tenant_id task = tenant_id ->
  exists task',
    update_task_status tenant_id now id status error_message logs db
      = Returns task' (with_tasks db (<[id := task']> (pipeline_tasks db))) /\
    t_status task' = status /\
    t_start_time task' =
      (if decide (status = RUNNING /\ t_status task = PENDING)
       then Some now else t_start_time task) /\
    t_end_time task' = (if is_finished status then Some now else t_end_time task) /\
    t_error_message task' =
      (if truthy error_message then error_message else t_error_message task) /\
    t_logs task' = (if truthy logs then logs else t_logs task).
Proof.
  intros Hget Hten. unfold update_task_status. rewrite Hget.
  rewrite decide_True by done.
  eexists. split; [reflexivity |].
  destruct (is_finished status), (truthy error_message), (truthy logs);
    simpl; repeat case_decide; simpl; done.
Qed.

End Lifecycle.

(** ** Task status updates *)

(** C10: a call of [update_task_status] whose [error_message] is [None]
    leaves the stored [error_message] of the task as it was, and one whose
    [logs] is [None] leaves the stored [logs] as they were; a non-empty
    [logs] value replaces the stored logs.  This holds for every target
    status. *)
Theorem update_task_status_keeps_unsupplied
    (tenant_id : UUID) (db : Db) (now : datetime) (id : UUID)
    (status : PipelineStatus) (error_message logs : option string)
    (task : PipelineTask) :
  pipeline_tasks db !! id = Some task ->
  t_tenant_id task = tenant_id ->
  exists task' db',
    update_task_status tenant_id now id status error_message logs db = Returns task' db' /\
    pipeline_tasks db' !! id = Some task' /\
    (error_message = None -> t_error_message task' = t_error_message task) /\
    (logs = None -> t_logs task' = t_logs task) /\
    (forall l, logs = Some l -> l <> "" -> t_logs task' = Some l).
Proof.
  intros Hget Hten.
  destruct (update_task_status_found tenant_id db now id status error_message logs task
              Hget Hten) as (task' & Hupd & _ & _ & _ & Herr & Hlogs).
  exists task', (with_tasks db (<[id := task']> (pipeline_tasks db))).
  split; [done |]. split; [apply lookup_insert_eq |].
  repeat split.
  - intros ->. done.
  - intros ->. done.
  - intros l -> Hl. rewrite Hlogs. destruct l; done.
Qed.

Lemma update_task_status_keeps_unsupplied_witness :
  exists task' db',
    update_task_status tenant0 9 2 RUNNING None (Some "started") db_running
      = Returns task' db' /\
    pipeline_tasks db' !! 2%positive = Some task' /\
    (@None string = None -> t_error_message task' = t_error_message (task0 2 "B" PENDING None)) /\
    (Some "started" = None -> t_logs task' = t_logs (task0 2 "B" PENDING None)) /\
    (forall l, Some "started" = Some l -> l <> "" -> t_logs task' = Some l).
Proof.
  apply (update_task_status_keeps_unsupplied tenant0 db_running 9 2 RUNNING None
           (Some "started") (task0 2 "B" PENDING None)); reflexivity.
Defined.

(** C9, as the code has it: for runs and for tasks alike, an update to
    [RUNNING] of a record whose status is [PENDING] sets [start_time] to
    the current time whether or not it was set before, and an update to
    [RUNNING] of a record in any other status leaves [start_time] alone
    (a second dispatch of a running record does not re-stamp it); every
    update to [SUCCESS], [FAILED] or [CANCELLED] sets [end_time]; a
    [FAILED] update with a non-empty [error_message] records it. *)
Theorem status_update_stamping
    (tenant_id : UUID) (db : Db) (now : datetime) (run_id id : UUID)
    (status : PipelineStatus) (error_message logs : option string)
    (run : PipelineRun) (task : PipelineTask) :
  get_pipeline_run tenant_id db run_id = Ok run ->
  pipeline_tasks db !! id = Some task ->
  t_tenant_id task = tenant_id ->
  (exists run' db',
     update_run_status tenant_id now run_id status error_message db = Returns run' db' /\
     pipeline_runs db' !! run_id = Some run' /\
     (status = RUNNING ->
        r_start_time run' = if decide (r_status run = PENDING) then Some now
                            else r_start_time run) /\
     (is_finished status = true -> r_end_time run' = Some now) /\
     (status = FAILED -> truthy error_message = true ->
        r_error_message run' = error_message)) /\
  (exists task' db',
     update_task_status tenant_id now id status error_message logs db = Returns task' db' /\
     pipeline_tasks db' !! id = Some task' /\
     (status = RUNNING ->
        t_start_time task' = if decide (t_status task = PENDING) then Some now
                             else t_start_time task) /\
     (is_finished status = true -> t_end_time task' = Some now) /\
     (status = FAILED -> truthy error_message = true ->
        t_error_message task' = error_message)).
Proof.
  intros Hrun Hget Hten. split.
  - destruct (update_run_status_found tenant_id db now run_id status error_message run Hrun)
      as (run' & Hupd & _ & Hstart & Hend & Herr).
    exists run', (with_runs db (<[run_id := run']> (pipeline_runs db))).
    split; [done |]. split; [apply lookup_insert_eq |].
    repeat split.
    + intros ->. rewrite Hstart. case_decide; [rewrite decide_True | rewrite decide_False]; tauto.
    + intros Hfin. by rewrite Hend, Hfin.
    + intros -> Htr. by rewrite Herr, Htr.
  - destruct (update_task_status_found tenant_id db now id status error_message logs task
                Hget Hten) as (task' & Hupd & _ & Hstart & Hend & Herr & _).
    exists task', (with_tasks db (<[id := task']> (pipeline_tasks db))).
    split; [done |]. split; [apply lookup_insert_eq |].
    repeat split.
    + intros ->. rewrite Hstart. case_decide; [rewrite decide_True | rewrite decide_False]; tauto.
    + intros Hfin. by rewrite Hend, Hfin.
    + intros _ Htr. by rewrite Herr, Htr.
Qed.

Lemma status_update_stamping_witness :
  (exists run' db',
     update_run_status tenant0 9 1 FAILED (Some "boom") db_running = Returns run' db' /\
     pipeline_runs db' !! 1%positive = Some run' /\
     (FAILED = RUNNING ->
        r_start_time run' = if decide (r_status (run0 RUNNING (Some 5) None) = PENDING)
                            then Some 9 else r_start_time (run0 RUNNING (Some 5) None)) /\
     (is_finished FAILED = true -> r_end_time run' = Some 9) /\
     (FAILED = FAILED -> truthy (Some "boom") = true ->
        r_error_message run' = Some "boom")) /\
  (exists task' db',
     update_task_status tenant0 9 2 FAILED (Some "boom") None db_running
       = Returns task' db' /\
     pipeline_tasks db' !! 2%positive = Some task' /\
     (FAILED = RUNNING ->
        t_start_time task' = if decide (t_status (task0 2 "B" PENDING None) = PENDING)
                             then Some 9 else t_start_time (task0 2 "B" PENDING None)) /\
     (is_finished FAILED = true -> t_end_time task' = Some 9) /\
     (FAILED = FAILED -> truthy (Some "boom") = true ->
        t_error_message task' = Some "boom")).
Proof.
  apply (status_update_stamping tenant0 db_running 9 1 2 FAILED (Some "boom") None
           (run0 RUNNING (Some 5) None) (task0 2 "B" PENDING None)); reflexivity.
Defined.

(** C9 as stated fails: a run (and a task) that went [PENDING],
    [RUNNING], back to [PENDING] and to [RUNNING] again has its
    [start_time], which was set, stamped a second time. *)
Lemma start_time_restamped :
  exists run1 db1 run2 db2 run3 db3 run4 db4 task5 db5 task6 db6 task7 db7,
    trigger_pipeline tenant0 7 request0 None (db_of (pipeline_of true dag_chain))
      = Returns run1 db1 /\
    update_run_status tenant0 5 (r_id run1) RUNNING None db1 = Returns run2 db2 /\
    update_run_status tenant0 6 (r_id run1) PENDING None db2 = Returns run3 db3 /\
    update_run_status tenant0 9 (r_id run1) RUNNING None db3 = Returns run4 db4 /\
    (r_status run3, r_start_time run3) = (PENDING, Some 5) /\
    r_start_time run4 = Some 9 /\
    update_task_status tenant0 5 1 RUNNING None None db4 = Returns task5 db5 /\
    update_task_status tenant0 6 1 PENDING None None db5 = Returns task6 db6 /\
    update_task_status tenant0 9 1 RUNNING None None db6 = Returns task7 db7 /\
    (t_status task6, t_start_time task6) = (PENDING, Some 5) /\
    t_start_time task7 = Some 9.
Proof. run_scenario. Qed.

(** C2, as the code has it: [update_task_status] applies the requested
    status to the task whatever its current status, so no transition is
    refused ([RUNNING] back to [PENDING] included); it performs no
    run-level check, and leaves the parent run, every other task and
    every pipeline as they were. *)
Theorem update_task_status_unconditional
    (tenant_id : UUID) (db : Db) (now : datetime) (id : UUID)
    (status : PipelineStatus) (error_message logs : option string)
    (task : PipelineTask) :
  pipeline_tasks db !! id = Some task ->
  t_tenant_id task = tenant_id ->
  exists task' db',
    update_task_status tenant_id now id status error_message logs db = Returns task' db' /\
    t_status task' = status /\
    pipeline_tasks db' = <[id := task']> (pipeline_tasks db) /\
    pipeline_runs db' = pipeline_runs db /\
    pipelines db' = pipelines db.
Proof.
  intros Hget Hten.
  destruct (update_task_status_found tenant_id db now id status error_message logs task
              Hget Hten) as (task' & Hupd & Hst & _).
  exists task', (with_tasks db (<[id := task']> (pipeline_tasks db))). done.
Qed.

Lemma update_task_status_unconditional_witness :
  exists task' db',
    update_task_status tenant0 9 1 PENDING None None db_running = Returns task' db' /\
    t_status task' = PENDING /\
    pipeline_tasks db' = <[1%positive := task']> (pipeline_tasks db_running) /\
    pipeline_runs db' = pipeline_runs db_running /\
    pipelines db' = pipelines db_running.
Proof.
  apply (update_task_status_unconditional tenant0 db_running 9 1 PENDING None None
           (task0 1 "A" RUNNING (Some 5))); reflexivity.
Defined.

(** C2 as stated fails: a running task is set back to [PENDING]; and
    when the last task of a run is reported [SUCCESS] the run stays
    [RUNNING]. *)
Lemma task_state_machine_not_enforced :
  (exists task' db',
     pipeline_tasks db_running !! 1%positive = Some (task0 1 "A" RUNNING (Some 5)) /\
     update_task_status tenant0 9 1 PENDING None None db_running = Returns task' db' /\
     t_status task' = PENDING) /\
  (exists taskA db1 taskB db2,
     update_task_status tenant0 8 1 SUCCESS None None db_running = Returns taskA db1 /\
     update_task_status tenant0 9 2 SUCCESS None None db1 = Returns taskB db2 /\
     t_status <$> pipeline_tasks db2 = {[ 1%positive := SUCCESS; 2%positive := SUCCESS ]} /\
     r_status <$> pipeline_runs db2 = {[ 1%positive := RUNNING ]}).
Proof. run_scenario. Qed.

(** ** Dependencies at run time *)

(** C1, as the code has it: the service has no resolver.  No operation
    computes a ready set or a terminal check, and a task's dependencies
    are read by the validator only.  [update_task_status] accepts any
    status for any task: what it returns depends on the addressed task
    row alone, not on the DAG of the pipeline nor on the status of any
    other task, and it changes that one row only.  So a task whose
    dependency is [FAILED] or [CANCELLED] is not marked [CANCELLED], and
    can still be reported [RUNNING]; and when every task is [SUCCESS] the
    run record is as it was. *)
Theorem update_task_status_ignores_dependencies
    (tenant_id : UUID) (db : Db) (now : datetime) (id : UUID)
    (status : PipelineStatus) (error_message logs : option string)
    (task : PipelineTask) :
  pipeline_tasks db !! id = Some task ->
  t_tenant_id task = tenant_id ->
  exists task',
    update_task_status tenant_id now id status error_message logs db
      = Returns task' (with_tasks db (<[id := task']> (pipeline_tasks db))) /\
    t_status task' = status /\
    (forall other, other <> id ->
       <[id := task']> (pipeline_tasks db) !! other = pipeline_tasks db !! other) /\
    (forall db2 : Db,
       pipeline_tasks db2 !! id = Some task ->
       update_task_status tenant_id now id status error_message logs db2
         = Returns task' (with_tasks db2 (<[id := task']> (pipeline_tasks db2)))).
Proof.
  intros Hget Hten.
  destruct (update_task_status_found tenant_id db now id status error_message logs task
              Hget Hten) as (task' & Hupd & Hst & Hstart & Hend & Herr & Hlogs).
  exists task'. split; [done |]. split; [done |]. split.
  - intros other Hne. by rewrite lookup_insert_ne.
  - intros db2 Hget2.
    destruct (update_task_status_found tenant_id db2 now id status error_message logs task
                Hget2 Hten) as (task2 & Hupd2 & _).
    rewrite Hupd2. f_equal.
    + unfold update_task_status in Hupd, Hupd2. rewrite Hget in Hupd. rewrite Hget2 in Hupd2.
      rewrite decide_True in Hupd, Hupd2 by done. congruence.
    + unfold update_task_status in Hupd, Hupd2. rewrite Hget in Hupd. rewrite Hget2 in Hupd2.
      rewrite decide_True in Hupd, Hupd2 by done.
      assert (task2 = task') as -> by congruence. done.
Qed.

Lemma update_task_status_ignores_dependencies_witness :
  exists task',
    update_task_status tenant0 9 2 RUNNING None None db_failed
      = Returns task' (with_tasks db_failed (<[2%positive := task']> (pipeline_tasks db_failed))) /\
    t_status task' = RUNNING /\
    (forall other, other <> 2%positive ->
       <[2%positive := task']> (pipeline_tasks db_failed) !! other
         = pipeline_tasks db_failed !! other) /\
    (forall db2 : Db,
       pipeline_tasks db2 !! 2%positive = Some (task0 2 "B" PENDING None) ->
       update_task_status tenant0 9 2 RUNNING None None db2
         = Returns task' (with_tasks db2 (<[2%positive := task']> (pipeline_tasks db2)))).
Proof.
  apply (update_task_status_ignores_dependencies tenant0 db_failed 9 2 RUNNING None None
           (task0 2 "B" PENDING None)); reflexivity.
Defined.

(** C1 as stated fails: in a run of the DAG "A, then B depending on A",
    after A is reported [FAILED] task B is still [PENDING], not
    [CANCELLED], and B is then dispatched: the report that B is [RUNNING]
    is accepted. *)
Lemma failure_does_not_propagate :
  exists run db1 taskA db2 taskA' db3 taskB db4,
    trigger_pipeline tenant0 7 request0 None (db_of (pipeline_of true dag_chain))
      = Returns run db1 /\
    t_task_id <$> pipeline_tasks db1 = {[ 1%positive := "A"; 2%positive := "B" ]} /\
    update_task_status tenant0 5 1 RUNNING None None db1 = Returns taskA db2 /\
    update_task_status tenant0 6 1 FAILED (Some "boom") None db2 = Returns taskA' db3 /\
    t_status <$> pipeline_tasks db3 = {[ 1%positive := FAILED; 2%positive := PENDING ]} /\
    update_task_status tenant0 7 2 RUNNING None None db3 = Returns taskB db4 /\
    t_status <$> pipeline_tasks db4 = {[ 1%positive := FAILED; 2%positive := RUNNING ]}.
Proof. run_scenario. Qed.

(** ** Run status updates and cancellation *)

(** C3, as the code has it: [update_run_status] refuses nothing.  For a
    run that is already [SUCCESS], [FAILED] or [CANCELLED], an update to
    any of these statuses is applied: the status is replaced, [end_time]
    is stamped again, and a non-empty [error_message] overwrites the
    stored one.  Only [cancel_pipeline_run] refuses such a run, with
    [ValidationError], and then changes nothing. *)
Theorem update_run_status_from_terminal
    (tenant_id : UUID) (db : Db) (now : datetime) (run_id : UUID)
    (status : PipelineStatus) (error_message : option string) (run : PipelineRun) :
  get_pipeline_run tenant_id db run_id = Ok run ->
  is_finished (r_status run) = true ->
  is_finished status = true ->
  (exists run' db',
     update_run_status tenant_id now run_id status error_message db = Returns run' db' /\
     pipeline_runs db' !! run_id = Some run' /\
     r_status run' = status /\
     r_end_time run' = Some now /\
     r_error_message run' =
       (if truthy error_message then error_message else r_error_message run)) /\
  cancel_pipeline_run tenant_id now run_id db
    = Raises (ValidationError "Cannot cancel a completed pipeline run") db.
Proof.
  intros Hget Hold Hnew. split.
  - destruct (update_run_status_found tenant_id db now run_id status error_message run Hget)
      as (run' & Hupd & Hst & _ & Hend & Herr).
    exists run', (with_runs db (<[run_id := run']> (pipeline_runs db))).
    rewrite Hnew in Hend, Herr.
    split; [done |]. split; [apply lookup_insert_eq | done].
  - unfold cancel_pipeline_run. rewrite Hget.
    rewrite decide_False; [done |]. intros [Hs | Hs]; rewrite Hs in Hold; done.
Qed.

Lemma update_run_status_from_terminal_witness :
  (exists run' db',
     update_run_status tenant0 9 1 FAILED (Some "boom") db_done = Returns run' db' /\
     pipeline_runs db' !! 1%positive = Some run' /\
     r_status run' = FAILED /\
     r_end_time run' = Some 9 /\
     r_error_message run' =
       (if truthy (Some "boom") then Some "boom"
        else r_error_message (run0 SUCCESS (Some 5) (Some 8)))) /\
  cancel_pipeline_run tenant0 9 1 db_done
    = Raises (ValidationError "Cannot cancel a completed pipeline run") db_done.
Proof.
  apply (update_run_status_from_terminal tenant0 db_done 9 1 FAILED (Some "boom")
           (run0 SUCCESS (Some 5) (Some 8))); reflexivity.
Defined.

(** C3 as stated fails: a run that is [SUCCESS] is moved to [FAILED];
    its status, [end_time] and [error_message] all change. *)
Lemma terminal_run_transitions_again :
  exists run' db',
    pipeline_runs db_done !! 1%positive = Some (run0 SUCCESS (Some 5) (Some 8)) /\
    update_run_status tenant0 9 1 FAILED (Some "boom") db_done = Returns run' db' /\
    pipeline_runs db' !! 1%positive = Some run' /\
    (r_status run', r_end_time run', r_error_message run')
      = (FAILED, Some 9, Some "boom").
Proof. run_scenario. Qed.

(** C4, as the code has it: cancelling a run is permitted iff its status
    is [PENDING] or [RUNNING].  The run then becomes [CANCELLED] with its
    [end_time] set, and the task records are left as they are.
    Cancelling a run in any other status fails with
    [ValidationError("Cannot cancel a completed pipeline run")] and
    leaves run and task records unchanged. *)
Theorem cancel_pipeline_run_spec
    (tenant_id : UUID) (db : Db) (now : datetime) (run_id : UUID) (run : PipelineRun) :
  get_pipeline_run tenant_id db run_id = Ok run ->
  (r_status run = PENDING \/ r_status run = RUNNING ->
     exists run' db',
       cancel_pipeline_run tenant_id now run_id db = Returns run' db' /\
       r_status run' = CANCELLED /\
       r_end_time run' = Some now /\
       pipeline_runs db' = <[run_id := run']> (pipeline_runs db) /\
       pipeline_tasks db' = pipeline_tasks db /\
       pipelines db' = pipelines db) /\
  (~ (r_status run = PENDING \/ r_status run = RUNNING) ->
     cancel_pipeline_run tenant_id now run_id db
       = Raises (ValidationError "Cannot cancel a completed pipeline run") db).
Proof.
  intros Hget. unfold cancel_pipeline_run. rewrite Hget. split; intros Hst.
  - rewrite decide_True by done.
    destruct (update_run_status_found tenant_id db now run_id CANCELLED None run Hget)
      as (run' & Hupd & Hs & _ & Hend & _).
    exists run', (with_runs db (<[run_id := run']> (pipeline_runs db))). done.
  - by rewrite decide_False.
Qed.

Lemma cancel_pipeline_run_spec_witness :
  (r_status (run0 RUNNING (Some 5) None) = PENDING \/
   r_status (run0 RUNNING (Some 5) None) = RUNNING ->
     exists run' db',
       cancel_pipeline_run tenant0 9 1 db_running = Returns run' db' /\
       r_status run' = CANCELLED /\
       r_end_time run' = Some 9 /\
       pipeline_runs db' = <[1%positive := run']> (pipeline_runs db_running) /\
       pipeline_tasks db' = pipeline_tasks db_running /\
       pipelines db' = pipelines db_running) /\
  (~ (r_status (run0 RUNNING (Some 5) None) = PENDING \/
      r_status (run0 RUNNING (Some 5) None) = RUNNING) ->
     cancel_pipeline_run tenant0 9 1 db_running
       = Raises (ValidationError "Cannot cancel a completed pipeline run") db_running).
Proof.
  apply (cancel_pipeline_run_spec tenant0 db_running 9 1 (run0 RUNNING (Some 5) None)).
  reflexivity.
Defined.

(** C4 as stated fails: after a running run is cancelled, its running
    task and its pending task keep their statuses. *)
Lemma cancel_leaves_tasks :
  exists run' db',
    cancel_pipeline_run tenant0 9 1 db_running = Returns run' db' /\
    r_status run' = CANCELLED /\
    t_status <$> pipeline_tasks db' = {[ 1%positive := RUNNING; 2%positive := PENDING ]}.
Proof. run_scenario. Qed.

(** ** Run creation *)

(** A request that raises is rolled back. *)
Lemma get_session_rollback {A} (request : Db -> outcome A) (db : Db) e db' :
  get_session request db = (Raise e, db') -> db' = db.
Proof. unfold get_session. destruct (request db); intros Heq; by simplify_eq. Qed.

Section Trigger.

Variable tenant_id : UUID.

(** The task-creation loop adds one fresh row per entry, in order, and
    touches nothing else. *)
Lemma add_tasks_Returns run_id task_defs db db' :
  add_tasks tenant_id run_id task_defs db = Returns () db' ->
  exists ids : list UUID,
    length ids = length task_defs /\
    NoDup ids /\
    (forall i, i ∈ ids -> pipeline_tasks db !! i = None) /\
    pipelines db' = pipelines db /\
    pipeline_runs db' = pipeline_runs db /\
    (forall k, k ∉ ids -> pipeline_tasks db' !! k = pipeline_tasks db !! k) /\
    (forall n i task_def, ids !! n = Some i -> task_defs !! n = Some task_def ->
       exists tid, task_id task_def = Some tid /\
                   pipeline_tasks db' !! i = Some (new_task tenant_id run_id i tid)).
Proof.
  revert db. induction task_defs as [|task_def rest IH]; intros db Hadd; simpl in Hadd.
  - injection Hadd as <-. exists []. repeat split; try done.
    + constructor.
    + intros i Hi. by apply elem_of_nil in Hi.
  - destruct (task_id task_def) as [tid|] eqn:Htid; [|done].
    set (id := fresh (dom (pipeline_tasks db))) in *.
    assert (Hfresh : pipeline_tasks db !! id = None).
    { apply not_elem_of_dom. apply is_fresh. }
    destruct (IH _ Hadd) as (ids & Hlen & Hnd & Hnew & Hp & Hr & Hother & Hrows).
    simpl in Hnew, Hother.
    assert (Hid : id ∉ ids).
    { intros Hin. specialize (Hnew _ Hin). by rewrite lookup_insert_eq in Hnew. }
    exists (id :: ids). repeat split.
    + simpl. by rewrite Hlen.
    + by constructor.
    + intros i [-> | Hi]%elem_of_cons; [done |].
      specialize (Hnew _ Hi). rewrite lookup_insert_ne in Hnew; [done |].
      intros <-. done.
    + done.
    + done.
    + intros k Hk. apply not_elem_of_cons in Hk as [Hne Hk].
      rewrite (Hother _ Hk). by rewrite lookup_insert_ne.
    + intros [|n] i d Hi Hd; simpl in Hi, Hd.
      * injection Hi as <-. injection Hd as <-. exists tid. split; [done |].
        rewrite (Hother _ Hid). apply lookup_insert_eq.
      * by apply (Hrows n).
Qed.

Lemma add_tasks_total run_id task_defs db :
  Forall (fun task_def => is_Some (task_id task_def)) task_defs ->
  exists db', add_tasks tenant_id run_id task_defs db = Returns () db'.
Proof.
  intros Hall. revert db. induction Hall as [|task_def rest [tid Htid] _ IH]; intros db.
  - by eexists.
  - simpl. rewrite Htid. apply IH.
Qed.

(** Whatever the loop does, it only adds task rows. *)
Lemma add_tasks_Raises run_id task_defs db e db' :
  add_tasks tenant_id run_id task_defs db = Raises e db' ->
  e = KeyError "task_id" /\ ~ Forall (fun task_def => is_Some (task_id task_def)) task_defs.
Proof.
  revert db. induction task_defs as [|task_def rest IH]; intros db Hadd; simpl in Hadd.
  - done.
  - destruct (task_id task_def) as [tid|] eqn:Htid.
    + destruct (IH _ Hadd) as [-> Hnot]. split; [done |].
      intros Hall. apply Hnot. by apply Forall_cons in Hall as [_ ?].
    + injection Hadd as <- <-. split; [done |].
      intros Hall. apply Forall_cons in Hall as [[? Hsome] _]. congruence.
Qed.

End Trigger.

(** C5: triggering a pipeline whose [enabled] flag is false raises
    [ValidationError("Pipeline is disabled")] and adds no run and no task
    to the session.  Triggering an enabled pipeline whose [dag_definition]
    is the dump of a [DAGDefinition], by a caller whose id the
    [triggered_by] foreign key accepts, returns a new run, [PENDING] and
    without times, and adds, besides that one run, exactly one new task
    row per [TaskDefinition], in order, [PENDING], without times, with
    the task id of the definition and the id of the run, leaving every
    other row as it was; [get_session] commits the run and its tasks
    together.  When the foreign key refuses the caller's id, the flush of
    the run raises [IntegrityError] and nothing is added.  Under
    [get_session] the effect is all or nothing: a call that raises leaves
    the database as it was. *)
Theorem trigger_pipeline_spec
    (tenant_id : UUID) (db : Db) (pipeline_id : UUID) (data : TriggerPipelineRequest)
    (user_id : option UUID) (pipeline : Pipeline) :
  get_pipeline tenant_id db pipeline_id = Ok pipeline ->
  (p_enabled pipeline = false ->
     trigger_pipeline tenant_id pipeline_id data user_id db
       = Raises (ValidationError "Pipeline is disabled") db /\
     get_session (trigger_pipeline tenant_id pipeline_id data user_id) db
       = (Raise (ValidationError "Pipeline is disabled"), db)) /\
  (p_enabled pipeline = true ->
     references_user user_id db ->
     forall d : DAGDefinition, p_dag_definition pipeline = model_dump d ->
     exists (run : PipelineRun) (db' : Db) (ids : list UUID),
       trigger_pipeline tenant_id pipeline_id data user_id db = Returns run db' /\
       get_session (trigger_pipeline tenant_id pipeline_id data user_id) db
         = (Ok run, db') /\
       run = mkPipelineRun (r_id run) tenant_id pipeline_id PENDING (tr_trigger_type data)
               None None (tr_parameters data) None user_id /\
       pipeline_runs db !! r_id run = None /\
       pipeline_runs db' = <[r_id run := run]> (pipeline_runs db) /\
       pipelines db' = pipelines db /\
       length ids = length (dd_tasks d) /\
       NoDup ids /\
       (forall i, i ∈ ids -> pipeline_tasks db !! i = None) /\
       (forall k, k ∉ ids -> pipeline_tasks db' !! k = pipeline_tasks db !! k) /\
       (forall n i td, ids !! n = Some i -> dd_tasks d !! n = Some td ->
          pipeline_tasks db' !! i
            = Some (mkPipelineTask i tenant_id (r_id run) (td_task_id td) PENDING
                                   None None None None))) /\
  (p_enabled pipeline = true ->
     ~ references_user user_id db ->
     trigger_pipeline tenant_id pipeline_id data user_id db
       = Raises (IntegrityError "pipeline_runs_triggered_by_fkey") db) /\
  (forall e db',
     get_session (trigger_pipeline tenant_id pipeline_id data user_id) db = (Raise e, db') ->
     db' = db).
Proof.
  intros Hget. unfold get_session, trigger_pipeline. rewrite Hget.
  split; [| split; [| split]].
  - by intros ->.
  - intros -> Huser d Hdag. simpl. rewrite decide_True by done. rewrite Hdag. simpl.
    set (id := fresh (dom (pipeline_runs db))).
    set (run := mkPipelineRun id tenant_id pipeline_id PENDING _ _ _ _ _ _).
    set (db1 := with_runs db _).
    destruct (add_tasks_total tenant_id id (task_model_dump <$> dd_tasks d) db1) as [db' Hadd].
    { apply Forall_fmap, Forall_true. intros td. by eexists. }
    rewrite Hadd.
    destruct (add_tasks_Returns tenant_id _ _ _ _ Hadd)
      as (ids & Hlen & Hnd & Hnew & Hp & Hr & Hother & Hrows).
    exists run, db', ids. rewrite length_fmap in Hlen.
    repeat split; try done.
    + apply not_elem_of_dom, is_fresh.
    + intros n i td Hi Htd.
      destruct (Hrows n i (task_model_dump td) Hi) as (tid & [= <-] & Hrow); [|done].
      by rewrite list_lookup_fmap, Htd.
  - intros -> Huser. simpl. by rewrite decide_False.
  - intros e db'.
    destruct (if negb (p_enabled pipeline) then _ else _); intros Heq; by simplify_eq.
Qed.

Lemma trigger_pipeline_spec_witness :
  (p_enabled (pipeline_of true dag_chain) = false ->
     trigger_pipeline tenant0 7 request0 None (db_of (pipeline_of true dag_chain))
       = Raises (ValidationError "Pipeline is disabled")
                (db_of (pipeline_of true dag_chain)) /\
     get_session (trigger_pipeline tenant0 7 request0 None)
                 (db_of (pipeline_of true dag_chain))
       = (Raise (ValidationError "Pipeline is disabled"),
          db_of (pipeline_of true dag_chain))) /\
  (p_enabled (pipeline_of true dag_chain) = true ->
     references_user None (db_of (pipeline_of true dag_chain)) ->
     forall d : DAGDefinition, p_dag_definition (pipeline_of true dag_chain) = model_dump d ->
     exists (run : PipelineRun) (db' : Db) (ids : list UUID),
       trigger_pipeline tenant0 7 request0 None (db_of (pipeline_of true dag_chain))
         = Returns run db' /\
       get_session (trigger_pipeline tenant0 7 request0 None)
                   (db_of (pipeline_of true dag_chain))
         = (Ok run, db') /\
       run = mkPipelineRun (r_id run) tenant0 7 PENDING (tr_trigger_type request0)
               None None (tr_parameters request0) None None /\
       pipeline_runs (db_of (pipeline_of true dag_chain)) !! r_id run = None /\
       pipeline_runs db'
         = <[r_id run := run]> (pipeline_runs (db_of (pipeline_of true dag_chain))) /\
       pipelines db' = pipelines (db_of (pipeline_of true dag_chain)) /\
       length ids = length (dd_tasks d) /\
       NoDup ids /\
       (forall i, i ∈ ids ->
          pipeline_tasks (db_of (pipeline_of true dag_chain)) !! i = None) /\
       (forall k, k ∉ ids ->
          pipeline_tasks db' !! k = pipeline_tasks (db_of (pipeline_of true dag_chain)) !! k) /\
       (forall n i td, ids !! n = Some i -> dd_tasks d !! n = Some td ->
          pipeline_tasks db' !! i
            = Some (mkPipelineTask i tenant0 (r_id run) (td_task_id td) PENDING
                                   None None None None))) /\
  (p_enabled (pipeline_of true dag_chain) = true ->
     ~ references_user None (db_of (pipeline_of true dag_chain)) ->
     trigger_pipeline tenant0 7 request0 None (db_of (pipeline_of true dag_chain))
       = Raises (IntegrityError "pipeline_runs_triggered_by_fkey")
                (db_of (pipeline_of true dag_chain))) /\
  (forall e db',
     get_session (trigger_pipeline tenant0 7 request0 None)
                 (db_of (pipeline_of true dag_chain)) = (Raise e, db') ->
     db' = db_of (pipeline_of true dag_chain)).
Proof.
  apply (trigger_pipeline_spec tenant0 (db_of (pipeline_of true dag_chain)) 7 request0 None
           (pipeline_of true dag_chain)).
  reflexivity.
Defined.

(** ** The DAG and the run *)

Section RunAndDag.

Variable tenant_id : UUID.

(** The loop reads nothing of a task entry but its [task_id], and
    nothing of the session but the task table. *)
Lemma add_tasks_task_ids run_id defs1 defs2 db1 db2 :
  task_id <$> defs1 = task_id <$> defs2 ->
  pipeline_runs db1 = pipeline_runs db2 ->
  pipeline_tasks db1 = pipeline_tasks db2 ->
  session_rows (add_tasks tenant_id run_id defs1 db1)
    = session_rows (add_tasks tenant_id run_id defs2 db2).
Proof.
  revert defs2 db1 db2.
  induction defs1 as [|d1 rest1 IH]; intros [|d2 rest2] db1 db2 Hids Hr Ht;
    try done; simpl in *.
  - by rewrite Hr, Ht.
  - injection Hids as Hid Hids. rewrite Hid.
    destruct (task_id d2) as [tid|]; simpl.
    + apply IH; simpl; [done | done | by rewrite Ht].
    + by rewrite Hr, Ht.
Qed.

Lemma trigger_pipeline_task_ids pipeline_id data user_id db1 db2 p1 p2 :
  pipelines db1 !! pipeline_id = Some p1 ->
  pipelines db2 !! pipeline_id = Some p2 ->
  p_tenant_id p1 = p_tenant_id p2 ->
  p_deleted_at p1 = p_deleted_at p2 ->
  p_enabled p1 = p_enabled p2 ->
  dag_task_ids (p_dag_definition p1) = dag_task_ids (p_dag_definition p2) ->
  pipeline_runs db1 = pipeline_runs db2 ->
  pipeline_tasks db1 = pipeline_tasks db2 ->
  users db1 = users db2 ->
  session_rows (trigger_pipeline tenant_id pipeline_id data user_id db1)
    = session_rows (trigger_pipeline tenant_id pipeline_id data user_id db2).
Proof.
  intros H1 H2 Hten Hdel Hen Hids Hr Ht Hu.
  unfold trigger_pipeline, get_pipeline. rewrite H1, H2, Hten, Hdel.
  case_decide; simpl; [| by rewrite Hr, Ht].
  rewrite Hen. destruct (p_enabled p2); simpl; [| by rewrite Hr, Ht].
  rewrite Hr.
  assert (Href : references_user user_id db1 <-> references_user user_id db2).
  { unfold references_user. by rewrite Hu. }
  destruct (decide (references_user user_id db1)) as [Hu1 | Hu1],
           (decide (references_user user_id db2)) as [Hu2 | Hu2];
    try tauto; [| simpl; by rewrite Hr, Ht].
  set (run := mkPipelineRun _ _ _ _ _ _ _ _ _ _).
  pose proof (add_tasks_task_ids (fresh (dom (pipeline_runs db2)))
    (get_list (tasks (p_dag_definition p1))) (get_list (tasks (p_dag_definition p2)))
    (with_runs db1 (<[fresh (dom (pipeline_runs db2)) := run]> (pipeline_runs db2)))
    (with_runs db2 (<[fresh (dom (pipeline_runs db2)) := run]> (pipeline_runs db2)))
    Hids eq_refl Ht) as Hadd.
  destruct (add_tasks _ _ _ (with_runs db1 _)), (add_tasks _ _ _ (with_runs db2 _));
    simpl in *; congruence.
Qed.

Variable dump_nested : DAGDefinition -> dag_value.

(** [update_pipeline] writes the pipeline row and nothing else. *)
Lemma update_pipeline_frame depth pipeline_id data db :
  session_rows (update_pipeline tenant_id dump_nested depth pipeline_id data db)
    = (match update_pipeline tenant_id dump_nested depth pipeline_id data db with
       | Returns p _ => Ok p
       | Raises e _ => Raise e
       end, pipeline_runs db, pipeline_tasks db).
Proof.
  unfold update_pipeline.
  destruct (get_pipeline tenant_id db pipeline_id); [| done].
  destruct (updated_dag dump_nested depth data); [| done].
  by case_decide.
Qed.

End RunAndDag.

(** C6, as the code has it: a [PipelineRun] stores no DAG.  At run
    creation [trigger_pipeline] reads the pipeline's current
    [dag_definition] for its task ids only, so a pipeline whose DAG
    differs in anything but the task ids (dependencies, task types,
    configs) gets the same run and the same task rows.  A later
    [update_pipeline] leaves the run and task rows unchanged; the
    dependencies of a run's tasks are held by the pipeline row alone, and
    storing another DAG there changes neither table. *)
Theorem run_stores_task_ids_only
    (tenant_id : UUID) (dump_nested : DAGDefinition -> dag_value) (db : Db)
    (pipeline_id : UUID) (pipeline : Pipeline) (dag' : DagDict) :
  pipelines db !! pipeline_id = Some pipeline ->
  dag_task_ids dag' = dag_task_ids (p_dag_definition pipeline) ->
  (forall data user_id,
     session_rows (trigger_pipeline tenant_id pipeline_id data user_id
                     (store_dag pipeline_id dag' db))
       = session_rows (trigger_pipeline tenant_id pipeline_id data user_id db)) /\
  (forall depth id data,
     (session_rows (update_pipeline tenant_id dump_nested depth id data db)).1.2
       = pipeline_runs db /\
     (session_rows (update_pipeline tenant_id dump_nested depth id data db)).2
       = pipeline_tasks db) /\
  (pipeline_runs (store_dag pipeline_id dag' db) = pipeline_runs db /\
   pipeline_tasks (store_dag pipeline_id dag' db) = pipeline_tasks db /\
   p_dag_definition <$> pipelines (store_dag pipeline_id dag' db) !! pipeline_id
     = Some dag').
Proof.
  intros Hp Hids. split; [| split].
  - intros data user_id.
    apply (trigger_pipeline_task_ids tenant_id pipeline_id data user_id _ _
             (set_p_dag_definition dag' pipeline) pipeline); try done.
    simpl. by rewrite lookup_alter_eq, Hp.
  - intros depth id data. by rewrite update_pipeline_frame.
  - repeat split. simpl. by rewrite lookup_alter_eq, Hp.
Qed.

Lemma run_stores_task_ids_only_witness :
  (forall data user_id,
     session_rows (trigger_pipeline tenant0 7 data user_id
                     (store_dag 7 (model_dump dag_flat) (db_of (pipeline_of true dag_chain))))
       = session_rows (trigger_pipeline tenant0 7 data user_id
                         (db_of (pipeline_of true dag_chain)))) /\
  (forall depth id data,
     (session_rows (update_pipeline tenant0 DagPlain_dump depth id data
                      (db_of (pipeline_of true dag_chain)))).1.2
       = pipeline_runs (db_of (pipeline_of true dag_chain)) /\
     (session_rows (update_pipeline tenant0 DagPlain_dump depth id data
                      (db_of (pipeline_of true dag_chain)))).2
       = pipeline_tasks (db_of (pipeline_of true dag_chain))) /\
  (pipeline_runs (store_dag 7 (model_dump dag_flat) (db_of (pipeline_of true dag_chain)))
     = pipeline_runs (db_of (pipeline_of true dag_chain)) /\
   pipeline_tasks (store_dag 7 (model_dump dag_flat) (db_of (pipeline_of true dag_chain)))
     = pipeline_tasks (db_of (pipeline_of true dag_chain)) /\
   p_dag_definition
     <$> pipelines (store_dag 7 (model_dump dag_flat) (db_of (pipeline_of true dag_chain)))
           !! 7%positive
     = Some (model_dump dag_flat)).
Proof.
  apply (run_stores_task_ids_only tenant0 DagPlain_dump (db_of (pipeline_of true dag_chain))
           7 (pipeline_of true dag_chain) (model_dump dag_flat)); reflexivity.
Defined.

(** C6 as stated fails: two pipelines that differ in their DAG (task [B]
    depends on [A] in one and on nothing in the other) get, when
    triggered, the same run and the same task rows, so the run holds no
    copy of its DAG. *)
Lemma run_holds_no_dag_copy :
  model_dump dag_chain <> model_dump dag_flat /\
  exists run rows_r rows_t,
    session_rows (trigger_pipeline tenant0 7 request0 None
                    (db_of (pipeline_of true dag_chain)))
      = (Ok run, rows_r, rows_t) /\
    session_rows (trigger_pipeline tenant0 7 request0 None
                    (db_of (pipeline_of true dag_flat)))
      = (Ok run, rows_r, rows_t) /\
    t_task_id <$> rows_t = {[ 1%positive := "A"; 2%positive := "B" ]}.
Proof. split; [done |]. run_scenario. Qed.

(** ** Structural checks of the validator *)

(** The id that the first loop of [_validate_dag] reads from an entry
    whose [task_id] is truthy. *)
Local Abbreviation tid_of := (fun t : TaskDict => default "" (task_id t)).

Lemma truthy_valid (t : TaskDefinition) :
  valid_TaskDefinition t -> truthy (Some (td_task_id t)) = true.
Proof.
  intros [[Hlen _] _]. destruct (td_task_id t); [simpl in Hlen; lia | done].
Qed.

Lemma collect_task_ids_Ok ts seen :
  Forall (fun t => truthy (task_id t) = true) ts ->
  NoDup (tid_of <$> ts) ->
  (forall x, x ∈ tid_of <$> ts -> x ∉ seen) ->
  collect_task_ids ts seen = Ok (seen ∪ list_to_set (tid_of <$> ts)).
Proof.
  intros Hall. revert seen. induction Hall as [|t rest Ht _ IH]; intros seen Hnd Hdisj.
  - simpl. f_equal. set_solver.
  - simpl in *. rewrite Ht. apply NoDup_cons in Hnd as [Hx Hnd].
    rewrite decide_False by (apply Hdisj; left).
    rewrite IH; [f_equal; set_solver | done |].
    intros x Hin. specialize (Hdisj x). set_solver.
Qed.

Lemma collect_task_ids_duplicate ts seen :
  Forall (fun t => truthy (task_id t) = true) ts ->
  ~ (NoDup (tid_of <$> ts) /\ forall x, x ∈ tid_of <$> ts -> x ∉ seen) ->
  exists tid,
    collect_task_ids ts seen = Raise (ValidationError (msg_duplicate tid)) /\
    ((tid ∈ seen /\ tid ∈ tid_of <$> ts) \/
     exists l1 l2 l3, tid_of <$> ts = (l1 ++ tid :: l2 ++ tid :: l3)%list).
Proof.
  intros Hall. revert seen. induction Hall as [|t rest Ht _ IH]; intros seen Hbad.
  - exfalso. apply Hbad. split; [constructor | intros x Hx; by apply elem_of_nil in Hx].
  - simpl in *. rewrite Ht. case_decide as Hseen.
    + eexists. split; [done |]. left. split; [done | left].
    + destruct (IH (seen ∪ {[default "" (task_id t)]})) as (tid & -> & Hwhere).
      { intros [Hnd Hdisj]. apply Hbad. split.
        - apply NoDup_cons. split; [| done]. intros Hin. apply (Hdisj _ Hin). set_solver.
        - intros x [-> | Hin]%elem_of_cons; [done |]. specialize (Hdisj _ Hin). set_solver. }
      exists tid. split; [done |].
      destruct Hwhere as [[Hin Hrest] | (l1 & l2 & l3 & Heq)].
      * apply elem_of_union in Hin as [Hin | ->%elem_of_singleton].
        -- left. split; [done | by right].
        -- right. apply list_elem_of_split in Hrest as (l2 & l3 & Heq).
           exists [], l2, l3. simpl. f_equal. exact Heq.
      * right. exists (default "" (task_id t) :: l1), l2, l3. simpl. f_equal. exact Heq.
Qed.

Lemma check_task_dependencies_Ok task deps task_ids :
  Forall (fun dep => dep ∈ task_ids) deps ->
  check_task_dependencies task deps task_ids = Ok ().
Proof.
  induction 1 as [|dep rest Hdep _ IH]; simpl; [done |]. by rewrite decide_True.
Qed.

Lemma check_task_dependencies_unknown task tid deps (task_ids : gset string) :
  task_id task = Some tid ->
  ~ Forall (fun dep => dep ∈ task_ids) deps ->
  exists dep,
    dep ∈ deps /\ (dep ∉ task_ids) /\
    check_task_dependencies task deps task_ids
      = Raise (ValidationError (msg_unknown tid dep)).
Proof.
  intros Htid. induction deps as [|dep rest IH]; intros Hbad.
  - exfalso. apply Hbad. constructor.
  - simpl. case_decide as Hin.
    + destruct IH as (dep' & Hdep' & Hnot & ->).
      { intros Hall. apply Hbad. by constructor. }
      exists dep'. split; [by right | done].
    + exists dep. rewrite Htid. split; [left | done].
Qed.

Lemma check_dependencies_Ok ts task_ids :
  Forall (fun t => Forall (fun dep => dep ∈ task_ids) (get_list (dependencies t))) ts ->
  check_dependencies ts task_ids = Ok ().
Proof.
  induction 1 as [|t rest Ht _ IH]; simpl; [done |].
  by rewrite check_task_dependencies_Ok.
Qed.

Lemma check_dependencies_unknown ts (task_ids : gset string) :
  Forall (fun t => is_Some (task_id t)) ts ->
  ~ Forall (fun t => Forall (fun dep => dep ∈ task_ids) (get_list (dependencies t))) ts ->
  exists t tid dep,
    t ∈ ts /\ task_id t = Some tid /\ dep ∈ get_list (dependencies t) /\
    (dep ∉ task_ids) /\
    check_dependencies ts task_ids = Raise (ValidationError (msg_unknown tid dep)).
Proof.
  intros Hids. induction Hids as [|t rest [tid Htid] _ IH]; intros Hbad.
  - exfalso. apply Hbad. constructor.
  - simpl.
    destruct (decide (Forall (fun dep => dep ∈ task_ids) (get_list (dependencies t))))
      as [Hok | Hko].
    + rewrite check_task_dependencies_Ok by done. simpl.
      destruct IH as (t' & tid' & dep & Hin & Htid' & Hdep & Hnot & ->).
      { intros Hall. apply Hbad. by constructor. }
      exists t', tid', dep. repeat split; try done. by right.
    + destruct (check_task_dependencies_unknown t tid _ task_ids Htid Hko)
        as (dep & Hdep & Hnot & ->).
      exists t, tid, dep. repeat split; try done. left.
Qed.

Lemma tid_of_model_dump (ds : list TaskDefinition) :
  tid_of <$> (task_model_dump <$> ds) = td_task_id <$> ds.
Proof. rewrite <- list_fmap_compose. done. Qed.

Lemma truthy_model_dump (ds : list TaskDefinition) :
  Forall valid_TaskDefinition ds ->
  Forall (fun t => truthy (task_id t) = true) (task_model_dump <$> ds).
Proof.
  intros Hall. apply Forall_fmap. eapply Forall_impl; [done |].
  intros t Ht. by apply truthy_valid.
Qed.

(** C8: [_validate_dag] applies its structural checks in order, each
    with a failure of its own.  A DAG with no task is rejected with "DAG
    must have at least one task"; a [DAGDefinition] in which two tasks
    have the same [task_id] is rejected with "Duplicate task_id: " and
    that id; one without duplicates in which some task depends on an id
    that no task has is rejected with "Task '...' depends on unknown
    task '...'", naming the task and the missing id.  The three failures
    are pairwise different, and different from the cycle failure. *)
Theorem validate_dag_structural (depth : nat) (d : DAGDefinition) :
  valid_DAGDefinition d ->
  (forall dag : DagDict,
     get_list (tasks dag) = [] ->
     _validate_dag depth dag = Raise (ValidationError msg_empty)) /\
  (~ NoDup (td_task_id <$> dd_tasks d) ->
     exists tid l1 l2 l3,
       td_task_id <$> dd_tasks d = (l1 ++ tid :: l2 ++ tid :: l3)%list /\
       _validate_dag depth (model_dump d) = Raise (ValidationError (msg_duplicate tid))) /\
  (NoDup (td_task_id <$> dd_tasks d) ->
   (exists t dep, t ∈ dd_tasks d /\ dep ∈ td_dependencies t /\
                  dep ∉ td_task_id <$> dd_tasks d) ->
     exists t dep,
       t ∈ dd_tasks d /\ dep ∈ td_dependencies t /\
       (dep ∉ td_task_id <$> dd_tasks d) /\
       _validate_dag depth (model_dump d)
         = Raise (ValidationError (msg_unknown (td_task_id t) dep))) /\
  (forall tid tid' dep,
     msg_empty <> msg_duplicate tid /\
     msg_empty <> msg_unknown tid' dep /\
     msg_duplicate tid <> msg_unknown tid' dep /\
     msg_cycle <> msg_empty /\
     msg_cycle <> msg_duplicate tid /\
     msg_cycle <> msg_unknown tid' dep).
Proof.
  intros Hvalid. split; [| split; [| split]].
  - intros dag Hempty. unfold _validate_dag. by rewrite Hempty.
  - intros Hdup. unfold _validate_dag. simpl.
    destruct (dd_tasks d) as [|t0 rest] eqn:Hts; [exfalso; apply Hdup; constructor |].
    rewrite <- Hts in *. clear Hts.
    destruct (task_model_dump <$> dd_tasks d) as [|d0 drest] eqn:Hdump.
    { apply fmap_nil_inv in Hdump. rewrite Hdump in Hdup. exfalso. apply Hdup. constructor. }
    rewrite <- Hdump. clear Hdump.
    destruct (collect_task_ids_duplicate (task_model_dump <$> dd_tasks d) ∅)
      as (tid & -> & Hwhere).
    + by apply truthy_model_dump.
    + rewrite tid_of_model_dump. intros [Hnd _]. done.
    + rewrite tid_of_model_dump in Hwhere.
      destruct Hwhere as [[Hin _] | (l1 & l2 & l3 & Heq)]; [set_solver |].
      by exists tid, l1, l2, l3.
  - intros Hnd (t & dep & Ht & Hdep & Hnot). unfold _validate_dag. simpl.
    destruct (task_model_dump <$> dd_tasks d) as [|d0 drest] eqn:Hdump.
    { apply fmap_nil_inv in Hdump. rewrite Hdump in Ht. by apply elem_of_nil in Ht. }
    rewrite <- Hdump. clear Hdump.
    rewrite collect_task_ids_Ok; simpl.
    + rewrite tid_of_model_dump.
      destruct (check_dependencies_unknown (task_model_dump <$> dd_tasks d)
                  (∅ ∪ list_to_set (td_task_id <$> dd_tasks d)))
        as (t' & tid' & dep' & Hin & Htid & Hdep' & Hnot' & ->).
      * apply Forall_fmap, Forall_true. intros td. by eexists.
      * intros Hall. rewrite Forall_fmap, Forall_forall in Hall.
        specialize (Hall t Ht). simpl in Hall. rewrite Forall_forall in Hall.
        specialize (Hall dep Hdep). set_solver.
      * apply list_elem_of_fmap in Hin as (td & -> & Htd). simpl in *.
        injection Htid as <-. exists td, dep'. repeat split; try done. set_solver.
    + by apply truthy_model_dump.
    + by rewrite tid_of_model_dump.
    + set_solver.
  - intros tid tid' dep. unfold msg_empty, msg_duplicate, msg_unknown, msg_cycle.
    repeat split; simpl; discriminate.
Qed.

Lemma validate_dag_structural_witness :
  (forall dag : DagDict,
     get_list (tasks dag) = [] ->
     _validate_dag 100 dag = Raise (ValidationError msg_empty)) /\
  (~ NoDup (td_task_id <$> dd_tasks dag_dangling) ->
     exists tid l1 l2 l3,
       td_task_id <$> dd_tasks dag_dangling = (l1 ++ tid :: l2 ++ tid :: l3)%list /\
       _validate_dag 100 (model_dump dag_dangling)
         = Raise (ValidationError (msg_duplicate tid))) /\
  (NoDup (td_task_id <$> dd_tasks dag_dangling) ->
   (exists t dep, t ∈ dd_tasks dag_dangling /\ dep ∈ td_dependencies t /\
                  dep ∉ td_task_id <$> dd_tasks dag_dangling) ->
     exists t dep,
       t ∈ dd_tasks dag_dangling /\ dep ∈ td_dependencies t /\
       (dep ∉ td_task_id <$> dd_tasks dag_dangling) /\
       _validate_dag 100 (model_dump dag_dangling)
         = Raise (ValidationError (msg_unknown (td_task_id t) dep))) /\
  (forall tid tid' dep,
     msg_empty <> msg_duplicate tid /\
     msg_empty <> msg_unknown tid' dep /\
     msg_duplicate tid <> msg_unknown tid' dep /\
     msg_cycle <> msg_empty /\
     msg_cycle <> msg_duplicate tid /\
     msg_cycle <> msg_unknown tid' dep).
Proof.
  apply (validate_dag_structural 100 dag_dangling).
  unfold valid_DAGDefinition, valid_TaskDefinition. simpl.
  repeat constructor; simpl; lia.
Defined.

(** The three failures on sample definitions. *)
Example validate_empty :
  _validate_dag 100 (mkDagDict None []) = Raise (ValidationError msg_empty) /\
  _validate_dag 100 (model_dump (mkDAGDefinition [] []))
    = Raise (ValidationError "DAG must have at least one task").
Proof. split; reflexivity. Qed.

Example validate_duplicate :
  _validate_dag 100 (model_dump dag_duplicate)
    = Raise (ValidationError "Duplicate task_id: A").
Proof. vm_compute. reflexivity. Qed.

Example validate_dangling :
  _validate_dag 100 (model_dump dag_dangling)
    = Raise (ValidationError "Task 'B' depends on unknown task 'Z'").
Proof. vm_compute. reflexivity. Qed.

(** ** The cycle check *)

Section Traversal.

Variable g : graph_dict.

Lemma tc_first {A} (R : relation A) x z :
  tc R x z -> exists y, R x y /\ rtc R y z.
Proof.
  intros Htc. inversion Htc as [? ? Hstep | ? y ? Hstep Hrest]; subst.
  - exists z. split; [done | apply rtc_refl].
  - exists y. split; [done | by apply tc_rtc].
Qed.

Lemma black_reach c u v :
  black_ok g c -> c !! u = Some BLACK -> rtc (edge g) u v -> c !! v = Some BLACK.
Proof.
  intros Hok Hu Hreach. induction Hreach as [|x y z Hxy _ IH]; [done |].
  apply IH. by apply (Hok x).
Qed.

Lemma elem_of_whites c u : u ∈ whites c <-> c !! u = Some WHITE.
Proof.
  unfold whites. rewrite elem_of_dom. split.
  - intros [col Hcol]. apply map_lookup_filter_Some in Hcol as [Hcol Hw].
    simpl in Hw. by subst.
  - intros Hu. exists WHITE. by apply map_lookup_filter_Some.
Qed.

Lemma advance_refl c : advance c c.
Proof. intros u. by left. Qed.

Lemma advance_at_trans c1 c2 c3 u :
  advance_at c1 c2 u -> advance_at c2 c3 u -> advance_at c1 c3 u.
Proof.
  unfold advance_at. intros [H12 | [H1 H2]] [H23 | [H2' H3]].
  - left. congruence.
  - right. split; congruence.
  - right. split; congruence.
  - congruence.
Qed.

Lemma advance_trans c1 c2 c3 : advance c1 c2 -> advance c2 c3 -> advance c1 c3.
Proof. intros H12 H23 u. by apply (advance_at_trans c1 c2 c3). Qed.

Lemma advance_is_Some c c' u : advance c c' -> is_Some (c' !! u) <-> is_Some (c !! u).
Proof.
  intros Hadv. destruct (Hadv u) as [-> | [-> ->]]; [done |]. split; by eexists.
Qed.

Lemma advance_dom_closed c c' : advance c c' -> dom_closed g c -> dom_closed g c'.
Proof.
  intros Hadv Hdom u v Hu Hedge.
  apply (advance_is_Some c c' v Hadv), (Hdom u v); [| done].
  by apply (advance_is_Some c c' u Hadv).
Qed.

Lemma advance_whites c c' : advance c c' -> size (whites c') <= size (whites c).
Proof.
  intros Hadv. apply subseteq_size. intros u. rewrite !elem_of_whites.
  destruct (Hadv u) as [-> | [_ ->]]; done.
Qed.

Lemma advance_gray c c' u : advance c c' -> c' !! u = Some GRAY -> c !! u = Some GRAY.
Proof. intros Hadv. destruct (Hadv u) as [-> | [_ ->]]; done. Qed.

Lemma advance_black c c' u : advance c c' -> c !! u = Some BLACK -> c' !! u = Some BLACK.
Proof. intros Hadv Hu. destruct (Hadv u) as [-> | [? _]]; congruence. Qed.

Lemma whites_enter c node :
  c !! node = Some WHITE -> size (whites (<[node := GRAY]> c)) < size (whites c).
Proof.
  intros Hnode. apply subset_size. split.
  - intros u. rewrite !elem_of_whites. intros Hu.
    destruct (decide (u = node)) as [-> | Hne].
    + by rewrite lookup_insert_eq in Hu.
    + by rewrite lookup_insert_ne in Hu.
  - intros Hsub. specialize (Hsub node). rewrite !elem_of_whites in Hsub.
    specialize (Hsub Hnode). by rewrite lookup_insert_eq in Hsub.
Qed.

(** The neighbour loop, given that the recursive calls behave. *)
Lemma dfs_neighbors_post
    (rec : string -> gmap string Color -> result (bool * gmap string Color))
    (depth : nat) (node : string) (neighbors : list string) :
  (forall n c0,
     c0 !! n = Some WHITE -> dom_closed g c0 -> black_ok g c0 ->
     size (whites c0) < depth -> grays_reach g c0 n ->
     dfs_post g n c0 (rec n c0)) ->
  forall c,
    c !! node = Some GRAY -> dom_closed g c -> black_ok g c ->
    size (whites c) < depth -> grays_reach g c node ->
    (forall v, v ∈ neighbors -> edge g node v) ->
    (forall v, edge g node v -> v ∈ neighbors \/ c !! v = Some BLACK) ->
    loop_post g node c (dfs_neighbors rec node neighbors c).
Proof.
  intros Hrec. induction neighbors as [|n rest IH];
    intros c Hnode Hdom Hok Hsize Hgray Hsub Hrem; simpl.
  - split; [apply lookup_insert_eq |]. split.
    + intros u Hu. destruct (decide (u = node)) as [-> | Hne].
      * split.
        -- intros v Hv. destruct (Hrem v Hv) as [Hin | Hb]; [by apply elem_of_nil in Hin |].
           rewrite lookup_insert_ne; [done |]. intros <-. congruence.
        -- intros Hcyc. apply tc_first in Hcyc as (y & Hy & Hback).
           destruct (Hrem y Hy) as [Hin | Hb]; [by apply elem_of_nil in Hin |].
           pose proof (black_reach c y node Hok Hb Hback). congruence.
      * rewrite lookup_insert_ne in Hu by done.
        destruct (Hok u Hu) as [Hnb Hcyc]. split; [| done].
        intros v Hv. destruct (decide (v = node)) as [-> | Hv'].
        -- apply lookup_insert_eq.
        -- rewrite lookup_insert_ne by done. by apply Hnb.
    + intros u Hne. left. by rewrite lookup_insert_ne.
  - assert (Hedge : edge g node n) by (apply Hsub; left).
    destruct (Hdom node n) as [col Hcol]; [by eexists | done |].
    rewrite Hcol. destruct col.
    + (* white: recurse *)
      assert (Hpost : dfs_post g n c (rec n c)).
      { apply Hrec; try done. intros u Hu. eapply rtc_r; [by apply Hgray | done]. }
      destruct (rec n c) as [[[] c1] | e]; simpl in *; [done | | done].
      destruct Hpost as (Hn1 & Hok1 & Hadv).
      assert (Hloop : loop_post g node c1 (dfs_neighbors rec node rest c1)).
      { apply IH.
        - destruct (Hadv node) as [-> | [? _]]; congruence.
        - by apply (advance_dom_closed c).
        - done.
        - pose proof (advance_whites c c1 Hadv). lia.
        - intros u Hu. apply Hgray. by apply (advance_gray c c1).
        - intros v Hv. apply Hsub. by right.
        - intros v Hv. destruct (Hrem v Hv) as [[-> | Hin]%elem_of_cons | Hb].
          + by right.
          + by left.
          + right. by apply (advance_black c c1). }
      destruct (dfs_neighbors rec node rest c1) as [[[] c'] | e]; simpl in *; try done.
      destruct Hloop as (Hnode' & Hok' & Hadv'). split; [done |]. split; [done |].
      intros u Hne. eapply advance_at_trans; [apply Hadv | by apply Hadv'].
    + (* gray: the edge closes a cycle *)
      exists node. eapply tc_rtc_r; [by apply tc_once | by apply Hgray].
    + (* black: skip *)
      apply IH; try done.
      * intros v Hv. apply Hsub. by right.
      * intros v Hv. destruct (Hrem v Hv) as [[-> | Hin]%elem_of_cons | Hb]; auto.
Qed.

(** A call [dfs(node)] on a white node, with more frames left than
    there are white nodes. *)
Lemma dfs_post_holds (depth : nat) (node : string) (c : gmap string Color) :
  c !! node = Some WHITE -> dom_closed g c -> black_ok g c ->
  size (whites c) < depth -> grays_reach g c node ->
  dfs_post g node c (dfs depth g node c).
Proof.
  revert node c. induction depth as [|depth IH];
    intros node c Hnode Hdom Hok Hsize Hgray; [lia |].
  simpl.
  assert (Hloop : loop_post g node (<[node := GRAY]> c)
            (dfs_neighbors (dfs depth g) node (graph_get g node) (<[node := GRAY]> c))).
  { apply (dfs_neighbors_post (dfs depth g) depth).
    - apply IH.
    - apply lookup_insert_eq.
    - intros u v Hu Hv.
      assert (Hu' : is_Some (c !! u)).
      { destruct (decide (u = node)) as [-> | Hne]; [by eexists |].
        by rewrite lookup_insert_ne in Hu. }
      destruct (decide (v = node)) as [-> | Hne].
      + rewrite lookup_insert_eq. by eexists.
      + rewrite lookup_insert_ne by done. by apply (Hdom u).
    - intros u Hu.
      assert (Hne : u <> node) by (intros ->; by rewrite lookup_insert_eq in Hu).
      rewrite lookup_insert_ne in Hu by done.
      destruct (Hok u Hu) as [Hnb Hcyc]. split; [| done].
      intros v Hv. specialize (Hnb v Hv).
      rewrite lookup_insert_ne; [done |]. intros ->. congruence.
    - pose proof (whites_enter c node Hnode). lia.
    - intros u Hu. destruct (decide (u = node)) as [-> | Hne]; [apply rtc_refl |].
      rewrite lookup_insert_ne in Hu by done. by apply Hgray.
    - done.
    - intros v Hv. by left. }
  destruct (dfs_neighbors _ _ _ _) as [[[] c'] | e]; simpl in *; try done.
  destruct Hloop as (Hnode' & Hok' & Hadv). split; [done |]. split; [done |].
  intros u. destruct (decide (u = node)) as [-> | Hne].
  - right. done.
  - specialize (Hadv u Hne). unfold advance_at in *.
    by rewrite lookup_insert_ne in Hadv.
Qed.

(** The loop over the roots. *)
Lemma dfs_roots_post (depth : nat) (roots : list string) (c : gmap string Color) :
  (forall r, r ∈ roots -> is_Some (c !! r)) ->
  no_gray c -> dom_closed g c -> black_ok g c -> size (whites c) < depth ->
  roots_post g roots c (dfs_roots depth g roots c).
Proof.
  revert c. induction roots as [|tid rest IH]; intros c Hroots Hng Hdom Hok Hsize; simpl.
  - split; [done |]. split; [apply advance_refl |]. intros r Hr. by apply elem_of_nil in Hr.
  - destruct (Hroots tid) as [col Hcol]; [left |]. rewrite Hcol.
    assert (Hrest : forall r, r ∈ rest -> is_Some (c !! r)).
    { intros r Hr. apply Hroots. by right. }
    destruct col.
    + assert (Hpost : dfs_post g tid c (dfs depth g tid c)).
      { apply dfs_post_holds; try done. intros u Hu. by apply Hng in Hu. }
      destruct (dfs depth g tid c) as [[[] c1] | e]; simpl in *; [done | | done].
      destruct Hpost as (Htid & Hok1 & Hadv).
      assert (Hloop : roots_post g rest c1 (dfs_roots depth g rest c1)).
      { apply IH; try done.
        - intros r Hr. apply (advance_is_Some c c1 r Hadv). by apply Hrest.
        - intros u Hu. apply (Hng u). by apply (advance_gray c c1).
        - by apply (advance_dom_closed c).
        - pose proof (advance_whites c c1 Hadv). lia. }
      destruct (dfs_roots depth g rest c1) as [c' | e]; simpl in *; [| done].
      destruct Hloop as (Hok' & Hadv' & Hblack). split; [done |]. split.
      * by apply (advance_trans c c1).
      * intros r [-> | Hr]%elem_of_cons; [by apply (advance_black c1 c') | by apply Hblack].
    + by apply Hng in Hcol.
    + specialize (IH c Hrest Hng Hdom Hok Hsize).
      destruct (dfs_roots depth g rest c) as [c' | e]; simpl in *; [| done].
      destruct IH as (Hok' & Hadv' & Hblack). split; [done |]. split; [done |].
      intros r [-> | Hr]%elem_of_cons; [by apply (advance_black c c') | by apply Hblack].
Qed.

End Traversal.

(** *** The adjacency dictionary of a definition *)

Lemma tc_subrel {A} (R1 R2 : relation A) x y :
  (forall a b, R1 a b -> R2 a b) -> tc R1 x y -> tc R2 x y.
Proof.
  intros Hsub Htc. induction Htc as [a b Hab | a b c Hab _ IH].
  - apply tc_once. by apply Hsub.
  - eapply tc_l; [by apply Hsub | done].
Qed.

Lemma build_graph_dump (ds : list TaskDefinition) (g0 : graph_dict) :
  NoDup (g_keys g0 ++ (td_task_id <$> ds)) ->
  exists g,
    build_graph (task_model_dump <$> ds) g0 = Ok g /\
    g_keys g = (g_keys g0 ++ (td_task_id <$> ds))%list /\
    (forall t, t ∈ ds -> g_map g !! td_task_id t = Some (td_dependencies t)) /\
    (forall k, k ∉ td_task_id <$> ds -> g_map g !! k = g_map g0 !! k).
Proof.
  revert g0. induction ds as [|t rest IH]; intros g0 Hnd; simpl in *.
  - exists g0. rewrite app_nil_r. repeat split; try done.
    intros t Ht. by apply elem_of_nil in Ht.
  - assert (Hfresh : td_task_id t ∉ g_keys g0).
    { apply NoDup_app in Hnd as (_ & Hdisj & _). intros Hin.
      apply (Hdisj _ Hin). left. }
    assert (Hrest : td_task_id t ∉ td_task_id <$> rest).
    { apply NoDup_app in Hnd as (_ & _ & Hnd). by apply NoDup_cons in Hnd as [? _]. }
    destruct (IH (graph_set (td_task_id t) (td_dependencies t) g0))
      as (g & Hbuild & Hkeys & Hin & Hout).
    { unfold graph_set. simpl. rewrite decide_False by done.
      by rewrite <- app_assoc. }
    exists g. split; [done |]. split; [| split].
    + rewrite Hkeys. unfold graph_set. simpl. rewrite decide_False by done.
      by rewrite <- app_assoc.
    + intros t' [-> | Ht']%elem_of_cons; [| by apply Hin].
      rewrite Hout by done. unfold graph_set. simpl. apply lookup_insert_eq.
    + intros k Hk. apply not_elem_of_cons in Hk as [Hne Hk].
      rewrite Hout by done. unfold graph_set. simpl. by rewrite lookup_insert_ne.
Qed.

Lemma initial_color_lookup (g : graph_dict) (k : string) :
  initial_color g !! k = if decide (k ∈ g_keys g) then Some WHITE else None.
Proof.
  unfold initial_color. induction (g_keys g) as [|k' ks IH]; cbn [foldr].
  - rewrite decide_False; [done | apply not_elem_of_nil].
  - destruct (decide (k = k')) as [-> | Hne].
    + rewrite lookup_insert_eq. rewrite decide_True; [done | left].
    + rewrite lookup_insert_ne by done. rewrite IH.
      destruct (decide (k ∈ ks)) as [Hin | Hnin].
      * rewrite decide_True; [done | by right].
      * rewrite decide_False; [done |]. by apply not_elem_of_cons.
Qed.

Section GraphOf.

Variable d : DAGDefinition.
Variable g : graph_dict.

Hypothesis Hkeys : g_keys g = td_task_id <$> dd_tasks d.
Hypothesis Hin : forall t, t ∈ dd_tasks d -> g_map g !! td_task_id t = Some (td_dependencies t).
Hypothesis Hout : forall k, k ∉ td_task_id <$> dd_tasks d -> g_map g !! k = None.

Lemma edge_depends_on u v : edge g u v <-> depends_on d u v.
Proof.
  unfold edge, graph_get, depends_on. split.
  - intros Hv. destruct (decide (u ∈ td_task_id <$> dd_tasks d)) as [Hu | Hu].
    + apply list_elem_of_fmap in Hu as (t & -> & Ht).
      rewrite (Hin t Ht) in Hv. by exists t.
    + rewrite (Hout u Hu) in Hv. by apply elem_of_nil in Hv.
  - intros (t & Ht & <- & Hv). by rewrite (Hin t Ht).
Qed.

Lemma has_cycle_cyclic : has_cycle g <-> cyclic d.
Proof.
  split; intros [u Hu]; exists u; revert Hu; apply tc_subrel;
    intros a b; by rewrite edge_depends_on.
Qed.

Lemma edge_source_key u v : edge g u v -> u ∈ g_keys g.
Proof.
  rewrite edge_depends_on, Hkeys. intros (t & Ht & <- & _).
  apply list_elem_of_fmap. by exists t.
Qed.

(** The colouring and the roots that [_check_dag_cycles] starts from
    meet what [dfs_roots_post] asks for. *)
Lemma initial_color_ready (depth : nat) :
  NoDup (td_task_id <$> dd_tasks d) ->
  dependencies_known d ->
  length (dd_tasks d) < depth ->
  (forall r, r ∈ g_keys g -> is_Some (initial_color g !! r)) /\
  no_gray (initial_color g) /\
  dom_closed g (initial_color g) /\
  black_ok g (initial_color g) /\
  size (whites (initial_color g)) < depth.
Proof.
  intros Hnd Hknown Hdepth. split; [| split; [| split; [| split]]].
  - intros r Hr. rewrite initial_color_lookup, decide_True by done. by eexists.
  - intros u. rewrite initial_color_lookup. by case_decide.
  - intros u v _ Huv. rewrite initial_color_lookup.
    rewrite decide_True; [by eexists |].
    apply edge_depends_on in Huv as (t & Ht & _ & Hv). rewrite Hkeys.
    unfold dependencies_known in Hknown. rewrite Forall_forall in Hknown.
    specialize (Hknown t Ht). rewrite Forall_forall in Hknown. by apply Hknown.
  - intros u. rewrite initial_color_lookup. by case_decide.
  - assert (Hsub : whites (initial_color g) ⊆ list_to_set (g_keys g)).
    { intros u. rewrite elem_of_whites, initial_color_lookup, elem_of_list_to_set.
      by case_decide. }
    apply subseteq_size in Hsub.
    rewrite size_list_to_set in Hsub by (by rewrite Hkeys).
    rewrite Hkeys, length_fmap in Hsub. lia.
Qed.

End GraphOf.

(** What [_check_dag_cycles] decides on a definition whose ids are
    distinct and whose dependencies are known, given enough frames. *)
Lemma check_dag_cycles_decides (depth : nat) (d : DAGDefinition) :
  NoDup (td_task_id <$> dd_tasks d) ->
  dependencies_known d ->
  length (dd_tasks d) < depth ->
  (cyclic d /\
   check_dag_cycles_color depth (task_model_dump <$> dd_tasks d)
     = Raise (ValidationError msg_cycle)) \/
  (~ cyclic d /\
   exists c,
     check_dag_cycles_color depth (task_model_dump <$> dd_tasks d) = Ok c /\
     forall t, t ∈ dd_tasks d -> c !! td_task_id t = Some BLACK).
Proof.
  intros Hnd Hknown Hdepth. unfold check_dag_cycles_color.
  destruct (build_graph_dump (dd_tasks d) graph_empty) as (g & -> & Hkeys & Hin & Hout);
    [done |].
  simpl in Hkeys, Hout. simpl.
  assert (Hout' : forall k, k ∉ td_task_id <$> dd_tasks d -> g_map g !! k = None).
  { intros k Hk. by rewrite Hout. }
  destruct (initial_color_ready d g Hkeys Hin Hout' depth Hnd Hknown Hdepth)
    as (Hroots & Hng & Hdom & Hok & Hsize).
  pose proof (dfs_roots_post g depth (g_keys g) (initial_color g)
                Hroots Hng Hdom Hok Hsize) as Hpost.
  destruct (dfs_roots depth g (g_keys g) (initial_color g)) as [c | e]; simpl in Hpost.
  - right. destruct Hpost as (Hok' & _ & Hblack). split.
    + intros Hcyc. apply (has_cycle_cyclic d g Hin Hout') in Hcyc as [u Hu].
      destruct (tc_first _ _ _ Hu) as (y & Huy & _).
      apply (edge_source_key d g Hkeys Hin Hout') in Huy.
      destruct (Hok' u (Hblack u Huy)) as [_ Hno]. done.
    + exists c. split; [done |]. intros t Ht. apply Hblack. rewrite Hkeys.
      apply list_elem_of_fmap. by exists t.
  - left. destruct Hpost as [-> Hcyc]. split; [| done].
    by apply (has_cycle_cyclic d g Hin Hout').
Qed.

(** On a definition that passes the structural checks, [_validate_dag]
    is the cycle check. *)
Lemma validate_dag_reaches_cycle_check (depth : nat) (d : DAGDefinition) :
  valid_DAGDefinition d ->
  dd_tasks d <> [] ->
  NoDup (td_task_id <$> dd_tasks d) ->
  dependencies_known d ->
  _validate_dag depth (model_dump d)
    = _check_dag_cycles depth (task_model_dump <$> dd_tasks d).
Proof.
  intros Hvalid Hne Hnd Hknown. unfold _validate_dag. simpl.
  destruct (task_model_dump <$> dd_tasks d) as [|d0 drest] eqn:Hdump.
  { by apply fmap_nil_inv in Hdump. }
  rewrite <- Hdump. clear Hdump.
  rewrite collect_task_ids_Ok; simpl.
  - rewrite check_dependencies_Ok; [done |].
    apply Forall_fmap. unfold dependencies_known in Hknown.
    eapply Forall_impl; [apply Hknown |]. intros t Ht. simpl.
    eapply Forall_impl; [apply Ht |]. intros dep Hdep. simpl.
    rewrite tid_of_model_dump. set_solver.
  - by apply truthy_model_dump.
  - by rewrite tid_of_model_dump.
  - set_solver.
Qed.

(** C7: the cyclic definition A -> B -> C -> A is rejected with "DAG
    contains a cycle", and the definition in which B and C each depend on
    A is accepted.  In general, for a definition that passes the
    structural checks and has fewer tasks than the interpreter has frames
    left: the three-colour depth-first traversal reports a cycle as soon
    as a neighbour in progress (gray) is met; it does so exactly when the
    dependency graph has a cycle; and when it reports none, the searches
    started from every node still white have finished (black) every node,
    connected to the others or not. *)
Theorem cycle_check_correct :
  _validate_dag 100 (model_dump dag_cyclic) = Raise (ValidationError msg_cycle) /\
  _validate_dag 100 (model_dump dag_fork) = Ok () /\
  (forall rec node neighbor rest color,
     color !! neighbor = Some GRAY ->
     dfs_neighbors rec node (neighbor :: rest) color = Ok (true, color)) /\
  (forall (depth : nat) (d : DAGDefinition),
     valid_DAGDefinition d ->
     dd_tasks d <> [] ->
     NoDup (td_task_id <$> dd_tasks d) ->
     dependencies_known d ->
     length (dd_tasks d) < depth ->
     (cyclic d <->
        _validate_dag depth (model_dump d) = Raise (ValidationError msg_cycle)) /\
     (~ cyclic d <-> _validate_dag depth (model_dump d) = Ok ()) /\
     (~ cyclic d ->
        exists c,
          check_dag_cycles_color depth (task_model_dump <$> dd_tasks d) = Ok c /\
          forall t, t ∈ dd_tasks d -> c !! td_task_id t = Some BLACK)).
Proof.
  split; [vm_compute; reflexivity |]. split; [vm_compute; reflexivity |]. split.
  - intros rec node neighbor rest color Hgray. simpl. by rewrite Hgray.
  - intros depth d Hvalid Hne Hnd Hknown Hdepth.
    rewrite (validate_dag_reaches_cycle_check depth d Hvalid Hne Hnd Hknown).
    unfold _check_dag_cycles.
    destruct (check_dag_cycles_decides depth d Hnd Hknown Hdepth)
      as [[Hcyc ->] | [Hno (c & -> & Hblack)]]; simpl.
    + split; [done |]. split; [| done]. split; [done | discriminate].
    + split; [| split].
      * split; [done | discriminate].
      * done.
      * intros _. by exists c.
Qed.

Lemma cycle_check_correct_witness :
  (cyclic dag_two_parts <->
     _validate_dag 100 (model_dump dag_two_parts) = Raise (ValidationError msg_cycle)) /\
  (~ cyclic dag_two_parts <-> _validate_dag 100 (model_dump dag_two_parts) = Ok ()) /\
  (~ cyclic dag_two_parts ->
     exists c,
       check_dag_cycles_color 100 (task_model_dump <$> dd_tasks dag_two_parts) = Ok c /\
       forall t, t ∈ dd_tasks dag_two_parts -> c !! td_task_id t = Some BLACK).
Proof.
  apply (proj2 (proj2 (proj2 cycle_check_correct)) 100 dag_two_parts).
  - unfold valid_DAGDefinition, valid_TaskDefinition. simpl.
    repeat constructor; simpl; lia.
  - discriminate.
  - apply (bool_decide_unpack _). vm_compute. exact I.
  - apply (bool_decide_unpack _). vm_compute. exact I.
  - simpl. lia.
Defined.

(** ** Further properties of the service *)

(** X1: a task that lists itself among its dependencies makes the definition
    cyclic: a definition that passes the structural checks and holds such
    a task is rejected with "DAG contains a cycle". *)
Theorem self_dependency_rejected (depth : nat) (d : DAGDefinition) (t : TaskDefinition) :
  valid_DAGDefinition d ->
  NoDup (td_task_id <$> dd_tasks d) ->
  dependencies_known d ->
  length (dd_tasks d) < depth ->
  t ∈ dd_tasks d ->
  td_task_id t ∈ td_dependencies t ->
  _validate_dag depth (model_dump d) = Raise (ValidationError msg_cycle).
Proof.
  intros Hvalid Hnd Hknown Hdepth Ht Hself.
  rewrite validate_dag_reaches_cycle_check; try done.
  - unfold _check_dag_cycles.
    destruct (check_dag_cycles_decides depth d Hnd Hknown Hdepth)
      as [[_ ->] | [Hno _]]; [done |].
    exfalso. apply Hno. exists (td_task_id t). apply tc_once. by exists t.
  - intros Hnil. rewrite Hnil in Ht. by apply elem_of_nil in Ht.
Qed.

Lemma self_dependency_rejected_witness :
  _validate_dag 100 (model_dump dag_self) = Raise (ValidationError msg_cycle).
Proof.
  apply (self_dependency_rejected 100 dag_self (mkTaskDefinition "B" "training" [] ["A"; "B"])).
  - unfold valid_DAGDefinition, valid_TaskDefinition. simpl.
    repeat constructor; simpl; lia.
  - apply (bool_decide_unpack _). vm_compute. exact I.
  - apply (bool_decide_unpack _). vm_compute. exact I.
  - simpl. lia.
  - apply (bool_decide_unpack _). vm_compute. exact I.
  - apply (bool_decide_unpack _). vm_compute. exact I.
Defined.

(** X2: a status update for a task id that the tenant does not have raises
    [NotFoundError] and leaves the session untouched. *)
Theorem update_task_status_not_found
    (tenant_id : UUID) (db : Db) (now : datetime) (id : UUID)
    (status : PipelineStatus) (error_message logs : option string) :
  (forall task, pipeline_tasks db !! id = Some task -> t_tenant_id task <> tenant_id) ->
  update_task_status tenant_id now id status error_message logs db
    = Raises (NotFoundError "PipelineTask" id) db.
Proof.
  intros Hnone. unfold update_task_status.
  destruct (pipeline_tasks db !! id) as [task|]; [| done].
  rewrite decide_False; [done |]. by apply Hnone.
Qed.

Lemma update_task_status_not_found_witness :
  update_task_status tenant0 9 3 SUCCESS None None db_running
    = Raises (NotFoundError "PipelineTask" 3) db_running.
Proof.
  apply (update_task_status_not_found tenant0 db_running 9 3 SUCCESS None None).
  intros task Hsome. vm_compute in Hsome. discriminate.
Defined.

(** ** The validator as a whole *)

Lemma validate_dag_nonempty (depth : nat) (dag : DagDict) :
  get_list (tasks dag) <> [] ->
  _validate_dag depth dag
    = (task_ids ← collect_task_ids (get_list (tasks dag)) ∅;
       check_dependencies (get_list (tasks dag)) task_ids ;;
       _check_dag_cycles depth (get_list (tasks dag))).
Proof. intros Hne. unfold _validate_dag. by destruct (get_list (tasks dag)). Qed.

(** The five ways [_validate_dag] can end on the dump of a well-formed
    request, when there are more frames than tasks. *)
Lemma validate_dag_cases (depth : nat) (d : DAGDefinition) :
  valid_DAGDefinition d ->
  length (dd_tasks d) < depth ->
  (dd_tasks d = [] /\
   _validate_dag depth (model_dump d) = Raise (ValidationError msg_empty)) \/
  (~ NoDup (td_task_id <$> dd_tasks d) /\
   exists tid, tid ∈ td_task_id <$> dd_tasks d /\
     _validate_dag depth (model_dump d) = Raise (ValidationError (msg_duplicate tid))) \/
  (dd_tasks d <> [] /\ NoDup (td_task_id <$> dd_tasks d) /\ ~ dependencies_known d /\
   exists t dep, t ∈ dd_tasks d /\ dep ∈ td_dependencies t /\
     _validate_dag depth (model_dump d)
       = Raise (ValidationError (msg_unknown (td_task_id t) dep))) \/
  (dd_tasks d <> [] /\ NoDup (td_task_id <$> dd_tasks d) /\ dependencies_known d /\
   cyclic d /\
   _validate_dag depth (model_dump d) = Raise (ValidationError msg_cycle)) \/
  (dd_tasks d <> [] /\ NoDup (td_task_id <$> dd_tasks d) /\ dependencies_known d /\
   ~ cyclic d /\
   _validate_dag depth (model_dump d) = Ok ()).
Proof.
  intros Hvalid Hdepth.
  destruct (decide (dd_tasks d = [])) as [Hnil | Hne].
  { left. split; [done |]. unfold _validate_dag. simpl. by rewrite Hnil. }
  right.
  assert (Hdump : task_model_dump <$> dd_tasks d <> []).
  { intros Hdump. by apply fmap_nil_inv in Hdump. }
  destruct (decide (NoDup (td_task_id <$> dd_tasks d))) as [Hnd | Hdup].
  2:{ left. split; [done |].
      destruct (collect_task_ids_duplicate (task_model_dump <$> dd_tasks d) ∅)
        as (tid & Hcollect & Hwhere).
      - by apply truthy_model_dump.
      - rewrite tid_of_model_dump. by intros [? _].
      - exists tid. rewrite tid_of_model_dump in Hwhere. split.
        + destruct Hwhere as [[Hin _] | (l1 & l2 & l3 & ->)]; [set_solver |].
          set_solver.
        + rewrite validate_dag_nonempty by done. simpl. by rewrite Hcollect. }
  right.
  assert (Hcollect : collect_task_ids (task_model_dump <$> dd_tasks d) ∅
                     = Ok (∅ ∪ list_to_set (td_task_id <$> dd_tasks d))).
  { rewrite collect_task_ids_Ok.
    - by rewrite tid_of_model_dump.
    - by apply truthy_model_dump.
    - by rewrite tid_of_model_dump.
    - set_solver. }
  destruct (decide (dependencies_known d)) as [Hknown | Hunknown].
  2:{ left. split; [done |]. split; [done |]. split; [done |].
      destruct (check_dependencies_unknown (task_model_dump <$> dd_tasks d)
                  (∅ ∪ list_to_set (td_task_id <$> dd_tasks d)))
        as (t' & tid' & dep' & Hin & Htid & Hdep' & Hnot' & Hcheck).
      - apply Forall_fmap, Forall_true. intros td. by eexists.
      - intros Hall. apply Hunknown. unfold dependencies_known.
        rewrite Forall_fmap in Hall. eapply Forall_impl; [apply Hall |].
        intros t Ht. simpl in Ht. eapply Forall_impl; [apply Ht |].
        intros dep Hdep. simpl in Hdep. set_solver.
      - apply list_elem_of_fmap in Hin as (td & -> & Htd). simpl in *.
        injection Htid as <-. exists td, dep'. split; [done |]. split; [done |].
        rewrite validate_dag_nonempty by done. simpl.
        rewrite Hcollect. simpl. by rewrite Hcheck. }
  right.
  rewrite (validate_dag_reaches_cycle_check depth d Hvalid Hne Hnd Hknown).
  unfold _check_dag_cycles.
  destruct (check_dag_cycles_decides depth d Hnd Hknown Hdepth)
    as [[Hcyc ->] | [Hno (c & -> & _)]]; [left | right]; done.
Qed.

(** X3: on the dump of a well-formed request, with more
    frames than tasks, [_validate_dag] accepts exactly the definitions
    that have a task, distinct task ids, only known dependencies and no
    dependency cycle. *)
Theorem validate_dag_accepts_iff (depth : nat) (d : DAGDefinition) :
  valid_DAGDefinition d ->
  length (dd_tasks d) < depth ->
  _validate_dag depth (model_dump d) = Ok () <->
  dd_tasks d <> [] /\ NoDup (td_task_id <$> dd_tasks d) /\
  dependencies_known d /\ ~ cyclic d.
Proof.
  intros Hvalid Hdepth.
  destruct (validate_dag_cases depth d Hvalid Hdepth)
    as [[Hnil ->] | [[Hdup (tid & _ & ->)] | [(Hne & Hnd & Hunk & t & dep & _ & _ & ->)
        | [(Hne & Hnd & Hknown & Hcyc & ->) | (Hne & Hnd & Hknown & Hno & ->)]]]].
  - split; [discriminate | intros [? _]; done].
  - split; [discriminate | intros (_ & ? & _); done].
  - split; [discriminate | intros (_ & _ & ? & _); done].
  - split; [discriminate | intros (_ & _ & _ & ?); done].
  - done.
Qed.

Lemma validate_dag_accepts_iff_witness :
  _validate_dag 100 (model_dump dag_fork) = Ok () <->
  dd_tasks dag_fork <> [] /\ NoDup (td_task_id <$> dd_tasks dag_fork) /\
  dependencies_known dag_fork /\ ~ cyclic dag_fork.
Proof.
  apply (validate_dag_accepts_iff 100 dag_fork).
  - unfold valid_DAGDefinition, valid_TaskDefinition. simpl.
    repeat constructor; simpl; lia.
  - simpl. lia.
Defined.

(** X4: on the dump of a well-formed request, with more
    frames than tasks, the only exception [_validate_dag] raises is
    [ValidationError], with one of its four messages; in particular it
    raises no [KeyError] and no [RecursionError]. *)
Theorem validate_dag_raises_only_validation_errors
    (depth : nat) (d : DAGDefinition) (e : Error) :
  valid_DAGDefinition d ->
  length (dd_tasks d) < depth ->
  _validate_dag depth (model_dump d) = Raise e ->
  e = ValidationError msg_empty \/
  (exists tid, tid ∈ td_task_id <$> dd_tasks d /\ e = ValidationError (msg_duplicate tid)) \/
  (exists t dep, t ∈ dd_tasks d /\ dep ∈ td_dependencies t /\
                 e = ValidationError (msg_unknown (td_task_id t) dep)) \/
  e = ValidationError msg_cycle.
Proof.
  intros Hvalid Hdepth Hraise.
  destruct (validate_dag_cases depth d Hvalid Hdepth)
    as [[_ Hres] | [[_ (tid & Htid & Hres)] | [(_ & _ & _ & t & dep & Ht & Hdep & Hres)
        | [(_ & _ & _ & _ & Hres) | (_ & _ & _ & _ & Hres)]]]];
    rewrite Hres in Hraise; try injection Hraise as <-.
  - by left.
  - right. left. by exists tid.
  - right. right. left. by exists t, dep.
  - by repeat right.
  - discriminate.
Qed.

Lemma validate_dag_raises_only_validation_errors_witness :
  ValidationError "Task 'B' depends on unknown task 'Z'" = ValidationError msg_empty \/
  (exists tid, tid ∈ td_task_id <$> dd_tasks dag_dangling /\
     ValidationError "Task 'B' depends on unknown task 'Z'"
       = ValidationError (msg_duplicate tid)) \/
  (exists t dep, t ∈ dd_tasks dag_dangling /\ dep ∈ td_dependencies t /\
     ValidationError "Task 'B' depends on unknown task 'Z'"
       = ValidationError (msg_unknown (td_task_id t) dep)) \/
  ValidationError "Task 'B' depends on unknown task 'Z'" = ValidationError msg_cycle.
Proof.
  apply (validate_dag_raises_only_validation_errors 100 dag_dangling).
  - unfold valid_DAGDefinition, valid_TaskDefinition. simpl.
    repeat constructor; simpl; lia.
  - simpl. lia.
  - vm_compute. reflexivity.
Defined.

(** The conditions that decide the verdict do not depend on the order in
    which the tasks are listed. *)
Lemma depends_on_Permutation (d d' : DAGDefinition) u v :
  dd_tasks d ≡ₚ dd_tasks d' -> depends_on d u v -> depends_on d' u v.
Proof.
  intros Hperm (t & Ht & Hu & Hv). exists t. split; [| done]. by rewrite <- Hperm.
Qed.

Lemma cyclic_Permutation (d d' : DAGDefinition) :
  dd_tasks d ≡ₚ dd_tasks d' -> cyclic d -> cyclic d'.
Proof.
  intros Hperm [u Hu]. exists u. revert Hu. apply tc_subrel.
  intros a b. by apply depends_on_Permutation.
Qed.

Lemma dependencies_known_Permutation (d d' : DAGDefinition) :
  dd_tasks d ≡ₚ dd_tasks d' -> dependencies_known d -> dependencies_known d'.
Proof.
  unfold dependencies_known. intros Hperm Hknown. rewrite <- Hperm.
  eapply Forall_impl; [apply Hknown |]. intros t Ht. simpl in Ht.
  eapply Forall_impl; [apply Ht |]. intros dep Hdep. simpl in Hdep.
  by rewrite <- Hperm.
Qed.

(** X5: for two well-formed requests that list the same tasks in different
    orders, [_validate_dag] accepts one iff it accepts the other, and
    reports a cycle for one iff it reports a cycle for the other. *)
Theorem validate_dag_order_independent (depth : nat) (d d' : DAGDefinition) :
  valid_DAGDefinition d ->
  dd_tasks d ≡ₚ dd_tasks d' ->
  length (dd_tasks d) < depth ->
  (_validate_dag depth (model_dump d) = Ok () <->
   _validate_dag depth (model_dump d') = Ok ()) /\
  (_validate_dag depth (model_dump d) = Raise (ValidationError msg_cycle) <->
   _validate_dag depth (model_dump d') = Raise (ValidationError msg_cycle)).
Proof.
  intros Hvalid Hperm Hdepth.
  assert (Hvalid' : valid_DAGDefinition d').
  { unfold valid_DAGDefinition. by rewrite <- Hperm. }
  assert (Hdepth' : length (dd_tasks d') < depth) by (by rewrite <- Hperm).
  assert (Hnil : dd_tasks d = [] <-> dd_tasks d' = []).
  { split; intros Hnil; rewrite Hnil in Hperm;
      [by apply Permutation_nil_l in Hperm | by apply Permutation_nil_r in Hperm]. }
  assert (Hnd : NoDup (td_task_id <$> dd_tasks d) <-> NoDup (td_task_id <$> dd_tasks d'))
    by (by rewrite Hperm).
  assert (Hkn : dependencies_known d <-> dependencies_known d').
  { split; by apply dependencies_known_Permutation. }
  assert (Hcy : cyclic d <-> cyclic d').
  { split; by apply cyclic_Permutation. }
  assert (Hne1 : forall tid, msg_duplicate tid <> msg_cycle) by (intros tid; discriminate).
  assert (Hne2 : forall t dep, msg_unknown t dep <> msg_cycle)
    by (intros t dep; discriminate).
  destruct (validate_dag_cases depth d Hvalid Hdepth)
    as [[H1 ->] | [[H1 (tid & _ & ->)] | [(H1 & H2 & H3 & t & dep & _ & _ & ->)
        | [(H1 & H2 & H3 & H4 & ->) | (H1 & H2 & H3 & H4 & ->)]]]];
  destruct (validate_dag_cases depth d' Hvalid' Hdepth')
    as [[H1' ->] | [[H1' (tid' & _ & ->)] | [(H1' & H2' & H3' & t' & dep' & _ & _ & ->)
        | [(H1' & H2' & H3' & H4' & ->) | (H1' & H2' & H3' & H4' & ->)]]]];
  try tauto;
  (split; split; intros Heq; try discriminate Heq; try done;
   injection Heq as Heq; exfalso; first [by eapply Hne1 | by eapply Hne2]).
Qed.

Lemma validate_dag_order_independent_witness :
  (_validate_dag 100 (model_dump dag_fork) = Ok () <->
   _validate_dag 100 (model_dump dag_fork_reversed) = Ok ()) /\
  (_validate_dag 100 (model_dump dag_fork) = Raise (ValidationError msg_cycle) <->
   _validate_dag 100 (model_dump dag_fork_reversed) = Raise (ValidationError msg_cycle)).
Proof.
  apply (validate_dag_order_independent 100 dag_fork dag_fork_reversed).
  - unfold valid_DAGDefinition, valid_TaskDefinition. simpl.
    repeat constructor; simpl; lia.
  - apply (bool_decide_unpack _). vm_compute. exact I.
  - simpl. lia.
Defined.

(** ** Entries without an id *)

Lemma collect_task_ids_missing before t after seen :
  Forall (fun t => truthy (task_id t) = true) before ->
  NoDup (tid_of <$> before) ->
  (forall x, x ∈ tid_of <$> before -> x ∉ seen) ->
  truthy (task_id t) = false ->
  collect_task_ids (before ++ t :: after) seen = Raise (ValidationError msg_no_task_id).
Proof.
  intros Hall. revert seen. induction Hall as [|t0 rest Ht0 _ IH];
    intros seen Hnd Hdisj Ht; simpl in *.
  - by rewrite Ht.
  - rewrite Ht0. apply NoDup_cons in Hnd as [Hx Hnd].
    rewrite decide_False by (apply Hdisj; left).
    apply IH; [done | | done].
    intros x Hin. specialize (Hdisj x). set_solver.
Qed.

(** X6: a task entry whose [task_id] key is missing or empty, met before any
    repeated id, makes [_validate_dag] raise "Each task must have a
    task_id", whatever follows it. *)
Theorem validate_dag_missing_task_id
    (depth : nat) (dag : DagDict) (before : list TaskDict) (t : TaskDict)
    (after : list TaskDict) :
  get_list (tasks dag) = (before ++ t :: after)%list ->
  Forall (fun t => truthy (task_id t) = true) before ->
  NoDup (tid_of <$> before) ->
  truthy (task_id t) = false ->
  _validate_dag depth dag = Raise (ValidationError "Each task must have a task_id").
Proof.
  intros Hts Hall Hnd Ht. rewrite validate_dag_nonempty.
  - rewrite Hts. rewrite (collect_task_ids_missing before t after ∅); try done; set_solver.
  - rewrite Hts. by destruct before.
Qed.

Lemma validate_dag_missing_task_id_witness :
  _validate_dag 100
    (mkDagDict (Some [task_model_dump (mkTaskDefinition "A" "training" [] []);
                      mkTaskDict None (Some "training") [] (Some ["A"]);
                      task_model_dump (mkTaskDefinition "A" "training" [] [])]) [])
    = Raise (ValidationError "Each task must have a task_id").
Proof.
  apply (validate_dag_missing_task_id 100 _
           [task_model_dump (mkTaskDefinition "A" "training" [] [])]
           (mkTaskDict None (Some "training") [] (Some ["A"]))
           [task_model_dump (mkTaskDefinition "A" "training" [] [])]).
  - reflexivity.
  - repeat constructor.
  - apply (bool_decide_unpack _). vm_compute. exact I.
  - reflexivity.
Defined.

(** ** The recursion limit *)

(** A chain of white nodes, each the first neighbour of the one before,
    takes one frame per node. *)
Lemma dfs_chain_overflow (g : graph_dict) (depth : nat) :
  forall (path : list string) (c : gmap string Color),
    NoDup path ->
    (forall u, u ∈ path -> c !! u = Some WHITE) ->
    first_neighbor_chain g path ->
    depth < length path ->
    dfs depth g (default "" (head path)) c = Raise RecursionError.
Proof.
  induction depth as [|depth IH]; intros path c Hnd Hwhite Hchain Hlen; [done |].
  destruct path as [|u [|v rest]]; simpl in Hlen; [lia | lia |].
  destruct Hchain as [Hfirst Hchain]. simpl.
  destruct (graph_get g u) as [|v' nbrs] eqn:Hnbrs; [done |].
  simpl in Hfirst. injection Hfirst as ->. simpl.
  apply NoDup_cons in Hnd as [Hu Hnd].
  assert (Huv : u <> v) by (intros ->; apply Hu; left).
  rewrite lookup_insert_ne by done.
  rewrite (Hwhite v) by (right; left).
  rewrite (IH (v :: rest) (<[u := GRAY]> c)); [done | done | | done | simpl; lia].
  intros w Hw. rewrite lookup_insert_ne; [apply Hwhite; by right |].
  intros ->. done.
Qed.

Lemma first_dependency_chain_graph (d : DAGDefinition) (g : graph_dict) (path : list string) :
  (forall t, t ∈ dd_tasks d -> g_map g !! td_task_id t = Some (td_dependencies t)) ->
  first_dependency_chain d path -> first_neighbor_chain g path.
Proof.
  intros Hin. induction path as [|u [|v rest] IH]; try done.
  intros [(t & Ht & <- & Hhead) Hrest]. split; [| by apply IH].
  unfold graph_get. by rewrite (Hin t Ht).
Qed.

Lemma first_dependency_chain_ids (d : DAGDefinition) (path : list string) :
  dependencies_known d ->
  first_dependency_chain d path ->
  (forall u, head path = Some u -> u ∈ td_task_id <$> dd_tasks d) ->
  forall u, u ∈ path -> u ∈ td_task_id <$> dd_tasks d.
Proof.
  intros Hknown. induction path as [|u [|v rest] IH]; intros Hchain Hhead w Hw.
  - by apply elem_of_nil in Hw.
  - apply list_elem_of_singleton in Hw as ->. by apply Hhead.
  - destruct Hchain as [(t & Ht & <- & Hfirst) Hrest].
    apply elem_of_cons in Hw as [-> | Hw]; [by apply Hhead |].
    apply IH; [done | | done].
    intros v' [= <-]. unfold dependencies_known in Hknown.
    rewrite Forall_forall in Hknown. specialize (Hknown t Ht).
    rewrite Forall_forall in Hknown. apply Hknown.
    destruct (td_dependencies t); [done |]. simpl in Hfirst. injection Hfirst as ->. left.
Qed.

(** X7: when the first task of a structurally valid definition heads a chain
    of distinct tasks, each the first dependency of the one before, the
    cycle check needs a frame for every task of the chain: with fewer
    frames left than the chain is long, [_validate_dag] raises
    [RecursionError] and gives no verdict. *)
Theorem validate_dag_recursion_limit
    (depth : nat) (d : DAGDefinition) (path : list string) :
  valid_DAGDefinition d ->
  NoDup (td_task_id <$> dd_tasks d) ->
  dependencies_known d ->
  NoDup path ->
  head path = head (td_task_id <$> dd_tasks d) ->
  first_dependency_chain d path ->
  depth < length path ->
  _validate_dag depth (model_dump d) = Raise RecursionError.
Proof.
  intros Hvalid Hnd Hknown Hpath Hhead Hchain Hdepth.
  destruct path as [|u path']; [simpl in Hdepth; lia |].
  assert (Hne : dd_tasks d <> []).
  { intros Hnil. by rewrite Hnil in Hhead. }
  rewrite validate_dag_reaches_cycle_check by done.
  unfold _check_dag_cycles, check_dag_cycles_color.
  destruct (build_graph_dump (dd_tasks d) graph_empty) as (g & -> & Hkeys & Hin & Hout);
    [done |].
  simpl in Hkeys. simpl.
  assert (Hids : forall w, w ∈ u :: path' -> w ∈ g_keys g).
  { intros w Hw. rewrite Hkeys.
    apply (first_dependency_chain_ids d (u :: path')); try done.
    intros w' [= <-]. simpl in Hhead. symmetry in Hhead.
    by apply head_Some_elem_of in Hhead. }
  assert (Hroot : head (g_keys g) = Some u) by (by rewrite Hkeys).
  destruct (g_keys g) as [|r roots] eqn:Hk; [done |].
  simpl in Hroot. injection Hroot as ->. simpl.
  assert (Hwhite : forall w, w ∈ u :: path' -> initial_color g !! w = Some WHITE).
  { intros w Hw. rewrite initial_color_lookup, Hk. rewrite decide_True; [done |].
    by apply Hids. }
  rewrite (Hwhite u) by left.
  rewrite (dfs_chain_overflow g depth (u :: path')); try done.
  by apply (first_dependency_chain_graph d).
Qed.

Lemma validate_dag_recursion_limit_witness :
  _validate_dag 2 (model_dump dag_deep) = Raise RecursionError.
Proof.
  apply (validate_dag_recursion_limit 2 dag_deep ["A"; "B"; "C"]).
  - unfold valid_DAGDefinition, valid_TaskDefinition. simpl.
    repeat constructor; simpl; lia.
  - apply (bool_decide_unpack _). vm_compute. exact I.
  - apply (bool_decide_unpack _). vm_compute. exact I.
  - apply (bool_decide_unpack _). vm_compute. exact I.
  - reflexivity.
  - simpl. split; [| split; [| exact I]].
    + exists (mkTaskDefinition "A" "training" [] ["B"]). split; [left | done].
    + exists (mkTaskDefinition "B" "training" [] ["C"]). split; [right; left | done].
  - simpl. lia.
Defined.

(** ** The verdict does not depend on the recursion limit *)

Lemma dfs_neighbors_mono
    (rec1 rec2 : string -> gmap string Color -> result (bool * gmap string Color))
    node neighbors color r :
  (forall n c r, rec1 n c = r -> r <> Raise RecursionError -> rec2 n c = r) ->
  dfs_neighbors rec1 node neighbors color = r ->
  r <> Raise RecursionError ->
  dfs_neighbors rec2 node neighbors color = r.
Proof.
  intros Hrec. revert color.
  induction neighbors as [|neighbor rest IH]; intros color Hrun Hr; simpl in *; [done |].
  destruct (color !! neighbor) as [[]|]; try done; [| by apply IH].
  destruct (rec1 neighbor color) as [[found color'] | e] eqn:Hcall; simpl in Hrun.
  - rewrite (Hrec _ _ _ Hcall) by done. simpl.
    destruct found; [done | by apply IH].
  - rewrite (Hrec _ _ _ Hcall); [done |]. intros [= ->]. by subst r.
Qed.

Lemma dfs_mono depth depth' g node color r :
  depth <= depth' ->
  dfs depth g node color = r ->
  r <> Raise RecursionError ->
  dfs depth' g node color = r.
Proof.
  revert depth' node color r.
  induction depth as [|depth IH]; intros depth' node color r Hle Hrun Hr; simpl in Hrun.
  { by subst r. }
  destruct depth' as [|depth']; [lia |]. simpl.
  eapply dfs_neighbors_mono; [| done | done].
  intros n c r0. apply IH. lia.
Qed.

Lemma dfs_roots_mono depth depth' g roots color r :
  depth <= depth' ->
  dfs_roots depth g roots color = r ->
  r <> Raise RecursionError ->
  dfs_roots depth' g roots color = r.
Proof.
  intros Hle. revert color.
  induction roots as [|tid rest IH]; intros color Hrun Hr; simpl in *; [done |].
  destruct (color !! tid) as [[]|]; try done; try (by apply IH).
  destruct (dfs depth g tid color) as [[found color'] | e] eqn:Hcall; simpl in Hrun.
  - rewrite (dfs_mono _ _ _ _ _ _ Hle Hcall) by done. simpl.
    destruct found; [done | by apply IH].
  - rewrite (dfs_mono _ _ _ _ _ _ Hle Hcall); [done |]. intros [= ->]. by subst r.
Qed.

Lemma check_dag_cycles_mono depth depth' ts r :
  depth <= depth' ->
  _check_dag_cycles depth ts = r ->
  r <> Raise RecursionError ->
  _check_dag_cycles depth' ts = r.
Proof.
  intros Hle. unfold _check_dag_cycles, check_dag_cycles_color.
  destruct (build_graph ts graph_empty) as [g | e]; simpl; [| done].
  destruct (dfs_roots depth g (g_keys g) (initial_color g)) as [c | e] eqn:Hrun;
    simpl; intros <- Hr.
  - by rewrite (dfs_roots_mono _ _ _ _ _ _ Hle Hrun).
  - rewrite (dfs_roots_mono _ _ _ _ _ _ Hle Hrun); [done |]. by intros [= ->].
Qed.

(** ** What an accepted definition satisfies *)

Lemma collect_task_ids_inv ts seen ids :
  collect_task_ids ts seen = Ok ids ->
  Forall (fun t => truthy (task_id t) = true) ts /\
  NoDup (tid_of <$> ts) /\
  ids = seen ∪ list_to_set (tid_of <$> ts).
Proof.
  revert seen. induction ts as [|t rest IH]; intros seen Hrun; simpl in *.
  - injection Hrun as <-. split; [constructor |]. split; [constructor | set_solver].
  - destruct (truthy (task_id t)) eqn:Ht; [| done].
    case_decide as Hin; [done |].
    destruct (IH _ Hrun) as (Hall & Hnd & ->).
    split; [by constructor |]. split; [| set_solver].
    apply NoDup_cons. split; [| done]. intros Hdup.
    assert (Hfail : ~ (NoDup (tid_of <$> rest) /\
              forall x, x ∈ tid_of <$> rest -> x ∉ seen ∪ {[default "" (task_id t)]})).
    { intros [_ Hdisj]. apply (Hdisj _ Hdup). set_solver. }
    destruct (collect_task_ids_duplicate rest _ Hall Hfail) as (tid & Hraise & _).
    congruence.
Qed.

Lemma check_task_dependencies_inv task deps (task_ids : gset string) :
  check_task_dependencies task deps task_ids = Ok () ->
  Forall (fun dep => dep ∈ task_ids) deps.
Proof.
  induction deps as [|dep rest IH]; simpl; [constructor |].
  case_decide as Hin; [intros Hrun; constructor; by auto |].
  by destruct (task_id task).
Qed.

Lemma check_dependencies_inv ts (task_ids : gset string) :
  check_dependencies ts task_ids = Ok () ->
  Forall (fun t => Forall (fun dep => dep ∈ task_ids) (get_list (dependencies t))) ts.
Proof.
  induction ts as [|t rest IH]; simpl; [constructor |].
  destruct (check_task_dependencies t _ task_ids) as [[]|] eqn:Hdeps; simpl; [| done].
  intros Hrun. constructor; [by eapply check_task_dependencies_inv | by apply IH].
Qed.

Lemma validate_dag_well_formed depth d :
  _validate_dag depth (model_dump d) = Ok () -> well_formed d.
Proof.
  intros Hrun.
  assert (Hne : dd_tasks d <> []).
  { intros Hnil. unfold _validate_dag in Hrun. simpl in Hrun. by rewrite Hnil in Hrun. }
  pose proof Hrun as Hrun'.
  rewrite validate_dag_nonempty in Hrun' by (simpl; by intros ?%fmap_nil_inv).
  simpl in Hrun'.
  destruct (collect_task_ids (task_model_dump <$> dd_tasks d) ∅) as [ids|] eqn:Hcollect;
    simpl in Hrun'; [| done].
  destruct (check_dependencies (task_model_dump <$> dd_tasks d) ids) as [[]|] eqn:Hdeps;
    simpl in Hrun'; [| done].
  apply collect_task_ids_inv in Hcollect as (Hall & Hnd & ->).
  apply check_dependencies_inv in Hdeps.
  rewrite tid_of_model_dump in Hnd.
  assert (Hknown : dependencies_known d).
  { unfold dependencies_known. apply Forall_forall. intros t Ht.
    rewrite Forall_forall in Hdeps.
    specialize (Hdeps (task_model_dump t) (list_elem_of_fmap_2 _ _ _ Ht)).
    simpl in Hdeps. eapply Forall_impl; [apply Hdeps |]. intros dep Hdep.
    simpl in Hdep. rewrite tid_of_model_dump in Hdep. set_solver. }
  split; [done |]. split; [| split; [done | split; [done |]]].
  - apply Forall_forall. intros t Ht Hempty.
    rewrite Forall_forall in Hall.
    specialize (Hall (task_model_dump t) (list_elem_of_fmap_2 _ _ _ Ht)).
    simpl in Hall. by rewrite Hempty in Hall.
  - intros Hcyc.
    pose proof (check_dag_cycles_mono depth (depth `max` S (length (dd_tasks d)))
                  (task_model_dump <$> dd_tasks d) (Ok ()) ltac:(lia) Hrun' ltac:(done))
      as Hbig.
    unfold _check_dag_cycles in Hbig.
    destruct (check_dag_cycles_decides (depth `max` S (length (dd_tasks d))) d
                Hnd Hknown ltac:(lia)) as [[_ Hraise] | [Hno _]]; [| done].
    by rewrite Hraise in Hbig.
Qed.

(** ** What each write operation does to the rows *)

Section Steps.

Variable tenant_id : UUID.

Lemma get_pipeline_Ok db pipeline_id p :
  get_pipeline tenant_id db pipeline_id = Ok p <->
  pipelines db !! pipeline_id = Some p /\ p_tenant_id p = tenant_id /\
  p_deleted_at p = None.
Proof.
  unfold get_pipeline.
  destruct (pipelines db !! pipeline_id) as [q|]; [case_decide |];
    (split; [intros [= <-] | intros ([= <-] & Hten & Hdel)]); tauto.
Qed.

Lemma scalar_one_or_none_NoRow {A} (rows : gmap UUID A) :
  scalar_one_or_none rows = NoRow <-> rows = ∅.
Proof.
  unfold scalar_one_or_none. split.
  - destruct (map_to_list rows) as [|[k a] [|? ?]] eqn:E; try done.
    intros _. by apply map_to_list_empty_iff.
  - intros ->. by rewrite map_to_list_empty.
Qed.

Lemma scalar_one_or_none_OneRow {A} (rows : gmap UUID A) (a : A) :
  scalar_one_or_none rows = OneRow a <-> exists k, rows = {[ k := a ]}.
Proof.
  unfold scalar_one_or_none. split.
  - destruct (map_to_list rows) as [|[k a'] [|? ?]] eqn:E; try done.
    intros [= ->]. exists k. apply map_to_list_inj.
    rewrite E. by rewrite map_to_list_singleton.
  - intros [k ->]. by rewrite map_to_list_singleton.
Qed.

Lemma create_pipeline_XReturns depth data owner_id db p db' :
  create_pipeline tenant_id depth data owner_id db = XReturns p db' ->
  pipelines db !! p_id p = None /\
  db' = with_pipelines db (<[p_id p := p]> (pipelines db)) /\
  p = mkPipeline (p_id p) tenant_id (pc_name data) (pc_description data)
                 (model_dump (pc_dag_definition data)) (pc_schedule data)
                 (pc_enabled data) owner_id None /\
  _validate_dag depth (model_dump (pc_dag_definition data)) = Ok () /\
  ~ violates_uq_tenant_pipeline_name p db.
Proof.
  unfold create_pipeline.
  destruct (scalar_one_or_none _); try done.
  destruct (_validate_dag depth _) as [[]|]; [| done].
  case_decide as Huq; [done |]. case_decide as Hten; [done |].
  case_decide as Howner; [| done]. intros [= <- <-]. simpl.
  split; [apply not_elem_of_dom, is_fresh | done].
Qed.

(** A pipeline is inserted only when its foreign keys resolve. *)
Lemma create_pipeline_XReturns_fkeys depth data owner_id db p db' :
  create_pipeline tenant_id depth data owner_id db = XReturns p db' ->
  tenant_id ∈ tenants db /\ references_user owner_id db.
Proof.
  unfold create_pipeline.
  destruct (scalar_one_or_none _); try done.
  destruct (_validate_dag depth _) as [[]|]; [| done].
  case_decide as Huq; [done |]. case_decide as Hten; [done |].
  case_decide as Howner; [| done]. intros _. split; [| done].
  by destruct (decide (tenant_id ∈ tenants db)).
Qed.

Lemma create_pipeline_XRaises depth data owner_id db e db' :
  create_pipeline tenant_id depth data owner_id db = XRaises e db' -> db' = db.
Proof.
  unfold create_pipeline.
  destruct (scalar_one_or_none _); try (by intros [= _ <-]).
  destruct (_validate_dag depth _) as [[]|]; [| by intros [= _ <-]].
  repeat case_decide; try done; by intros [= _ <-].
Qed.

Variable dump_nested : DAGDefinition -> dag_value.

Lemma updated_dag_Some depth data dumped :
  updated_dag dump_nested depth data = Ok (Some dumped) ->
  exists d d', pu_dag_definition data = Some d /\ dump_nested d = DagModel d' /\
               dumped = model_dump d' /\ _validate_dag depth (model_dump d') = Ok ().
Proof.
  unfold updated_dag. destruct (pu_dag_definition data) as [d|]; [| done].
  destruct (dump_nested d) as [d' | plain] eqn:Hdump; simpl; [| done].
  destruct (_validate_dag depth (model_dump d')) as [[]|] eqn:Hval; simpl; [| done].
  intros [= <-]. by exists d, d'.
Qed.

Lemma update_pipeline_Returns depth pipeline_id data db p' db' :
  update_pipeline tenant_id dump_nested depth pipeline_id data db = Returns p' db' ->
  exists p new_dag,
    pipelines db !! pipeline_id = Some p /\ p_tenant_id p = tenant_id /\
    p_deleted_at p = None /\
    updated_dag dump_nested depth data = Ok new_dag /\
    db' = with_pipelines db (<[pipeline_id := p']> (pipelines db)) /\
    p' = mkPipeline (p_id p) (p_tenant_id p) (p_name p)
           (from_option Some (p_description p) (pu_description data))
           (default (p_dag_definition p) new_dag)
           (from_option Some (p_schedule p) (pu_schedule data))
           (default (p_enabled p) (pu_enabled data))
           (p_owner_id p) (p_deleted_at p).
Proof.
  unfold update_pipeline.
  destruct (get_pipeline tenant_id db pipeline_id) as [p|] eqn:Hget; [| done].
  apply get_pipeline_Ok in Hget as (Hp & Hten & Hdel).
  destruct (updated_dag dump_nested depth data) as [new_dag|]; [| done].
  case_decide as Hfits; [| done].
  intros [= <- <-]. exists p, new_dag. repeat split; try done.
  destruct p, (pu_description data), new_dag, (pu_schedule data), (pu_enabled data); done.
Qed.

(** An update is flushed only when the new schedule fits its column. *)
Lemma update_pipeline_Returns_fits depth pipeline_id data db p' db' :
  update_pipeline tenant_id dump_nested depth pipeline_id data db = Returns p' db' ->
  fits 100 (pu_schedule data).
Proof.
  unfold update_pipeline.
  destruct (get_pipeline tenant_id db pipeline_id); [| done].
  destruct (updated_dag dump_nested depth data); [| done].
  by case_decide.
Qed.

Lemma update_pipeline_Raises depth pipeline_id data db e db' :
  update_pipeline tenant_id dump_nested depth pipeline_id data db = Raises e db' -> db' = db.
Proof.
  unfold update_pipeline.
  destruct (get_pipeline tenant_id db pipeline_id); [| by intros [= _ <-]].
  destruct (updated_dag dump_nested depth data); [| by intros [= _ <-]].
  case_decide; [done | by intros [= _ <-]].
Qed.

Lemma delete_pipeline_Returns now pipeline_id db u db' :
  delete_pipeline tenant_id now pipeline_id db = Returns u db' ->
  exists p,
    pipelines db !! pipeline_id = Some p /\ p_tenant_id p = tenant_id /\
    p_deleted_at p = None /\
    db' = with_pipelines db (<[pipeline_id := soft_delete now p]> (pipelines db)).
Proof.
  unfold delete_pipeline.
  destruct (get_pipeline tenant_id db pipeline_id) as [p|] eqn:Hget; [| done].
  apply get_pipeline_Ok in Hget as (Hp & Hten & Hdel).
  intros [= <-]. by exists p.
Qed.

Lemma update_run_status_Returns now run_id status error_message db run' db' :
  update_run_status tenant_id now run_id status error_message db = Returns run' db' ->
  exists run,
    pipeline_runs db !! run_id = Some run /\ r_tenant_id run = tenant_id /\
    db' = with_runs db (<[run_id := run']> (pipeline_runs db)) /\
    r_id run' = r_id run /\ r_tenant_id run' = r_tenant_id run /\
    r_pipeline_id run' = r_pipeline_id run /\
    r_status run' = status /\
    r_end_time run' = (if is_finished status then Some now else r_end_time run).
Proof.
  unfold update_run_status.
  destruct (get_pipeline_run tenant_id db run_id) as [run|] eqn:Hget; [| done].
  apply get_pipeline_run_Ok in Hget as [Hrun Hten].
  intros [= <- <-]. exists run. repeat split; try done;
    destruct (is_finished status), (truthy error_message); simpl;
    repeat case_decide; done.
Qed.

Lemma cancel_pipeline_run_Returns now run_id db run' db' :
  cancel_pipeline_run tenant_id now run_id db = Returns run' db' ->
  update_run_status tenant_id now run_id CANCELLED None db = Returns run' db'.
Proof.
  unfold cancel_pipeline_run.
  destruct (get_pipeline_run tenant_id db run_id); [| done]. by case_decide.
Qed.

Lemma update_task_status_Returns now id status error_message logs db task' db' :
  update_task_status tenant_id now id status error_message logs db = Returns task' db' ->
  exists task,
    pipeline_tasks db !! id = Some task /\ t_tenant_id task = tenant_id /\
    db' = with_tasks db (<[id := task']> (pipeline_tasks db)) /\
    t_id task' = t_id task /\ t_tenant_id task' = t_tenant_id task /\
    t_pipeline_run_id task' = t_pipeline_run_id task /\
    t_task_id task' = t_task_id task /\
    t_status task' = status /\
    t_end_time task' = (if is_finished status then Some now else t_end_time task).
Proof.
  unfold update_task_status.
  destruct (pipeline_tasks db !! id) as [task|] eqn:Hget; [| done].
  case_decide as Hten; [| done].
  intros [= <- <-]. exists task. repeat split; try done;
    destruct (is_finished status), (truthy error_message), (truthy logs); simpl;
    repeat case_decide; done.
Qed.

Lemma trigger_pipeline_Returns pipeline_id data user_id db run db' :
  trigger_pipeline tenant_id pipeline_id data user_id db = Returns run db' ->
  exists p (ids : list UUID),
    pipelines db !! pipeline_id = Some p /\ p_tenant_id p = tenant_id /\
    p_deleted_at p = None /\ p_enabled p = true /\
    run = mkPipelineRun (r_id run) tenant_id pipeline_id PENDING (tr_trigger_type data)
            None None (tr_parameters data) None user_id /\
    pipeline_runs db !! r_id run = None /\
    pipelines db' = pipelines db /\
    pipeline_runs db' = <[r_id run := run]> (pipeline_runs db) /\
    length ids = length (get_list (tasks (p_dag_definition p))) /\
    NoDup ids /\
    (forall i, i ∈ ids -> pipeline_tasks db !! i = None) /\
    (forall k, k ∉ ids -> pipeline_tasks db' !! k = pipeline_tasks db !! k) /\
    (forall n i task_def,
       ids !! n = Some i ->
       get_list (tasks (p_dag_definition p)) !! n = Some task_def ->
       exists tid, task_id task_def = Some tid /\
                   pipeline_tasks db' !! i = Some (new_task tenant_id (r_id run) i tid)).
Proof.
  unfold trigger_pipeline.
  destruct (get_pipeline tenant_id db pipeline_id) as [p|] eqn:Hget; [| done].
  apply get_pipeline_Ok in Hget as (Hp & Hten & Hdel).
  destruct (p_enabled p) eqn:Hen; simpl; [| done].
  case_decide as Huser; [| done].
  destruct (add_tasks _ _ _ _) as [[] db1 | e db1] eqn:Hadd; [| done].
  intros [= <- <-].
  destruct (add_tasks_Returns tenant_id _ _ _ _ Hadd)
    as (ids & Hlen & Hnd & Hnew & Hps & Hrs & Hother & Hrows).
  exists p, ids. simpl in *. repeat split; try done.
  apply not_elem_of_dom, is_fresh.
Qed.

(** A run is inserted only when [triggered_by] resolves. *)
Lemma trigger_pipeline_Returns_user pipeline_id data user_id db run db' :
  trigger_pipeline tenant_id pipeline_id data user_id db = Returns run db' ->
  references_user user_id db.
Proof.
  unfold trigger_pipeline.
  destruct (get_pipeline tenant_id db pipeline_id); [| done].
  destruct (p_enabled _); simpl; [| done].
  by case_decide.
Qed.

Lemma trigger_pipeline_Raises pipeline_id data user_id db e db' :
  trigger_pipeline tenant_id pipeline_id data user_id db = Raises e db' ->
  (e = NotFoundError "Pipeline" pipeline_id /\ db' = db) \/
  (e = ValidationError "Pipeline is disabled" /\ db' = db) \/
  (e = IntegrityError "pipeline_runs_triggered_by_fkey" /\ db' = db) \/
  e = KeyError "task_id".
Proof.
  unfold trigger_pipeline, get_pipeline.
  destruct (pipelines db !! pipeline_id) as [p|]; [| intros [= <- <-]; by left].
  case_decide; [| intros [= <- <-]; by left].
  destruct (p_enabled p); simpl; [| intros [= <- <-]; right; by left].
  case_decide; [| intros [= <- <-]; right; right; by left].
  destruct (add_tasks _ _ _ _) as [[] db1 | e1 db1] eqn:Hadd; [done |].
  intros [= <- <-]. right. right. right. by apply add_tasks_Raises in Hadd as [-> _].
Qed.

End Steps.

(** ** The invariants are kept by every request *)

Lemma consistent_empty us ts : consistent (empty_db us ts).
Proof.
  unfold consistent, keys_are_ids, references_resolve, dags_are_well_formed,
    finished_have_end_time, names_are_unique; simpl.
  repeat split; intros *; by rewrite ?lookup_empty.
Qed.

(** Overwriting a pipeline row by one with the same id, tenant and name. *)
Lemma consistent_replace_pipeline db k p p' :
  consistent db ->
  pipelines db !! k = Some p ->
  p_id p' = p_id p -> p_tenant_id p' = p_tenant_id p -> p_name p' = p_name p ->
  (exists d, p_dag_definition p' = model_dump d /\ well_formed d) ->
  consistent (with_pipelines db (<[k := p']> (pipelines db))).
Proof.
  intros ([Hkp [Hkr Hkt]] & [Hrr Hrt] & Hdag & [Hfr Hft] & Huq) Hp Hid Hten Hname Hd.
  unfold consistent, keys_are_ids, references_resolve, dags_are_well_formed,
    finished_have_end_time, names_are_unique; simpl.
  split; [split; [| done] |]. 
  { intros k0 q [[<- <-] | [Hne Hq]]%lookup_insert_Some; [| by eauto].
    rewrite Hid. by eauto. }
  split; [split; [| done] |].
  { intros k0 r Hr. destruct (Hrr _ _ Hr) as (q & Hq & Hqt).
    destruct (decide (r_pipeline_id r = k)) as [Heq | Hne].
    - exists p'. rewrite Heq in Hq |- *. rewrite lookup_insert_eq. split; [done |].
      rewrite Hp in Hq. injection Hq as <-. by rewrite Hten.
    - exists q. by rewrite lookup_insert_ne. }
  split.
  { intros k0 q [[<- <-] | [Hne Hq]]%lookup_insert_Some; by eauto. }
  split; [done |].
  intros k1 k2 p1 p2 [[<- <-] | [Hne1 Hp1]]%lookup_insert_Some
    [[<- <-] | [Hne2 Hp2]]%lookup_insert_Some Ht Hn; try done.
  - apply (Huq _ _ _ _ Hp Hp2); congruence.
  - apply (Huq _ _ _ _ Hp1 Hp); congruence.
  - by apply (Huq _ _ _ _ Hp1 Hp2).
Qed.

(** Overwriting a run row by one with the same id, tenant and pipeline. *)
Lemma consistent_replace_run db k r r' :
  consistent db ->
  pipeline_runs db !! k = Some r ->
  r_id r' = r_id r -> r_tenant_id r' = r_tenant_id r ->
  r_pipeline_id r' = r_pipeline_id r ->
  (is_finished (r_status r') = true -> is_Some (r_end_time r')) ->
  consistent (with_runs db (<[k := r']> (pipeline_runs db))).
Proof.
  intros ([Hkp [Hkr Hkt]] & [Hrr Hrt] & Hdag & [Hfr Hft] & Huq) Hr Hid Hten Hpid Hend.
  unfold consistent, keys_are_ids, references_resolve, dags_are_well_formed,
    finished_have_end_time, names_are_unique; simpl.
  split; [split; [done | split; [| done]] |].
  { intros k0 q [[<- <-] | [Hne Hq]]%lookup_insert_Some; [| by eauto].
    rewrite Hid. by eauto. }
  split; [split |].
  { intros k0 q [[<- <-] | [Hne Hq]]%lookup_insert_Some; [| by eauto].
    rewrite Hpid, Hten. by eauto. }
  { intros k0 t Ht. destruct (Hrt _ _ Ht) as (q & Hq & Hqt).
    destruct (decide (t_pipeline_run_id t = k)) as [Heq | Hne].
    - exists r'. rewrite Heq in Hq |- *. rewrite lookup_insert_eq. split; [done |].
      rewrite Hr in Hq. injection Hq as <-. by rewrite Hten.
    - exists q. by rewrite lookup_insert_ne. }
  split; [done |]. split; [split; [| done] | done].
  intros k0 q [[<- <-] | [Hne Hq]]%lookup_insert_Some; by eauto.
Qed.

(** Overwriting a task row by one with the same id, tenant and run. *)
Lemma consistent_replace_task db k t t' :
  consistent db ->
  pipeline_tasks db !! k = Some t ->
  t_id t' = t_id t -> t_tenant_id t' = t_tenant_id t ->
  t_pipeline_run_id t' = t_pipeline_run_id t ->
  (is_finished (t_status t') = true -> is_Some (t_end_time t')) ->
  consistent (with_tasks db (<[k := t']> (pipeline_tasks db))).
Proof.
  intros ([Hkp [Hkr Hkt]] & [Hrr Hrt] & Hdag & [Hfr Hft] & Huq) Ht Hid Hten Hrid Hend.
  unfold consistent, keys_are_ids, references_resolve, dags_are_well_formed,
    finished_have_end_time, names_are_unique; simpl.
  split; [split; [done | split; [done |]] |].
  { intros k0 q [[<- <-] | [Hne Hq]]%lookup_insert_Some; [| by eauto].
    rewrite Hid. by eauto. }
  split; [split; [done |] |].
  { intros k0 q [[<- <-] | [Hne Hq]]%lookup_insert_Some; [| by eauto].
    rewrite Hrid, Hten. by eauto. }
  split; [done |]. split; [split; [done |] | done].
  intros k0 q [[<- <-] | [Hne Hq]]%lookup_insert_Some; by eauto.
Qed.

Lemma consistent_create_pipeline tenant_id depth data owner_id db p db' :
  consistent db ->
  create_pipeline tenant_id depth data owner_id db = XReturns p db' ->
  consistent db'.
Proof.
  intros ([Hkp [Hkr Hkt]] & [Hrr Hrt] & Hdag & [Hfr Hft] & Huq) Hcreate.
  apply create_pipeline_XReturns in Hcreate as (Hfresh & -> & Hp & Hval & Hno).
  unfold consistent, keys_are_ids, references_resolve, dags_are_well_formed,
    finished_have_end_time, names_are_unique; simpl.
  split; [split; [| done] |].
  { intros k0 q [[<- <-] | [Hne Hq]]%lookup_insert_Some; by eauto. }
  split; [split; [| done] |].
  { intros k0 r Hr. destruct (Hrr _ _ Hr) as (q & Hq & Hqt).
    exists q. rewrite lookup_insert_ne; [done |]. congruence. }
  split.
  { intros k0 q [[<- <-] | [Hne Hq]]%lookup_insert_Some; [| by eauto].
    rewrite Hp. simpl. exists (pc_dag_definition data).
    split; [done |]. by eapply validate_dag_well_formed. }
  split; [done |].
  intros k1 k2 p1 p2 [[<- <-] | [Hne1 Hp1]]%lookup_insert_Some
    [[<- <-] | [Hne2 Hp2]]%lookup_insert_Some Ht Hn; try done.
  - exfalso. apply Hno. by exists k2, p2.
  - exfalso. apply Hno. by exists k1, p1.
  - by apply (Huq _ _ _ _ Hp1 Hp2).
Qed.

Lemma consistent_update_pipeline tenant_id dump_nested depth pipeline_id data db p' db' :
  consistent db ->
  update_pipeline tenant_id dump_nested depth pipeline_id data db = Returns p' db' ->
  consistent db'.
Proof.
  intros Hc Hupdate.
  apply update_pipeline_Returns in Hupdate
    as (p & new_dag & Hp & Hten & Hdel & Hdag & -> & ->).
  apply (consistent_replace_pipeline db pipeline_id p); try done.
  simpl. destruct new_dag as [dumped|]; simpl.
  - apply updated_dag_Some in Hdag as (d & d' & _ & _ & -> & Hval).
    exists d'. split; [done |]. by eapply validate_dag_well_formed.
  - destruct Hc as (_ & _ & Hd & _). by apply (Hd _ _ Hp).
Qed.

Lemma consistent_delete_pipeline tenant_id now pipeline_id db u db' :
  consistent db ->
  delete_pipeline tenant_id now pipeline_id db = Returns u db' ->
  consistent db'.
Proof.
  intros Hc Hdelete.
  apply delete_pipeline_Returns in Hdelete as (p & Hp & Hten & Hdel & ->).
  apply (consistent_replace_pipeline db pipeline_id p); try done.
  destruct Hc as (_ & _ & Hd & _). by apply (Hd _ _ Hp).
Qed.

Lemma consistent_update_run_status tenant_id now run_id status error_message db run' db' :
  consistent db ->
  update_run_status tenant_id now run_id status error_message db = Returns run' db' ->
  consistent db'.
Proof.
  intros Hc Hupdate.
  apply update_run_status_Returns in Hupdate
    as (run & Hrun & Hten & -> & Hid & Hten' & Hpid & Hst & Hend).
  apply (consistent_replace_run db run_id run); try done.
  rewrite Hst, Hend. by intros ->.
Qed.

Lemma consistent_update_task_status tenant_id now id status error_message logs db
    task' db' :
  consistent db ->
  update_task_status tenant_id now id status error_message logs db = Returns task' db' ->
  consistent db'.
Proof.
  intros Hc Hupdate.
  apply update_task_status_Returns in Hupdate
    as (task & Htask & Hten & -> & Hid & Hten' & Hrid & _ & Hst & Hend).
  apply (consistent_replace_task db id task); try done.
  rewrite Hst, Hend. by intros ->.
Qed.

Lemma consistent_trigger_pipeline tenant_id pipeline_id data user_id db run db' :
  consistent db ->
  trigger_pipeline tenant_id pipeline_id data user_id db = Returns run db' ->
  consistent db'.
Proof.
  intros ([Hkp [Hkr Hkt]] & [Hrr Hrt] & Hdag & [Hfr Hft] & Huq) Htrigger.
  apply trigger_pipeline_Returns in Htrigger
    as (p & ids & Hp & Hten & Hdel & Hen & Hrun & Hfresh & Hps & Hrs & Hlen & Hnd &
        Hnew & Hother & Hrows).
  assert (Htask : forall k t, pipeline_tasks db' !! k = Some t ->
            pipeline_tasks db !! k = Some t \/
            exists tid, t = new_task tenant_id (r_id run) k tid).
  { intros k t Ht. destruct (decide (k ∈ ids)) as [Hin | Hout].
    - right. apply list_elem_of_lookup in Hin as [n Hn].
      destruct (lookup_lt_is_Some_2 (get_list (tasks (p_dag_definition p))) n)
        as [task_def Hdef].
      { rewrite <- Hlen. by eapply lookup_lt_Some. }
      destruct (Hrows _ _ _ Hn Hdef) as (tid & _ & Hrow).
      exists tid. congruence.
    - left. by rewrite <- (Hother _ Hout). }
  unfold consistent, keys_are_ids, references_resolve, dags_are_well_formed,
    finished_have_end_time, names_are_unique.
  rewrite Hps, Hrs.
  split; [split; [done | split] |].
  { intros k0 q [[<- <-] | [Hne Hq]]%lookup_insert_Some; by eauto. }
  { intros k t [Hold | [tid ->]]%Htask; by eauto. }
  split; [split |].
  { intros k0 q [[<- <-] | [Hne Hq]]%lookup_insert_Some; [| by eauto].
    exists p. rewrite Hrun. simpl. by split. }
  { intros k t [Hold | [tid ->]]%Htask.
    - destruct (Hrt _ _ Hold) as (q & Hq & Hqt). exists q.
      rewrite lookup_insert_ne; [done |]. congruence.
    - exists run. simpl. rewrite lookup_insert_eq. split; [done |].
      by rewrite Hrun. }
  split; [done |]. split; [split | done].
  { intros k0 q [[<- <-] | [Hne Hq]]%lookup_insert_Some; [| by eauto].
    rewrite Hrun. simpl. done. }
  { intros k t [Hold | [tid ->]]%Htask; [by eauto | done]. }
Qed.

Lemma consistent_serve dump_nested c db :
  consistent db -> consistent (serve dump_nested c db).
Proof.
  intros Hc. destruct c as [tenant_id now request].
  destruct request; unfold serve, get_session, get_session_any; simpl.
  - destruct (create_pipeline _ _ _ _ _) eqn:Hop; simpl; [| done].
    by eapply consistent_create_pipeline.
  - destruct (update_pipeline _ _ _ _ _ _) eqn:Hop; simpl; [| done].
    by eapply consistent_update_pipeline.
  - destruct (delete_pipeline _ _ _ _) eqn:Hop; simpl; [| done].
    by eapply consistent_delete_pipeline.
  - destruct (trigger_pipeline _ _ _ _ _) eqn:Hop; simpl; [| done].
    by eapply consistent_trigger_pipeline.
  - destruct (update_run_status _ _ _ _ _ _) eqn:Hop; simpl; [| done].
    by eapply consistent_update_run_status.
  - destruct (cancel_pipeline_run _ _ _ _) eqn:Hop; simpl; [| done].
    apply cancel_pipeline_run_Returns in Hop.
    by eapply consistent_update_run_status.
  - destruct (update_task_status _ _ _ _ _ _ _) eqn:Hop; simpl; [| done].
    by eapply consistent_update_task_status.
Qed.

Lemma consistent_serve_all dump_nested calls db :
  consistent db -> consistent (serve_all dump_nested calls db).
Proof.
  revert db. induction calls as [|c calls IH]; intros db Hc; [done |].
  simpl. apply IH. by apply consistent_serve.
Qed.

(** ** The validator under any recursion limit *)

(** X8: more stack never changes the verdict of [_validate_dag].  Unless
    the validation of a dictionary ends in [RecursionError], it ends the
    same way (accepting, or raising the same error) under every larger
    recursion limit. *)
Theorem validate_dag_deeper_stack_same_verdict (depth depth' : nat) (dag : DagDict) :
  depth <= depth' ->
  _validate_dag depth dag <> Raise RecursionError ->
  _validate_dag depth' dag = _validate_dag depth dag.
Proof.
  intros Hle. unfold _validate_dag.
  destruct (get_list (tasks dag)) as [|t0 ts]; [done |].
  generalize (t0 :: ts). intros l.
  destruct (collect_task_ids l ∅) as [ids | e]; simpl; [| done].
  destruct (check_dependencies l ids) as [[] | e]; simpl; [| done].
  intros Hrun. by apply (check_dag_cycles_mono depth depth' l).
Qed.

Lemma validate_dag_deeper_stack_same_verdict_witness :
  _validate_dag 50 (model_dump dag_cyclic) = _validate_dag 3 (model_dump dag_cyclic).
Proof.
  apply (validate_dag_deeper_stack_same_verdict 3 50 (model_dump dag_cyclic)).
  - lia.
  - vm_compute. discriminate.
Defined.

(** X9: whatever the recursion limit, and also for a definition that
    pydantic's field constraints would refuse, a definition whose dump
    [_validate_dag] accepts has at least one task, non-empty and distinct
    task ids, only dependencies that name one of its tasks, and no
    dependency cycle. *)
Theorem validate_dag_accepts_only_well_formed (depth : nat) (d : DAGDefinition) :
  _validate_dag depth (model_dump d) = Ok () -> well_formed d.
Proof. apply validate_dag_well_formed. Qed.

Lemma validate_dag_accepts_only_well_formed_witness : well_formed dag_fork.
Proof.
  apply (validate_dag_accepts_only_well_formed 3 dag_fork).
  vm_compute. reflexivity.
Defined.

(** ** What holds of the database after any sequence of requests

    The sequences start from [empty_db us ts]: no pipeline, run or task
    yet, and any rows of [users] and [tenants]. *)

(** X10: every pipeline row the service has stored, by [create_pipeline]
    or [update_pipeline], carries the dump of a well-formed definition,
    after any sequence of requests, failed ones included. *)
Theorem stored_dags_are_well_formed
    (dump_nested : DAGDefinition -> dag_value) (calls : list Call) (us ts : gset UUID) :
  dags_are_well_formed (serve_all dump_nested calls (empty_db us ts)).
Proof.
  destruct (consistent_serve_all dump_nested calls (empty_db us ts) (consistent_empty us ts))
    as (_ & _ & Hdag & _). exact Hdag.
Qed.

(** X11: after any sequence of requests every row is stored under its
    own id, every run belongs to a stored pipeline of the run's tenant
    (deletion is soft, the row stays), and every task to a stored run
    of the task's tenant. *)
Theorem stored_rows_reference_stored_rows
    (dump_nested : DAGDefinition -> dag_value) (calls : list Call) (us ts : gset UUID) :
  keys_are_ids (serve_all dump_nested calls (empty_db us ts)) /\
  references_resolve (serve_all dump_nested calls (empty_db us ts)).
Proof.
  destruct (consistent_serve_all dump_nested calls (empty_db us ts) (consistent_empty us ts))
    as (Hkeys & Href & _). by split.
Qed.

(** X12: after any sequence of requests a run or a task whose status is
    [SUCCESS], [FAILED] or [CANCELLED] has an [end_time]. *)
Theorem finished_rows_have_end_time
    (dump_nested : DAGDefinition -> dag_value) (calls : list Call) (us ts : gset UUID) :
  finished_have_end_time (serve_all dump_nested calls (empty_db us ts)).
Proof.
  destruct (consistent_serve_all dump_nested calls (empty_db us ts) (consistent_empty us ts))
    as (_ & _ & _ & Hend & _). exact Hend.
Qed.

Lemma scalar_one_or_none_unique (db : Db) tenant_id name :
  names_are_unique db ->
  scalar_one_or_none (pipelines_named tenant_id db name) <> ManyRows.
Proof.
  intros Huq. unfold scalar_one_or_none.
  destruct (map_to_list (pipelines_named tenant_id db name))
    as [|[k1 p1] [|[k2 p2] rest]] eqn:Hrows; try done.
  intros _.
  pose proof (NoDup_fst_map_to_list (pipelines_named tenant_id db name)) as Hnd.
  rewrite Hrows in Hnd. simpl in Hnd.
  assert (H1 : pipelines_named tenant_id db name !! k1 = Some p1).
  { apply elem_of_map_to_list. rewrite Hrows. set_solver. }
  assert (H2 : pipelines_named tenant_id db name !! k2 = Some p2).
  { apply elem_of_map_to_list. rewrite Hrows. set_solver. }
  apply map_lookup_filter_Some in H1 as [H1 (Ht1 & Hn1 & _)].
  apply map_lookup_filter_Some in H2 as [H2 (Ht2 & Hn2 & _)].
  simpl in *.
  assert (k1 = k2) as -> by (apply (Huq _ _ _ _ H1 H2); congruence).
  apply NoDup_cons in Hnd as [Hnd _]. set_solver.
Qed.

(** X13: after any sequence of requests a lookup by name never meets
    two rows.  [get_pipeline_by_name] returns the one live pipeline of
    the tenant with that name, stored under its id, or raises
    [NotFoundError] when the tenant has no live pipeline of that name. *)
Theorem get_pipeline_by_name_finds_the_pipeline
    (dump_nested : DAGDefinition -> dag_value) (calls : list Call) (us ts : gset UUID)
    (tenant_id : UUID) (name : string) :
  match get_pipeline_by_name tenant_id (serve_all dump_nested calls (empty_db us ts)) name with
  | inl p =>
      get_pipeline tenant_id (serve_all dump_nested calls (empty_db us ts)) (p_id p) = Ok p /\
      p_name p = name
  | inr e =>
      e = NotFoundByName "Pipeline" name /\
      forall k p, pipelines (serve_all dump_nested calls (empty_db us ts)) !! k = Some p ->
                  p_tenant_id p = tenant_id -> p_name p = name -> p_deleted_at p <> None
  end.
Proof.
  destruct (consistent_serve_all dump_nested calls (empty_db us ts) (consistent_empty us ts))
    as ([Hkeys _] & _ & _ & _ & Huq).
  set (db := serve_all dump_nested calls (empty_db us ts)) in *.
  unfold get_pipeline_by_name.
  pose proof (scalar_one_or_none_unique db tenant_id name Huq) as Hmany.
  destruct (scalar_one_or_none (pipelines_named tenant_id db name)) as [|p|] eqn:Hrows;
    [| | done].
  - split; [done |]. apply scalar_one_or_none_NoRow in Hrows.
    intros k p Hp Hten Hname Hdel.
    assert (Hin : pipelines_named tenant_id db name !! k = Some p).
    { apply map_lookup_filter_Some. by repeat split. }
    rewrite Hrows in Hin. by rewrite lookup_empty in Hin.
  - apply scalar_one_or_none_OneRow in Hrows as [k Hrows].
    assert (Hin : pipelines_named tenant_id db name !! k = Some p).
    { rewrite Hrows. apply lookup_singleton_eq. }
    apply map_lookup_filter_Some in Hin as [Hp (Hten & Hname & Hdel)]. simpl in *.
    split; [| done]. apply get_pipeline_Ok. rewrite (Hkeys _ _ Hp). by repeat split.
Qed.

(** X14: after any sequence of requests [trigger_pipeline] cannot fail
    on the stored DAG.  On a live, enabled pipeline of the tenant, for a
    caller whose id the [triggered_by] foreign key accepts, it returns a
    run; when it raises, the error is [NotFoundError] for the pipeline,
    [ValidationError("Pipeline is disabled")], or the [IntegrityError] of
    that foreign key for a caller who is no row of [users], never a
    [KeyError] from a task entry, and nothing has been added to the
    session. *)
Theorem trigger_pipeline_fails_only_on_the_pipeline
    (dump_nested : DAGDefinition -> dag_value) (calls : list Call) (us ts : gset UUID)
    (tenant_id pipeline_id : UUID) (data : TriggerPipelineRequest)
    (user_id : option UUID) :
  (forall p,
     get_pipeline tenant_id (serve_all dump_nested calls (empty_db us ts)) pipeline_id = Ok p ->
     p_enabled p = true ->
     references_user user_id (serve_all dump_nested calls (empty_db us ts)) ->
     exists run db',
       trigger_pipeline tenant_id pipeline_id data user_id
         (serve_all dump_nested calls (empty_db us ts)) = Returns run db') /\
  (forall e db',
     trigger_pipeline tenant_id pipeline_id data user_id
       (serve_all dump_nested calls (empty_db us ts)) = Raises e db' ->
     db' = serve_all dump_nested calls (empty_db us ts) /\
     (e = NotFoundError "Pipeline" pipeline_id \/
      e = ValidationError "Pipeline is disabled" \/
      (e = IntegrityError "pipeline_runs_triggered_by_fkey" /\
       ~ references_user user_id (serve_all dump_nested calls (empty_db us ts))))).
Proof.
  destruct (consistent_serve_all dump_nested calls (empty_db us ts) (consistent_empty us ts))
    as (_ & _ & Hdag & _).
  set (db := serve_all dump_nested calls (empty_db us ts)) in *.
  assert (Hadd : forall p run_id db1,
            get_pipeline tenant_id db pipeline_id = Ok p ->
            exists db', add_tasks tenant_id run_id
                          (get_list (tasks (p_dag_definition p))) db1 = Returns () db').
  { intros p run_id db1 Hget. apply get_pipeline_Ok in Hget as (Hp & _).
    destruct (Hdag _ _ Hp) as (d & -> & _). apply add_tasks_total. simpl.
    apply Forall_fmap, Forall_forall. intros t _. simpl. by eexists. }
  split.
  - intros p Hget Hen Huser. unfold trigger_pipeline. rewrite Hget, Hen. simpl.
    rewrite decide_True by done.
    edestruct (Hadd p) as [db' ->]; [done |]. by eexists _, _.
  - intros e db' Hraise. unfold trigger_pipeline in Hraise.
    destruct (get_pipeline tenant_id db pipeline_id) as [p | e0] eqn:Hget.
    + destruct (p_enabled p); simpl in Hraise.
      * case_decide as Huser.
        -- edestruct (Hadd p) as [db1 Hdb1]; [done |]. by rewrite Hdb1 in Hraise.
        -- injection Hraise as <- <-. split; [done |]. right. right. by split.
      * injection Hraise as <- <-. split; [done |]. right. by left.
    + injection Hraise as <- <-. split; [done |]. left.
      unfold get_pipeline in Hget.
      destruct (pipelines db !! pipeline_id) as [p|]; [case_decide |]; congruence.
Qed.

(** X15: a run that [trigger_pipeline] has just created, after any
    sequence of requests, has under [get_pipeline_tasks] exactly the
    task rows created with it, and no row of an earlier run: one row per
    task of the pipeline's definition, with that task's [task_id], the
    run's id and tenant, [PENDING], and without times, error or logs. *)
Theorem trigger_pipeline_then_get_pipeline_tasks
    (dump_nested : DAGDefinition -> dag_value) (calls : list Call) (us ts : gset UUID)
    (tenant_id pipeline_id : UUID) (data : TriggerPipelineRequest)
    (user_id : option UUID) (run : PipelineRun) (db' : Db) :
  trigger_pipeline tenant_id pipeline_id data user_id
    (serve_all dump_nested calls (empty_db us ts)) = Returns run db' ->
  exists (p : Pipeline) (d : DAGDefinition) (rows : gmap UUID PipelineTask)
         (ids : list UUID),
    get_pipeline tenant_id (serve_all dump_nested calls (empty_db us ts)) pipeline_id = Ok p /\
    p_dag_definition p = model_dump d /\
    get_pipeline_run tenant_id db' (r_id run) = Ok run /\
    get_pipeline_tasks tenant_id db' (r_id run) = Ok rows /\
    length ids = length (dd_tasks d) /\
    NoDup ids /\
    dom rows = list_to_set ids /\
    (forall n i td, ids !! n = Some i -> dd_tasks d !! n = Some td ->
       rows !! i = Some (mkPipelineTask i tenant_id (r_id run) (td_task_id td) PENDING
                                        None None None None)).
Proof.
  intros Htrigger.
  destruct (consistent_serve_all dump_nested calls (empty_db us ts) (consistent_empty us ts))
    as (_ & [_ Hrt] & Hdag & _).
  set (db := serve_all dump_nested calls (empty_db us ts)) in *.
  apply trigger_pipeline_Returns in Htrigger
    as (p & ids & Hp & Hten & Hdel & Hen & Hrun & Hfresh & Hps & Hrs & Hlen & Hnd &
        Hnew & Hother & Hrows).
  destruct (Hdag _ _ Hp) as (d & Hd & _).
  rewrite Hd in Hlen, Hrows. simpl in Hlen, Hrows. rewrite length_fmap in Hlen.
  assert (Hget : get_pipeline_run tenant_id db' (r_id run) = Ok run).
  { apply get_pipeline_run_Ok. rewrite Hrs, lookup_insert_eq. split; [done |].
    by rewrite Hrun. }
  assert (Hrow : forall n i td, ids !! n = Some i -> dd_tasks d !! n = Some td ->
            pipeline_tasks db' !! i = Some (new_task tenant_id (r_id run) i (td_task_id td))).
  { intros n i td Hi Htd.
    destruct (Hrows n i (task_model_dump td) Hi) as (tid & Htid & Hlook).
    - by rewrite list_lookup_fmap, Htd.
    - simpl in Htid. by injection Htid as <-. }
  exists p, d,
    (filter (fun kv => t_pipeline_run_id kv.2 = r_id run /\ t_tenant_id kv.2 = tenant_id)
            (pipeline_tasks db')), ids.
  split; [by apply get_pipeline_Ok |]. split; [done |]. split; [done |].
  split; [unfold get_pipeline_tasks; by rewrite Hget |].
  split; [done |]. split; [done |]. split.
  - apply set_eq. intros k. rewrite elem_of_dom, elem_of_list_to_set. split.
    + intros [t [Ht [Hrid _]]%map_lookup_filter_Some]. simpl in Hrid.
      destruct (decide (k ∈ ids)) as [Hin | Hout]; [done |]. exfalso.
      rewrite (Hother _ Hout) in Ht.
      destruct (Hrt _ _ Ht) as (r & Hr & _). rewrite Hrid in Hr. congruence.
    + intros Hin. apply list_elem_of_lookup in Hin as [n Hn].
      destruct (lookup_lt_is_Some_2 (dd_tasks d) n) as [td Htd].
      { rewrite <- Hlen. by eapply lookup_lt_Some. }
      eexists. apply map_lookup_filter_Some. split; [by eapply Hrow |]. done.
  - intros n i td Hi Htd. apply map_lookup_filter_Some.
    split; [by eapply Hrow |]. done.
Qed.

Lemma trigger_pipeline_then_get_pipeline_tasks_witness :
  exists (p : Pipeline) (d : DAGDefinition) (rows : gmap UUID PipelineTask)
         (ids : list UUID),
    get_pipeline tenant0 (serve_all DagPlain_dump calls_create db0) 1 = Ok p /\
    p_dag_definition p = model_dump d /\
    get_pipeline_run tenant0 (serve_all DagPlain_dump calls_trigger db0) (r_id run1)
      = Ok run1 /\
    get_pipeline_tasks tenant0 (serve_all DagPlain_dump calls_trigger db0) (r_id run1)
      = Ok rows /\
    length ids = length (dd_tasks d) /\
    NoDup ids /\
    dom rows = list_to_set ids /\
    (forall n i td, ids !! n = Some i -> dd_tasks d !! n = Some td ->
       rows !! i = Some (mkPipelineTask i tenant0 (r_id run1) (td_task_id td) PENDING
                                        None None None None)).
Proof.
  apply (trigger_pipeline_then_get_pipeline_tasks DagPlain_dump calls_create
           users0 tenants0 tenant0 1
           request0 None run1 (serve_all DagPlain_dump calls_trigger db0)).
  vm_compute. reflexivity.
Defined.

(** ** Creating a pipeline *)

Lemma create_pipeline_XReturns_named tenant_id depth data owner_id db p db' :
  create_pipeline tenant_id depth data owner_id db = XReturns p db' ->
  pipelines_named tenant_id db (pc_name data) = ∅.
Proof.
  unfold create_pipeline.
  destruct (scalar_one_or_none _) eqn:Hrows; try done.
  intros _. by apply scalar_one_or_none_NoRow.
Qed.

(** X16: a pipeline that [create_pipeline] returns is stored under a
    fresh id and is found again, by [get_pipeline] under that id and by
    [get_pipeline_by_name] under its name; it is live, belongs to the
    caller's tenant and carries the dump of the requested definition,
    which [_validate_dag] has accepted.  No other row of any table is
    touched. *)
Theorem create_pipeline_then_get
    (tenant_id : UUID) (depth : nat) (data : PipelineCreate) (owner_id : option UUID)
    (db : Db) (p : Pipeline) (db' : Db) :
  create_pipeline tenant_id depth data owner_id db = XReturns p db' ->
  pipelines db !! p_id p = None /\
  get_pipeline tenant_id db' (p_id p) = Ok p /\
  get_pipeline_by_name tenant_id db' (pc_name data) = inl p /\
  p_dag_definition p = model_dump (pc_dag_definition data) /\
  _validate_dag depth (p_dag_definition p) = Ok () /\
  (forall k, k <> p_id p -> pipelines db' !! k = pipelines db !! k) /\
  pipeline_runs db' = pipeline_runs db /\
  pipeline_tasks db' = pipeline_tasks db.
Proof.
  intros Hcreate.
  pose proof (create_pipeline_XReturns_named _ _ _ _ _ _ _ Hcreate) as Hnamed.
  apply create_pipeline_XReturns in Hcreate as (Hfresh & -> & Hp & Hval & _).
  assert (Hfields : p_tenant_id p = tenant_id /\ p_name p = pc_name data /\
                    p_deleted_at p = None /\
                    p_dag_definition p = model_dump (pc_dag_definition data)).
  { by rewrite Hp. }
  destruct Hfields as (Hten & Hname & Hdel & Hdag).
  split; [done |]. split.
  { apply get_pipeline_Ok. simpl. by rewrite lookup_insert_eq. }
  split.
  { unfold get_pipeline_by_name, pipelines_named. simpl.
    rewrite map_filter_insert_True by done.
    unfold pipelines_named in Hnamed. rewrite Hnamed, insert_empty.
    unfold scalar_one_or_none. by rewrite map_to_list_singleton. }
  split; [done |]. split; [by rewrite Hdag |].
  split; [| done]. intros k Hk. simpl. by rewrite lookup_insert_ne.
Qed.

Lemma create_pipeline_then_get_witness :
  pipelines db0 !! p_id pipeline1 = None /\
  get_pipeline tenant0 (serve_all DagPlain_dump calls_create db0) (p_id pipeline1)
    = Ok pipeline1 /\
  get_pipeline_by_name tenant0 (serve_all DagPlain_dump calls_create db0)
    (pc_name create_nightly) = inl pipeline1 /\
  p_dag_definition pipeline1 = model_dump (pc_dag_definition create_nightly) /\
  _validate_dag 100 (p_dag_definition pipeline1) = Ok () /\
  (forall k, k <> p_id pipeline1 ->
     pipelines (serve_all DagPlain_dump calls_create db0) !! k
       = pipelines db0 !! k) /\
  pipeline_runs (serve_all DagPlain_dump calls_create db0) = pipeline_runs db0 /\
  pipeline_tasks (serve_all DagPlain_dump calls_create db0) = pipeline_tasks db0.
Proof.
  apply (create_pipeline_then_get tenant0 100 create_nightly None db0 pipeline1
           (serve_all DagPlain_dump calls_create db0)).
  vm_compute. reflexivity.
Defined.

Lemma pipelines_named_live tenant_id db name :
  names_are_unique db ->
  (exists k q, pipelines db !! k = Some q /\ p_tenant_id q = tenant_id /\
               p_name q = name /\ p_deleted_at q = None) ->
  exists q, scalar_one_or_none (pipelines_named tenant_id db name) = OneRow q.
Proof.
  intros Huq (k & q & Hq & Hten & Hname & Hdel).
  pose proof (scalar_one_or_none_unique db tenant_id name Huq) as Hmany.
  destruct (scalar_one_or_none (pipelines_named tenant_id db name)) as [|q'|] eqn:Hrows;
    [| by exists q' | done].
  apply scalar_one_or_none_NoRow in Hrows.
  exfalso. by apply (map_filter_empty_not_lookup _ _ k q Hrows).
Qed.

Lemma pipelines_named_none tenant_id db name :
  (forall k q, pipelines db !! k = Some q -> p_tenant_id q = tenant_id ->
               p_name q = name -> p_deleted_at q <> None) ->
  scalar_one_or_none (pipelines_named tenant_id db name) = NoRow.
Proof.
  intros Hnone. apply scalar_one_or_none_NoRow, map_empty_filter.
  intros k q Hq (Hten & Hname & Hdel). simpl in *. by apply (Hnone k q).
Qed.

(** X17: what [create_pipeline] does, case by case, on a database in
    which the unique constraint on (tenant, name) holds.  A live
    pipeline of the tenant with the requested name gives [ConflictError],
    before the DAG is looked at.  Without one, a DAG that [_validate_dag]
    refuses gives that error.  With a DAG that validates, the INSERT
    breaks the unique constraint when a row of the tenant, then a
    soft-deleted one, still holds the name; otherwise it breaks a foreign
    key when the tenant is no row of [tenants] or the owner no row of
    [users]; otherwise the pipeline is stored under a fresh id and
    returned.  Every failure leaves the session as it was. *)
Theorem create_pipeline_failures
    (tenant_id : UUID) (depth : nat) (data : PipelineCreate) (owner_id : option UUID)
    (db : Db) :
  names_are_unique db ->
  ((exists k q, pipelines db !! k = Some q /\ p_tenant_id q = tenant_id /\
                p_name q = pc_name data /\ p_deleted_at q = None) ->
     create_pipeline tenant_id depth data owner_id db
       = XRaises (ServiceError (ConflictError "Pipeline"
                    ("Pipeline with name '" +:+ pc_name data +:+ "' already exists")))
                 db) /\
  ((forall k q, pipelines db !! k = Some q -> p_tenant_id q = tenant_id ->
                p_name q = pc_name data -> p_deleted_at q <> None) ->
     (forall e, _validate_dag depth (model_dump (pc_dag_definition data)) = Raise e ->
        create_pipeline tenant_id depth data owner_id db = XRaises (ServiceError e) db) /\
     (_validate_dag depth (model_dump (pc_dag_definition data)) = Ok () ->
        ((exists k q, pipelines db !! k = Some q /\ p_tenant_id q = tenant_id /\
                      p_name q = pc_name data) ->
           create_pipeline tenant_id depth data owner_id db
             = XRaises (ServiceError (IntegrityError "uq_tenant_pipeline_name")) db) /\
        ((forall k q, pipelines db !! k = Some q -> p_tenant_id q = tenant_id ->
                      p_name q <> pc_name data) ->
           (tenant_id ∉ tenants db ->
              create_pipeline tenant_id depth data owner_id db
                = XRaises (ServiceError (IntegrityError "pipelines_tenant_id_fkey")) db) /\
           (tenant_id ∈ tenants db -> ~ references_user owner_id db ->
              create_pipeline tenant_id depth data owner_id db
                = XRaises (ServiceError (IntegrityError "pipelines_owner_id_fkey")) db) /\
           (tenant_id ∈ tenants db -> references_user owner_id db ->
              exists p,
                create_pipeline tenant_id depth data owner_id db
                  = XReturns p (with_pipelines db (<[p_id p := p]> (pipelines db))) /\
                pipelines db !! p_id p = None /\
                p = mkPipeline (p_id p) tenant_id (pc_name data) (pc_description data)
                      (model_dump (pc_dag_definition data)) (pc_schedule data)
                      (pc_enabled data) owner_id None)))).
Proof.
  intros Huq. split.
  - intros Hlive. unfold create_pipeline.
    by destruct (pipelines_named_live tenant_id db (pc_name data) Huq Hlive) as [q ->].
  - intros Hnone. unfold create_pipeline.
    rewrite (pipelines_named_none tenant_id db (pc_name data) Hnone).
    split; [by intros e -> |]. intros ->. split.
    + intros Hheld. rewrite decide_True; [done |].
      destruct Hheld as (k & q & Hq & Hten & Hname). by exists k, q.
    + intros Hfree.
      rewrite decide_False; last first.
      { intros (k & q & Hq & Hten & Hname). by apply (Hfree k q). }
      split; [| split].
      * intros Hten. by rewrite decide_True.
      * intros Hten Howner. rewrite decide_False by (by intros ?).
        by rewrite decide_False.
      * intros Hten Howner. rewrite decide_False by (by intros ?).
        rewrite decide_True by done.
        exists (mkPipeline (fresh (dom (pipelines db))) tenant_id (pc_name data)
                  (pc_description data) (model_dump (pc_dag_definition data))
                  (pc_schedule data) (pc_enabled data) owner_id None).
        split; [done |]. simpl. split; [| done].
        apply not_elem_of_dom, is_fresh.
Qed.

Lemma create_pipeline_failures_witness :
  ((exists k q,
      pipelines (serve_all DagPlain_dump calls_create db0) !! k = Some q /\
      p_tenant_id q = tenant0 /\ p_name q = pc_name create_nightly /\
      p_deleted_at q = None) ->
     create_pipeline tenant0 100 create_nightly None
       (serve_all DagPlain_dump calls_create db0)
       = XRaises (ServiceError (ConflictError "Pipeline"
                    ("Pipeline with name '" +:+ pc_name create_nightly
                       +:+ "' already exists")))
                 (serve_all DagPlain_dump calls_create db0)) /\
  ((forall k q,
      pipelines (serve_all DagPlain_dump calls_create db0) !! k = Some q ->
      p_tenant_id q = tenant0 -> p_name q = pc_name create_nightly ->
      p_deleted_at q <> None) ->
     (forall e,
        _validate_dag 100 (model_dump (pc_dag_definition create_nightly)) = Raise e ->
        create_pipeline tenant0 100 create_nightly None
          (serve_all DagPlain_dump calls_create db0)
          = XRaises (ServiceError e) (serve_all DagPlain_dump calls_create db0)) /\
     (_validate_dag 100 (model_dump (pc_dag_definition create_nightly)) = Ok () ->
        ((exists k q,
            pipelines (serve_all DagPlain_dump calls_create db0) !! k = Some q /\
            p_tenant_id q = tenant0 /\ p_name q = pc_name create_nightly) ->
           create_pipeline tenant0 100 create_nightly None
             (serve_all DagPlain_dump calls_create db0)
             = XRaises (ServiceError (IntegrityError "uq_tenant_pipeline_name"))
                       (serve_all DagPlain_dump calls_create db0)) /\
        ((forall k q,
            pipelines (serve_all DagPlain_dump calls_create db0) !! k = Some q ->
            p_tenant_id q = tenant0 -> p_name q <> pc_name create_nightly) ->
           (tenant0 ∉ tenants (serve_all DagPlain_dump calls_create db0) ->
              create_pipeline tenant0 100 create_nightly None
                (serve_all DagPlain_dump calls_create db0)
                = XRaises (ServiceError (IntegrityError "pipelines_tenant_id_fkey"))
                          (serve_all DagPlain_dump calls_create db0)) /\
           (tenant0 ∈ tenants (serve_all DagPlain_dump calls_create db0) ->
            ~ references_user None (serve_all DagPlain_dump calls_create db0) ->
              create_pipeline tenant0 100 create_nightly None
                (serve_all DagPlain_dump calls_create db0)
                = XRaises (ServiceError (IntegrityError "pipelines_owner_id_fkey"))
                          (serve_all DagPlain_dump calls_create db0)) /\
           (tenant0 ∈ tenants (serve_all DagPlain_dump calls_create db0) ->
            references_user None (serve_all DagPlain_dump calls_create db0) ->
              exists p,
                create_pipeline tenant0 100 create_nightly None
                  (serve_all DagPlain_dump calls_create db0)
                  = XReturns p
                      (with_pipelines (serve_all DagPlain_dump calls_create db0)
                         (<[p_id p := p]>
                            (pipelines (serve_all DagPlain_dump calls_create db0)))) /\
                pipelines (serve_all DagPlain_dump calls_create db0) !! p_id p = None /\
                p = mkPipeline (p_id p) tenant0 (pc_name create_nightly)
                      (pc_description create_nightly)
                      (model_dump (pc_dag_definition create_nightly))
                      (pc_schedule create_nightly) (pc_enabled create_nightly)
                      None None)))).
Proof.
  apply (create_pipeline_failures tenant0 100 create_nightly None
           (serve_all DagPlain_dump calls_create db0)).
  by destruct (consistent_serve_all DagPlain_dump calls_create db0
                 (consistent_empty users0 tenants0)) as (_ & _ & _ & _ & Huq).
Defined.

(** ** Deleting a pipeline *)

Lemma get_pipeline_Raise tenant_id db pipeline_id e :
  get_pipeline tenant_id db pipeline_id = Raise e ->
  e = NotFoundError "Pipeline" pipeline_id.
Proof.
  unfold get_pipeline.
  destruct (pipelines db !! pipeline_id) as [p|]; [case_decide |]; congruence.
Qed.

Lemma get_pipeline_deleted tenant_id db pipeline_id p :
  pipelines db !! pipeline_id = Some p ->
  p_deleted_at p <> None ->
  get_pipeline tenant_id db pipeline_id = Raise (NotFoundError "Pipeline" pipeline_id).
Proof.
  intros Hp Hdel. unfold get_pipeline. rewrite Hp.
  rewrite decide_False; [done |]. by intros [_ ?].
Qed.

(** X18: [delete_pipeline] only stamps [deleted_at] on the row, which
    stays in the table.  From then on the service no longer finds the
    pipeline: [get_pipeline], [trigger_pipeline], [update_pipeline] and
    a second [delete_pipeline] all raise [NotFoundError].  The other
    pipelines, and all runs and tasks, those of the deleted pipeline
    included, are left as they were. *)
Theorem delete_pipeline_hides_the_pipeline
    (tenant_id : UUID) (now : datetime) (pipeline_id : UUID) (db : Db)
    (u : unit) (db' : Db) :
  delete_pipeline tenant_id now pipeline_id db = Returns u db' ->
  (exists p, get_pipeline tenant_id db pipeline_id = Ok p /\
             pipelines db' !! pipeline_id = Some (soft_delete now p)) /\
  get_pipeline tenant_id db' pipeline_id = Raise (NotFoundError "Pipeline" pipeline_id) /\
  (forall data user_id,
     trigger_pipeline tenant_id pipeline_id data user_id db'
       = Raises (NotFoundError "Pipeline" pipeline_id) db') /\
  (forall dump_nested depth data,
     update_pipeline tenant_id dump_nested depth pipeline_id data db'
       = Raises (NotFoundError "Pipeline" pipeline_id) db') /\
  (forall now',
     delete_pipeline tenant_id now' pipeline_id db'
       = Raises (NotFoundError "Pipeline" pipeline_id) db') /\
  (forall k, k <> pipeline_id -> pipelines db' !! k = pipelines db !! k) /\
  pipeline_runs db' = pipeline_runs db /\
  pipeline_tasks db' = pipeline_tasks db.
Proof.
  intros Hdelete.
  apply delete_pipeline_Returns in Hdelete as (p & Hp & Hten & Hdel & ->).
  assert (Hrow : pipelines (with_pipelines db (<[pipeline_id := soft_delete now p]>
                   (pipelines db))) !! pipeline_id = Some (soft_delete now p)).
  { simpl. by rewrite lookup_insert_eq. }
  pose proof (get_pipeline_deleted tenant_id _ _ _ Hrow ltac:(done)) as Hgone.
  split.
  { exists p. split; [by apply get_pipeline_Ok | done]. }
  split; [done |]. split.
  { intros data user_id. unfold trigger_pipeline. by rewrite Hgone. }
  split.
  { intros dump_nested depth data. unfold update_pipeline. by rewrite Hgone. }
  split.
  { intros now'. unfold delete_pipeline. by rewrite Hgone. }
  split; [| done]. intros k Hk. simpl. by rewrite lookup_insert_ne.
Qed.

Lemma delete_pipeline_hides_the_pipeline_witness :
  (exists p, get_pipeline tenant0 (serve_all DagPlain_dump calls_create db0) 1 = Ok p /\
             pipelines (serve_all DagPlain_dump calls_delete db0) !! 1%positive
               = Some (soft_delete 5 p)) /\
  get_pipeline tenant0 (serve_all DagPlain_dump calls_delete db0) 1
    = Raise (NotFoundError "Pipeline" 1) /\
  (forall data user_id,
     trigger_pipeline tenant0 1 data user_id (serve_all DagPlain_dump calls_delete db0)
       = Raises (NotFoundError "Pipeline" 1)
                (serve_all DagPlain_dump calls_delete db0)) /\
  (forall dump_nested depth data,
     update_pipeline tenant0 dump_nested depth 1 data
       (serve_all DagPlain_dump calls_delete db0)
       = Raises (NotFoundError "Pipeline" 1)
                (serve_all DagPlain_dump calls_delete db0)) /\
  (forall now',
     delete_pipeline tenant0 now' 1 (serve_all DagPlain_dump calls_delete db0)
       = Raises (NotFoundError "Pipeline" 1)
                (serve_all DagPlain_dump calls_delete db0)) /\
  (forall k, k <> 1%positive ->
     pipelines (serve_all DagPlain_dump calls_delete db0) !! k
       = pipelines (serve_all DagPlain_dump calls_create db0) !! k) /\
  pipeline_runs (serve_all DagPlain_dump calls_delete db0)
    = pipeline_runs (serve_all DagPlain_dump calls_create db0) /\
  pipeline_tasks (serve_all DagPlain_dump calls_delete db0)
    = pipeline_tasks (serve_all DagPlain_dump calls_create db0).
Proof.
  apply (delete_pipeline_hides_the_pipeline tenant0 5 1
           (serve_all DagPlain_dump calls_create db0) ()
           (serve_all DagPlain_dump calls_delete db0)).
  vm_compute. reflexivity.
Defined.

(** X19: the name of a deleted pipeline stays taken.  After any
    sequence of requests, once a live pipeline has been deleted, creating
    a pipeline of the same tenant under the same name, with a DAG that
    validates, passes the duplicate-name check (which skips deleted rows)
    and fails at the INSERT on the unique constraint on (tenant, name):
    the caller gets an [IntegrityError], not a [ConflictError], and the
    session is left as it was. *)
Theorem deleted_name_stays_taken
    (dump_nested : DAGDefinition -> dag_value) (calls : list Call) (us ts : gset UUID)
    (tenant_id : UUID) (now : datetime) (pipeline_id : UUID) (p : Pipeline)
    (depth : nat) (data : PipelineCreate) (owner_id : option UUID) :
  get_pipeline tenant_id (serve_all dump_nested calls (empty_db us ts)) pipeline_id = Ok p ->
  pc_name data = p_name p ->
  _validate_dag depth (model_dump (pc_dag_definition data)) = Ok () ->
  create_pipeline tenant_id depth data owner_id
    (serve dump_nested (mkCall tenant_id now (DeletePipeline pipeline_id))
       (serve_all dump_nested calls (empty_db us ts)))
  = XRaises (ServiceError (IntegrityError "uq_tenant_pipeline_name"))
      (serve dump_nested (mkCall tenant_id now (DeletePipeline pipeline_id))
         (serve_all dump_nested calls (empty_db us ts))).
Proof.
  intros Hget Hname Hval.
  destruct (consistent_serve_all dump_nested calls (empty_db us ts) (consistent_empty us ts))
    as (_ & _ & _ & _ & Huq).
  set (db := serve_all dump_nested calls (empty_db us ts)) in *.
  unfold serve, get_session, delete_pipeline. simpl. rewrite Hget. simpl.
  apply get_pipeline_Ok in Hget as (Hp & Hten & Hdel).
  set (db' := with_pipelines db (<[pipeline_id := soft_delete now p]> (pipelines db))).
  assert (Hnamed : pipelines_named tenant_id db' (pc_name data) = ∅).
  { apply map_empty_filter. intros k q Hq (Hqt & Hqn & Hqd). simpl in *.
    apply lookup_insert_Some in Hq as [[<- <-] | [Hne Hq]]; [done |].
    apply Hne. symmetry. apply (Huq _ _ _ _ Hq Hp); congruence. }
  unfold create_pipeline.
  apply scalar_one_or_none_NoRow in Hnamed. rewrite Hnamed, Hval.
  rewrite decide_True; [done |].
  exists pipeline_id, (soft_delete now p). simpl.
  rewrite lookup_insert_eq. by repeat split.
Qed.

Lemma deleted_name_stays_taken_witness :
  create_pipeline tenant0 100 create_nightly None
    (serve DagPlain_dump (mkCall tenant0 5 (DeletePipeline 1))
       (serve_all DagPlain_dump calls_create db0))
  = XRaises (ServiceError (IntegrityError "uq_tenant_pipeline_name"))
      (serve DagPlain_dump (mkCall tenant0 5 (DeletePipeline 1))
         (serve_all DagPlain_dump calls_create db0)).
Proof.
  apply (deleted_name_stays_taken DagPlain_dump calls_create users0 tenants0
           tenant0 5 1 pipeline1
           100 create_nightly None).
  - vm_compute. reflexivity.
  - reflexivity.
  - vm_compute. reflexivity.
Defined.

(** ** Updating a pipeline *)

(** X20: [update_pipeline] changes nothing but the four fields of the
    request, and each of them only when it is given: a field that is
    unset or [None] keeps its value, so a description or a schedule
    cannot be cleared.  The id, tenant, name and owner of the pipeline
    stay as they are, the pipeline stays live and is found under its id
    with the new values, and no other pipeline row changes. *)
Theorem update_pipeline_changes_only_given_fields
    (tenant_id : UUID) (dump_nested : DAGDefinition -> dag_value) (depth : nat)
    (pipeline_id : UUID) (data : PipelineUpdate) (db : Db) (p' : Pipeline) (db' : Db) :
  update_pipeline tenant_id dump_nested depth pipeline_id data db = Returns p' db' ->
  exists p,
    get_pipeline tenant_id db pipeline_id = Ok p /\
    get_pipeline tenant_id db' pipeline_id = Ok p' /\
    p_id p' = p_id p /\ p_tenant_id p' = p_tenant_id p /\ p_name p' = p_name p /\
    p_owner_id p' = p_owner_id p /\ p_deleted_at p' = None /\
    p_description p' = match pu_description data with
                       | Some v => Some v
                       | None => p_description p
                       end /\
    p_schedule p' = match pu_schedule data with
                    | Some v => Some v
                    | None => p_schedule p
                    end /\
    p_enabled p' = match pu_enabled data with
                   | Some v => v
                   | None => p_enabled p
                   end /\
    (pu_dag_definition data = None -> p_dag_definition p' = p_dag_definition p) /\
    (forall k, k <> pipeline_id -> pipelines db' !! k = pipelines db !! k).
Proof.
  intros Hupdate.
  apply update_pipeline_Returns in Hupdate
    as (p & new_dag & Hp & Hten & Hdel & Hdag & -> & ->).
  exists p. split; [by apply get_pipeline_Ok |]. split.
  { apply get_pipeline_Ok. simpl. by rewrite lookup_insert_eq. }
  simpl. repeat split; try done.
  - intros Hnone. unfold updated_dag in Hdag. rewrite Hnone in Hdag.
    by injection Hdag as <-.
  - intros k Hk. by rewrite lookup_insert_ne.
Qed.

Lemma update_pipeline_changes_only_given_fields_witness :
  exists p,
    get_pipeline tenant0 (serve_all DagPlain_dump calls_create db0) 1 = Ok p /\
    get_pipeline tenant0 (serve_all DagPlain_dump calls_disable db0) 1
      = Ok pipeline1_disabled /\
    p_id pipeline1_disabled = p_id p /\
    p_tenant_id pipeline1_disabled = p_tenant_id p /\
    p_name pipeline1_disabled = p_name p /\
    p_owner_id pipeline1_disabled = p_owner_id p /\
    p_deleted_at pipeline1_disabled = None /\
    p_description pipeline1_disabled = match pu_description update_disable with
                                       | Some v => Some v
                                       | None => p_description p
                                       end /\
    p_schedule pipeline1_disabled = match pu_schedule update_disable with
                                    | Some v => Some v
                                    | None => p_schedule p
                                    end /\
    p_enabled pipeline1_disabled = match pu_enabled update_disable with
                                   | Some v => v
                                   | None => p_enabled p
                                   end /\
    (pu_dag_definition update_disable = None ->
       p_dag_definition pipeline1_disabled = p_dag_definition p) /\
    (forall k, k <> 1%positive ->
       pipelines (serve_all DagPlain_dump calls_disable db0) !! k
         = pipelines (serve_all DagPlain_dump calls_create db0) !! k).
Proof.
  apply (update_pipeline_changes_only_given_fields tenant0 DagPlain_dump 100 1
           update_disable (serve_all DagPlain_dump calls_create db0)
           pipeline1_disabled (serve_all DagPlain_dump calls_disable db0)).
  vm_compute. reflexivity.
Defined.

(** X21: disabling a pipeline through [update_pipeline] is what stops
    [trigger_pipeline]: after an update with [enabled=False] every
    trigger of that pipeline raises
    [ValidationError("Pipeline is disabled")] and adds nothing. *)
Theorem disabled_pipeline_is_not_triggered
    (tenant_id : UUID) (dump_nested : DAGDefinition -> dag_value) (depth : nat)
    (pipeline_id : UUID) (data : PipelineUpdate) (db : Db) (p' : Pipeline) (db' : Db)
    (request : TriggerPipelineRequest) (user_id : option UUID) :
  update_pipeline tenant_id dump_nested depth pipeline_id data db = Returns p' db' ->
  pu_enabled data = Some false ->
  trigger_pipeline tenant_id pipeline_id request user_id db'
    = Raises (ValidationError "Pipeline is disabled") db'.
Proof.
  intros Hupdate Hoff.
  apply update_pipeline_Returns in Hupdate
    as (p & new_dag & Hp & Hten & Hdel & Hdag & -> & Hp').
  assert (Hget : get_pipeline tenant_id
            (with_pipelines db (<[pipeline_id := p']> (pipelines db))) pipeline_id = Ok p').
  { apply get_pipeline_Ok. simpl. rewrite lookup_insert_eq. by rewrite Hp'. }
  unfold trigger_pipeline. rewrite Hget.
  assert (Hen : p_enabled p' = false) by (by rewrite Hp', Hoff).
  by rewrite Hen.
Qed.

Lemma disabled_pipeline_is_not_triggered_witness :
  trigger_pipeline tenant0 1 request0 None
    (serve_all DagPlain_dump calls_disable db0)
    = Raises (ValidationError "Pipeline is disabled")
             (serve_all DagPlain_dump calls_disable db0).
Proof.
  apply (disabled_pipeline_is_not_triggered tenant0 DagPlain_dump 100 1 update_disable
           (serve_all DagPlain_dump calls_create db0) pipeline1_disabled
           (serve_all DagPlain_dump calls_disable db0) request0 None).
  - vm_compute. reflexivity.
  - reflexivity.
Defined.

Lemma update_pipeline_dag_plain tenant_id depth pipeline_id data db d :
  pu_dag_definition data = Some d ->
  update_pipeline tenant_id DagPlain_dump depth pipeline_id data db
    = Raises (match get_pipeline tenant_id db pipeline_id with
              | Ok _ => AttributeError "model_dump"
              | Raise e => e
              end) db.
Proof.
  intros Hdag. unfold update_pipeline, updated_dag. rewrite Hdag.
  by destruct (get_pipeline tenant_id db pipeline_id).
Qed.

(** X22: when [data.model_dump(exclude_unset=True)] has already turned
    the nested [dag_definition] into its dictionary, as pydantic's dump
    does, the call [update_data["dag_definition"].model_dump()] of
    [update_pipeline] has no such attribute: an update that carries a
    DAG raises [AttributeError] for every pipeline that is found, before
    any validation, and changes nothing.  The DAG of a pipeline can then
    not be replaced. *)
Theorem update_pipeline_dag_on_dumped_dict
    (tenant_id : UUID) (depth : nat) (pipeline_id : UUID) (data : PipelineUpdate)
    (db : Db) (d : DAGDefinition) :
  pu_dag_definition data = Some d ->
  update_pipeline tenant_id DagPlain_dump depth pipeline_id data db
    = Raises (match get_pipeline tenant_id db pipeline_id with
              | Ok _ => AttributeError "model_dump"
              | Raise e => e
              end) db.
Proof. apply update_pipeline_dag_plain. Qed.

Lemma update_pipeline_dag_on_dumped_dict_witness :
  update_pipeline tenant0 DagPlain_dump 100 1 update_dag_chain
    (serve_all DagPlain_dump calls_create db0)
    = Raises (match get_pipeline tenant0 (serve_all DagPlain_dump calls_create db0) 1
              with
              | Ok _ => AttributeError "model_dump"
              | Raise e => e
              end) (serve_all DagPlain_dump calls_create db0).
Proof.
  apply (update_pipeline_dag_on_dumped_dict tenant0 100 1 update_dag_chain
           (serve_all DagPlain_dump calls_create db0) dag_chain).
  reflexivity.
Defined.

(** ** Tenants *)

Lemma other_tenants_untouched_refl tenant_id db :
  other_tenants_untouched tenant_id db db.
Proof. by repeat split. Qed.

Lemma insert_same_tenant {A} (tenant : A -> UUID) (m : gmap UUID A) k0 new tenant_id :
  tenant new = tenant_id ->
  (forall old, m !! k0 = Some old -> tenant old = tenant_id) ->
  forall k x, tenant x <> tenant_id -> <[k0 := new]> m !! k = Some x <-> m !! k = Some x.
Proof.
  intros Hnew Hold k x Hx. destruct (decide (k = k0)) as [-> | Hne].
  - rewrite lookup_insert_eq. split.
    + intros [= <-]. done.
    + intros Hk. by apply Hold in Hk.
  - by rewrite lookup_insert_ne.
Qed.

(** X23: a request writes only rows of the caller's tenant.  Whatever
    the request and whatever ids it names, the pipelines, runs and tasks
    of every other tenant are the same rows before and after it. *)
Theorem serve_writes_only_the_callers_tenant
    (dump_nested : DAGDefinition -> dag_value) (c : Call) (db : Db) :
  other_tenants_untouched (call_tenant c) db (serve dump_nested c db).
Proof.
  destruct c as [tenant_id now request].
  destruct request; unfold serve, get_session, get_session_any; simpl.
  - destruct (create_pipeline _ _ _ _ _) as [p db' | e db'] eqn:Hop; simpl;
      [| apply other_tenants_untouched_refl].
    apply create_pipeline_XReturns in Hop as (Hfresh & -> & Hp & _).
    split; [| done]. simpl. apply insert_same_tenant.
    + by rewrite Hp.
    + intros old Hold. congruence.
  - destruct (update_pipeline _ _ _ _ _ _) as [p' db' | e db'] eqn:Hop; simpl;
      [| apply other_tenants_untouched_refl].
    apply update_pipeline_Returns in Hop as (p & new_dag & Hp & Hten & _ & _ & -> & Hp').
    split; [| done]. simpl. apply insert_same_tenant.
    + by rewrite Hp'.
    + intros old Hold. congruence.
  - destruct (delete_pipeline _ _ _ _) as [u db' | e db'] eqn:Hop; simpl;
      [| apply other_tenants_untouched_refl].
    apply delete_pipeline_Returns in Hop as (p & Hp & Hten & _ & ->).
    split; [| done]. simpl. apply insert_same_tenant.
    + done.
    + intros old Hold. congruence.
  - destruct (trigger_pipeline _ _ _ _ _) as [run db' | e db'] eqn:Hop; simpl;
      [| apply other_tenants_untouched_refl].
    apply trigger_pipeline_Returns in Hop
      as (p & ids & Hp & Hten & Hdel & Hen & Hrun & Hfresh & Hps & Hrs & Hlen & Hnd &
          Hnew & Hother & Hrows).
    split; [by rewrite Hps |]. split.
    + rewrite Hrs. apply insert_same_tenant.
      * by rewrite Hrun.
      * intros old Hold. congruence.
    + intros k t Ht. destruct (decide (k ∈ ids)) as [Hin | Hout].
      * rewrite (Hnew _ Hin). apply list_elem_of_lookup in Hin as [n Hn].
        destruct (lookup_lt_is_Some_2 (get_list (tasks (p_dag_definition p))) n)
          as [task_def Hdef].
        { rewrite <- Hlen. by eapply lookup_lt_Some. }
        destruct (Hrows _ _ _ Hn Hdef) as (tid & _ & ->).
        split; [| done]. intros [= <-]. done.
      * by rewrite (Hother _ Hout).
  - destruct (update_run_status _ _ _ _ _ _) as [run' db' | e db'] eqn:Hop; simpl;
      [| apply other_tenants_untouched_refl].
    apply update_run_status_Returns in Hop as (run & Hrun & Hten & -> & _ & Hten' & _).
    split; [done |]. split; [| done]. simpl. apply insert_same_tenant.
    + congruence.
    + intros old Hold. congruence.
  - destruct (cancel_pipeline_run _ _ _ _) as [run' db' | e db'] eqn:Hop; simpl;
      [| apply other_tenants_untouched_refl].
    apply cancel_pipeline_run_Returns, update_run_status_Returns in Hop
      as (run & Hrun & Hten & -> & _ & Hten' & _).
    split; [done |]. split; [| done]. simpl. apply insert_same_tenant.
    + congruence.
    + intros old Hold. congruence.
  - destruct (update_task_status _ _ _ _ _ _ _) as [task' db' | e db'] eqn:Hop; simpl;
      [| apply other_tenants_untouched_refl].
    apply update_task_status_Returns in Hop as (task & Htask & Hten & -> & _ & Hten' & _).
    split; [done |]. split; [done |]. simpl. apply insert_same_tenant.
    + congruence.
    + intros old Hold. congruence.
Qed.

(** ** The role check *)

(** X24: [require_role] follows the hierarchy VIEWER < DATA_SCIENTIST <
    ML_ENGINEER < ADMIN.  It returns the caller unchanged or raises 403;
    whoever passes the check for a role passes it for every lower role,
    and a caller with a higher role passes wherever one with a lower role
    does; an ADMIN and a superuser pass every check, and a caller without
    a role passes none unless superuser. *)
Theorem require_role_respects_hierarchy (required_role : UserRole) (user : CurrentUser) :
  (forall u, require_role required_role user = inl u -> u = user) /\
  (forall exc, require_role required_role user = inr exc -> status_code exc = 403) /\
  (forall lower,
     role_hierarchy lower <= role_hierarchy required_role ->
     require_role required_role user = inl user ->
     require_role lower user = inl user) /\
  (forall other role role',
     cu_is_superuser other = cu_is_superuser user ->
     cu_role user = Some role -> cu_role other = Some role' ->
     role_hierarchy role <= role_hierarchy role' ->
     require_role required_role user = inl user ->
     require_role required_role other = inl other) /\
  (cu_role user = Some ADMIN \/ cu_is_superuser user = true ->
     require_role required_role user = inl user) /\
  (cu_role user = None -> cu_is_superuser user = false ->
     require_role required_role user = inr (mkHTTPException 403 (Text "No role assigned"))).
Proof.
  unfold require_role. repeat split.
  - intros u. destruct (cu_is_superuser user); [congruence |].
    destruct (cu_role user); [case_decide |]; congruence.
  - intros exc. destruct (cu_is_superuser user); [done |].
    destruct (cu_role user); [case_decide |]; by intros [= <-].
  - intros lower Hle. destruct (cu_is_superuser user); [done |].
    destruct (cu_role user) as [role|]; [| done].
    case_decide; [done |]. intros _. rewrite decide_False; [done | lia].
  - intros other role role' -> -> -> Hle.
    destruct (cu_is_superuser user); [done |].
    case_decide; [done |]. intros _. rewrite decide_False; [done | lia].
  - intros [-> | ->]; [| done]. destruct (cu_is_superuser user); [done |].
    rewrite decide_False; [done |]. destruct required_role; simpl; lia.
  - by intros -> ->.
Qed.

(** ** The routes and the service *)

Lemma answer_any_db {A B} success except (body : A -> B + Exception)
    (f : Db -> xoutcome A) db :
  (answer success except body (f db) db).2 = db \/
  (answer success except body (f db) db).2 = (get_session_any f db).2.
Proof.
  unfold answer, get_session_any.
  destruct (f db) as [a db' | [e | | | |] db']; simpl; try (by left).
  - destruct (body a); simpl; [by right | by left].
  - left. by destruct (except e).
Qed.

Lemma answer_lift_db {A B} success except (body : A -> B + Exception)
    (f : Db -> outcome A) db :
  (answer success except body (lift (f db)) db).2 = db \/
  (answer success except body (lift (f db)) db).2 = (get_session f db).2.
Proof.
  unfold answer, get_session, lift.
  destruct (f db) as [a db' | e db']; simpl.
  - destruct (body a); simpl; [by right | by left].
  - left. by destruct (except e).
Qed.

Lemma answer_reading_db {A B} success except (body : A -> B + Exception)
    (r : result A) db :
  (answer success except body (reading r db) db).2 = db.
Proof.
  destruct r as [a | e]; simpl; [by destruct (body a) | by destruct (except e)].
Qed.

(** A request either leaves the database as it was or does what one
    request to the service does. *)
Lemma handle_serve dump_nested c db :
  (handle dump_nested c db).2 = db \/
  exists tenant_id request,
    made_by_a_route request = true /\
    (handle dump_nested c db).2
      = serve dump_nested (mkCall tenant_id (http_now c) request) db.
Proof.
  destruct c as [user depth now endpoint].
  destruct endpoint; unfold handle, status_and_db; simpl;
    unfold api.create_pipeline, api.get_pipeline, api.update_pipeline,
      api.delete_pipeline, api.trigger_pipeline, api.get_pipeline_run,
      api.cancel_pipeline_run, api.get_pipeline_tasks, with_ml_engineer, with_tenant,
      with_body;
    try (destruct (require_role ML_ENGINEER user) as [u | exc]; [| by left]);
    (destruct (get_tenant_id user) as [tenant_id | exc]; [| by left]);
    try (case_decide; [| by left]); simpl.
  - destruct (answer_any_db 201 except_ConflictError_ValidationError
                 PipelineResponse_model_validate
                 (create_pipeline tenant_id depth data (Some (cu_id u))) db) as [Hdb | Hdb];
      [by left |].
    right. by exists tenant_id, (CreatePipeline depth data (Some (cu_id u))).
  - left. apply answer_reading_db.
  - destruct (answer_lift_db 200 except_NotFoundError_ValidationError
                 PipelineResponse_model_validate
                 (update_pipeline tenant_id dump_nested depth pipeline_id data) db)
      as [Hdb | Hdb]; [by left |].
    right. by exists tenant_id, (UpdatePipeline depth pipeline_id data).
  - destruct (answer_lift_db 204 except_NotFoundError (@inl unit Exception)
                 (delete_pipeline tenant_id now pipeline_id) db) as [Hdb | Hdb];
      [by left |].
    right. by exists tenant_id, (DeletePipeline pipeline_id).
  - destruct (answer_lift_db 201 except_NotFoundError_ValidationError
                 (@inl PipelineRun Exception)
                 (trigger_pipeline tenant_id pipeline_id data (Some (cu_id u))) db)
      as [Hdb | Hdb]; [by left |].
    right. by exists tenant_id, (TriggerPipeline pipeline_id data (Some (cu_id u))).
  - left. apply answer_reading_db.
  - destruct (answer_lift_db 200 except_NotFoundError_ValidationError
                 (@inl PipelineRun Exception)
                 (cancel_pipeline_run tenant_id now run_id) db) as [Hdb | Hdb];
      [by left |].
    right. by exists tenant_id, (CancelPipelineRun run_id).
  - left. apply answer_reading_db.
Qed.

Lemma consistent_handle_all dump_nested calls db :
  consistent db -> consistent (handle_all dump_nested calls db).
Proof.
  revert db. induction calls as [|c calls IH]; intros db Hc; [done |].
  simpl. apply IH.
  destruct (handle_serve dump_nested c db) as [-> | (tenant_id & request & _ & ->)];
    [done | by apply consistent_serve].
Qed.

(** X25: the routes that create, update, delete, trigger and cancel take
    [current_user: MLEngineerUser].  A caller who is no superuser and
    whose role is VIEWER or DATA_SCIENTIST, or who has no role, is
    answered 403 by each of them, whatever the request names, and the
    database is left as it was. *)
Theorem routes_refuse_callers_below_ml_engineer
    (dump_nested : DAGDefinition -> dag_value) (c : HttpCall) (db : Db) :
  needs_ml_engineer (http_endpoint c) = true ->
  cu_is_superuser (http_user c) = false ->
  (forall role, cu_role (http_user c) = Some role ->
                role = VIEWER \/ role = DATA_SCIENTIST) ->
  handle dump_nested c db = (403, db).
Proof.
  destruct c as [user depth now endpoint]. simpl. intros Hneeds Hsuper Hrole.
  assert (Hrefused : exists d, require_role ML_ENGINEER user = inr (mkHTTPException 403 d)).
  { unfold require_role. rewrite Hsuper.
    destruct (cu_role user) as [role|]; [| by eexists].
    destruct (Hrole role eq_refl) as [-> | ->]; simpl; by eexists. }
  destruct Hrefused as [d Hrefused].
  destruct endpoint; try done; unfold handle, status_and_db; simpl;
    unfold api.create_pipeline, api.update_pipeline, api.delete_pipeline,
      api.trigger_pipeline, api.cancel_pipeline_run, with_ml_engineer;
    by rewrite Hrefused.
Qed.

Lemma routes_refuse_callers_below_ml_engineer_witness :
  handle DagPlain_dump (mkHttpCall viewer 100 1 (POST_trigger 1 request0))
         (handle_all DagPlain_dump [http_create] db0)
    = (403, handle_all DagPlain_dump [http_create] db0).
Proof.
  apply (routes_refuse_callers_below_ml_engineer DagPlain_dump
           (mkHttpCall viewer 100 1 (POST_trigger 1 request0))).
  - reflexivity.
  - reflexivity.
  - intros role [= <-]. by left.
Defined.

(** ** What the routes never do *)

Lemma update_run_status_start_time tenant_id now run_id status error_message db run' db' :
  update_run_status tenant_id now run_id status error_message db = Returns run' db' ->
  exists run,
    pipeline_runs db !! run_id = Some run /\
    r_start_time run' = if decide (status = RUNNING /\ r_status run = PENDING)
                        then Some now else r_start_time run.
Proof.
  unfold update_run_status.
  destruct (get_pipeline_run tenant_id db run_id) as [run|] eqn:Hget; [| done].
  apply get_pipeline_run_Ok in Hget as [Hrun Hten].
  intros [= <- <-]. exists run. split; [done |].
  destruct (is_finished status), (truthy error_message); simpl; by case_decide.
Qed.

Lemma trigger_pipeline_task_rows tenant_id pipeline_id data user_id db run db' :
  trigger_pipeline tenant_id pipeline_id data user_id db = Returns run db' ->
  forall k t, pipeline_tasks db' !! k = Some t ->
    pipeline_tasks db !! k = Some t \/
    exists tid, t = new_task tenant_id (r_id run) k tid.
Proof.
  intros Htrigger.
  apply trigger_pipeline_Returns in Htrigger
    as (p & ids & Hp & Hten & Hdel & Hen & Hrun & Hfresh & Hps & Hrs & Hlen & Hnd &
        Hnew & Hother & Hrows).
  intros k t Ht. destruct (decide (k ∈ ids)) as [Hin | Hout].
  - right. apply list_elem_of_lookup in Hin as [n Hn].
    destruct (lookup_lt_is_Some_2 (get_list (tasks (p_dag_definition p))) n)
      as [task_def Hdef].
    { rewrite <- Hlen. by eapply lookup_lt_Some. }
    destruct (Hrows _ _ _ Hn Hdef) as (tid & _ & Hrow).
    exists tid. congruence.
  - left. by rewrite <- (Hother _ Hout).
Qed.

Lemma nothing_started_serve dump_nested c db :
  made_by_a_route (call_request c) = true ->
  nothing_started db -> nothing_started (serve dump_nested c db).
Proof.
  destruct c as [tenant_id now request]. simpl. intros Hroute [Hruns Htasks].
  destruct request; try done; unfold serve, get_session, get_session_any; simpl.
  - destruct (create_pipeline _ _ _ _ _) as [p db' | e db'] eqn:Hop; simpl; [| done].
    by apply create_pipeline_XReturns in Hop as (_ & -> & _).
  - destruct (update_pipeline _ _ _ _ _ _) as [p db' | e db'] eqn:Hop; simpl; [| done].
    by apply update_pipeline_Returns in Hop as (? & ? & _ & _ & _ & _ & -> & _).
  - destruct (delete_pipeline _ _ _ _) as [u db' | e db'] eqn:Hop; simpl; [| done].
    by apply delete_pipeline_Returns in Hop as (? & _ & _ & _ & ->).
  - destruct (trigger_pipeline _ _ _ _ _) as [run db' | e db'] eqn:Hop; simpl; [| done].
    pose proof (trigger_pipeline_task_rows _ _ _ _ _ _ _ Hop) as Hrows.
    apply trigger_pipeline_Returns in Hop
      as (p & ids & _ & _ & _ & _ & Hrun & _ & _ & Hrs & _).
    split.
    + rewrite Hrs. intros k r [[<- <-] | [Hne Hr]]%lookup_insert_Some; [| by eauto].
      rewrite Hrun. simpl. split; [done |]. by left.
    + intros k t [Hold | [tid ->]]%Hrows; [by eauto | done].
  - destruct (cancel_pipeline_run _ _ _ _) as [run' db' | e db'] eqn:Hop; simpl; [| done].
    apply cancel_pipeline_run_Returns in Hop.
    destruct (update_run_status_start_time _ _ _ _ _ _ _ _ Hop) as (run0 & Hrun0 & Hstart).
    apply update_run_status_Returns in Hop
      as (run & Hrun & _ & -> & _ & _ & _ & Hst & Hend).
    rewrite Hrun in Hrun0. injection Hrun0 as <-.
    split; [| done]. simpl.
    intros k r [[<- <-] | [Hne Hr]]%lookup_insert_Some; [| by eauto].
    rewrite Hstart, Hst, Hend. simpl.
    split; [by apply (Hruns _ _ Hrun) |]. right. by split.
Qed.

Lemma nothing_started_handle_all dump_nested calls db :
  nothing_started db -> nothing_started (handle_all dump_nested calls db).
Proof.
  revert db. induction calls as [|c calls IH]; intros db Hc; [done |].
  simpl. apply IH.
  destruct (handle_serve dump_nested c db) as [-> | (tenant_id & request & Hroute & ->)];
    [done | by apply nothing_started_serve].
Qed.

(** X26: the routes never start anything.  After any sequence of HTTP
    requests, by any callers, every run is [PENDING] with no [end_time]
    or [CANCELLED] with one, no run has a [start_time], and every task is
    still [PENDING] without times: no route reaches [update_task_status],
    and [update_run_status] is reached through [cancel_pipeline_run]
    only.  So the [duration_seconds] that the run route computes is never
    set. *)
Theorem routes_start_no_run
    (dump_nested : DAGDefinition -> dag_value) (calls : list HttpCall) (us ts : gset UUID) :
  nothing_started (handle_all dump_nested calls (empty_db us ts)) /\
  (forall run_id user code run duration db',
     api.get_pipeline_run run_id user (handle_all dump_nested calls (empty_db us ts))
       = (Sent code (run, duration), db') ->
     duration = None).
Proof.
  assert (Hstarted : nothing_started (handle_all dump_nested calls (empty_db us ts))).
  { apply nothing_started_handle_all. split; intros k x Hx; simpl in Hx;
      by rewrite lookup_empty in Hx. }
  split; [done |].
  intros run_id user code run duration db'.
  set (db := handle_all dump_nested calls (empty_db us ts)) in *.
  unfold api.get_pipeline_run, with_tenant.
  destruct (get_tenant_id user) as [tenant_id | exc]; [| done].
  destruct (get_pipeline_run tenant_id db run_id) as [r | e] eqn:Hget; simpl.
  - intros [= _ <- <- _]. apply get_pipeline_run_Ok in Hget as [Hr _].
    destruct Hstarted as [Hruns _]. destruct (Hruns _ _ Hr) as [Hstart _].
    unfold duration_seconds. by rewrite Hstart.
  - by destruct (except_NotFoundError e).
Qed.

(** ** The status codes *)

(** X27: over HTTP the failing attribute call of [update_pipeline] is a
    500.  When the dump has turned the nested [dag_definition] into its
    dictionary, a PUT that carries a DAG, from a caller who passes the
    role check and has a tenant, is answered 422 when the schema refuses
    one of the tasks; for a body the schema accepts it is answered 404
    when the pipeline is not found and 500 when it is: the
    [AttributeError] is none of the errors the route catches.  In every
    case the database is left as it was. *)
Theorem put_with_dag_answers_404_or_500
    (user : CurrentUser) (tenant_id : UUID) (depth : nat) (now : datetime)
    (pipeline_id : UUID) (data : PipelineUpdate) (d : DAGDefinition) (db : Db) :
  require_role ML_ENGINEER user = inl user ->
  cu_tenant_id user = Some tenant_id ->
  pu_dag_definition data = Some d ->
  (valid_DAGDefinition d ->
     handle DagPlain_dump (mkHttpCall user depth now (PUT_pipeline pipeline_id data)) db
       = (match get_pipeline tenant_id db pipeline_id with
          | Ok _ => 500
          | Raise _ => 404
          end, db)) /\
  (~ valid_DAGDefinition d ->
     handle DagPlain_dump (mkHttpCall user depth now (PUT_pipeline pipeline_id data)) db
       = (422, db)).
Proof.
  intros Hrole Hten Hdag.
  assert (Hbody : valid_PipelineUpdate data <-> valid_DAGDefinition d).
  { unfold valid_PipelineUpdate. by rewrite Hdag. }
  unfold handle, status_and_db, api.update_pipeline, with_ml_engineer, get_tenant_id,
    with_body.
  simpl. rewrite Hrole, Hten. split; intros Hvalid.
  - rewrite decide_True by by apply Hbody.
    rewrite (update_pipeline_dag_plain tenant_id depth pipeline_id data db d Hdag).
    destruct (get_pipeline tenant_id db pipeline_id) as [p | e] eqn:Hget; simpl; [done |].
    by rewrite (get_pipeline_Raise _ _ _ _ Hget).
  - rewrite decide_False; [done |]. intros H. by apply Hvalid, Hbody.
Qed.

Lemma put_with_dag_answers_404_or_500_witness :
  (valid_DAGDefinition dag_chain ->
     handle DagPlain_dump (mkHttpCall engineer 100 2 (PUT_pipeline 1 update_dag_chain))
            (handle_all DagPlain_dump [http_create] db0)
       = (match get_pipeline tenant0 (handle_all DagPlain_dump [http_create] db0) 1 with
          | Ok _ => 500
          | Raise _ => 404
          end, handle_all DagPlain_dump [http_create] db0)) /\
  (~ valid_DAGDefinition dag_chain ->
     handle DagPlain_dump (mkHttpCall engineer 100 2 (PUT_pipeline 1 update_dag_chain))
            (handle_all DagPlain_dump [http_create] db0)
       = (422, handle_all DagPlain_dump [http_create] db0)).
Proof.
  apply (put_with_dag_answers_404_or_500 engineer tenant0 100 2 1 update_dag_chain dag_chain).
  - reflexivity.
  - reflexivity.
  - reflexivity.
Defined.

(** X28: [PipelineUpdate] puts no bound on [description], the response
    schema does.  A PUT without a DAG and with a description of more
    than 5000 characters, from a caller who passes the role check, on a
    pipeline that is found, is accepted by [update_pipeline] when the
    schedule, if one is given, fits its column of 100 characters: the
    service returns the updated row, the route then fails to build its
    response, the caller is answered 422 and the session is rolled back,
    so the description is not stored.  With a longer schedule the flush
    of the update fails in the service and the answer is 500. *)
Theorem put_long_description_is_rolled_back
    (dump_nested : DAGDefinition -> dag_value)
    (user : CurrentUser) (tenant_id : UUID) (depth : nat) (now : datetime)
    (pipeline_id : UUID) (data : PipelineUpdate) (s : string) (db : Db) (p : Pipeline) :
  require_role ML_ENGINEER user = inl user ->
  cu_tenant_id user = Some tenant_id ->
  get_pipeline tenant_id db pipeline_id = Ok p ->
  pu_dag_definition data = None ->
  pu_description data = Some s ->
  5000 < String.length s ->
  (fits 100 (pu_schedule data) ->
     (exists p' db',
        update_pipeline tenant_id dump_nested depth pipeline_id data db = Returns p' db' /\
        p_description p' = Some s /\
        get_pipeline tenant_id db' pipeline_id = Ok p') /\
     handle dump_nested (mkHttpCall user depth now (PUT_pipeline pipeline_id data)) db
       = (422, db)) /\
  (~ fits 100 (pu_schedule data) ->
     update_pipeline tenant_id dump_nested depth pipeline_id data db
       = Raises (DataError "schedule") db /\
     handle dump_nested (mkHttpCall user depth now (PUT_pipeline pipeline_id data)) db
       = (500, db)).
Proof.
  intros Hrole Hten Hget Hdag Hdesc Hlong.
  assert (Hroute :
    handle dump_nested (mkHttpCall user depth now (PUT_pipeline pipeline_id data)) db
    = status_and_db
        (answer 200 except_NotFoundError_ValidationError PipelineResponse_model_validate
           (lift (update_pipeline tenant_id dump_nested depth pipeline_id data db)) db)).
  { assert (Hbody : valid_PipelineUpdate data).
    { unfold valid_PipelineUpdate. by rewrite Hdag. }
    unfold handle, api.update_pipeline, with_ml_engineer, get_tenant_id, with_body.
    simpl. rewrite Hrole, Hten. by rewrite decide_True. }
  rewrite Hroute. split; intros Hfits.
  - assert (Hupdate : exists p' db',
              update_pipeline tenant_id dump_nested depth pipeline_id data db
                = Returns p' db' /\
              p_description p' = Some s /\
              get_pipeline tenant_id db' pipeline_id = Ok p').
    { destruct (update_pipeline tenant_id dump_nested depth pipeline_id data db)
        as [p' db' | e db'] eqn:Hop.
      - exists p', db'. split; [done |].
        apply update_pipeline_Returns in Hop
          as (p0 & new_dag & Hp0 & Hten0 & Hdel0 & _ & -> & ->).
        rewrite Hdesc. simpl. split; [done |].
        apply get_pipeline_Ok. simpl. by rewrite lookup_insert_eq.
      - exfalso. unfold update_pipeline, updated_dag in Hop.
        rewrite Hget, Hdag in Hop. by rewrite decide_True in Hop. }
    split; [done |].
    destruct Hupdate as (p' & db' & Hop & Hp' & _).
    rewrite Hop. unfold status_and_db. simpl.
    unfold PipelineResponse_model_validate. rewrite decide_False; [done |].
    intros [_ Hlen]. rewrite Hp' in Hlen. simpl in Hlen. lia.
  - assert (Hop : update_pipeline tenant_id dump_nested depth pipeline_id data db
                  = Raises (DataError "schedule") db).
    { unfold update_pipeline, updated_dag. rewrite Hget, Hdag.
      by rewrite decide_False. }
    split; [done |]. by rewrite Hop.
Qed.

Lemma put_long_description_is_rolled_back_witness :
  (fits 100 (pu_schedule update_long_description) ->
     (exists p' db',
        update_pipeline tenant0 DagPlain_dump 100 1 update_long_description
          (serve_all DagPlain_dump calls_create db0) = Returns p' db' /\
        p_description p' = Some long_text /\
        get_pipeline tenant0 db' 1 = Ok p') /\
     handle DagPlain_dump
            (mkHttpCall engineer 100 2 (PUT_pipeline 1 update_long_description))
            (serve_all DagPlain_dump calls_create db0)
       = (422, serve_all DagPlain_dump calls_create db0)) /\
  (~ fits 100 (pu_schedule update_long_description) ->
     update_pipeline tenant0 DagPlain_dump 100 1 update_long_description
       (serve_all DagPlain_dump calls_create db0)
       = Raises (DataError "schedule") (serve_all DagPlain_dump calls_create db0) /\
     handle DagPlain_dump
            (mkHttpCall engineer 100 2 (PUT_pipeline 1 update_long_description))
            (serve_all DagPlain_dump calls_create db0)
       = (500, serve_all DagPlain_dump calls_create db0)).
Proof.
  apply (put_long_description_is_rolled_back DagPlain_dump engineer tenant0 100 2 1
           update_long_description long_text
           (serve_all DagPlain_dump calls_create db0) pipeline1).
  - reflexivity.
  - reflexivity.
  - vm_compute. reflexivity.
  - reflexivity.
  - reflexivity.
  - apply Nat.ltb_lt. vm_compute. reflexivity.
Defined.
